(** * Task workflow service: domain rules and repository protocol

    A shallow embedding of [src/domain/task.ts] (the state machine and the
    assignment rule), of [src/repositories/taskRepository.ts] (idempotent
    create, version-guarded assign and transition, cursor listing) over the
    three tables of [src/db/schema.ts], and of the two mutating handlers of
    [src/controllers/taskController.ts] as far as they read the store and
    call the repository.

    Conventions of the embedding:
    - a table with a primary key is a finite map from that key to the other
      columns ([tasks], [idempotency_keys]); the outbox [task_events] is the
      list of its rows in insertion order, with its primary key checked on
      insert;
    - integers (versions, unix timestamps) are [Z]; JavaScript numbers are
      exact on the range these columns take, and what [parseInt] reads from
      a query parameter is rounded to a double as JavaScript rounds it;
    - a string is the sequence of its code units, each below 256;
    - what the source leaves to the libraries underneath is an input of the
      query that depends on it: the order SQLite gives to rows of equal
      [created_at], and the release of the query builder where releases
      differ;
    - [db.transaction(fn)] runs [fn] against the store and commits its
      writes, or rolls all of them back when [fn] throws;
    - [uuidv4()] and the clock are inputs of the operation that reads them. *)

From Stdlib Require Import Ascii.
From stdpp Require Import base decidable option list strings gmap sorting.

Local Open Scope string_scope.
Local Open Scope Z_scope.

(** ** Domain types ([src/domain/task.ts]) *)

Inductive TaskState := NEW | IN_PROGRESS | DONE | CANCELLED.
Inductive TaskPriority := LOW | MEDIUM | HIGH.

Global Instance TaskState_eq_dec : EqDecision TaskState.
Proof. solve_decision. Defined.
Global Instance TaskPriority_eq_dec : EqDecision TaskPriority.
Proof. solve_decision. Defined.

(** The class [TaskDomain].  [UserRole] is ['agent' | 'manager'] for the
    type checker only: the value is the [X-Role] header, so at run time a
    role is any string. *)
Module TaskDomain.

(** The table [allowed] of [validateTransition]. *)
Definition allowed (currentState : TaskState) : list TaskState :=
  match currentState with
  | NEW => [IN_PROGRESS; CANCELLED]
  | IN_PROGRESS => [DONE; CANCELLED]
  | DONE => []
  | CANCELLED => []
  end.

(** [Array.prototype.includes] on a list of states. *)
Definition includes (l : list TaskState) (x : TaskState) : bool :=
  bool_decide (x ∈ l).

Definition validateTransition
    (currentState toState : TaskState) (role : string)
    (assigneeId : option string) (currentUserId : string) : bool :=
  if negb (includes (allowed currentState) toState) then false
  else if bool_decide (role = "manager") then
    bool_decide (toState = CANCELLED)
  else if bool_decide (role = "agent") then
    if bool_decide (assigneeId ≠ Some currentUserId) then false
    else if bool_decide (currentState = NEW) && bool_decide (toState = IN_PROGRESS)
    then true
    else if bool_decide (currentState = IN_PROGRESS) && bool_decide (toState = DONE)
    then true
    else false
  else false.

Definition canAssign (state : TaskState) (role : string) : bool :=
  if bool_decide (role ≠ "manager") then false
  else bool_decide (state = NEW) || bool_decide (state = IN_PROGRESS).

End TaskDomain.

(** ** The decision rule as the specification words it *)

Module StateMachineSpec.

(** The four edges of the transition table. *)
Definition edge (from to : TaskState) : Prop :=
  (from = NEW ∧ to = IN_PROGRESS) ∨ (from = NEW ∧ to = CANCELLED) ∨
  (from = IN_PROGRESS ∧ to = DONE) ∨ (from = IN_PROGRESS ∧ to = CANCELLED).

(** The role overlay: a manager may only cancel; an agent must be the
    assignee and may only start or complete; nobody else may do anything. *)
Definition overlay (from to : TaskState) (role : string)
    (assigneeId : option string) (actorId : string) : Prop :=
  (role = "manager" ∧ to = CANCELLED) ∨
  (role = "agent" ∧ assigneeId = Some actorId ∧
   ((from = NEW ∧ to = IN_PROGRESS) ∨ (from = IN_PROGRESS ∧ to = DONE))).

Definition decide_ok from to role assigneeId actorId : Prop :=
  edge from to ∧ overlay from to role assigneeId actorId.

Definition terminal (s : TaskState) : Prop := s = DONE ∨ s = CANCELLED.

End StateMachineSpec.

(** ** JavaScript values the repository tests or parses *)

(** A JavaScript number as the repository meets it: [NaN], an integer, or
    an infinity.  [parseInt] yields no other. *)
Inductive number := NaN | Num (z : Z) | Infinity (negative : bool).

Global Instance number_eq_dec : EqDecision number.
Proof. solve_decision. Defined.

Module Js.

(** [if (v)] on a [string | undefined]: the branch is taken when [v] is a
    non-empty string, and then [v] is that string. *)
Definition present (v : option string) : option string :=
  match v with
  | Some s => if bool_decide (s = "") then None else Some s
  | None => None
  end.

(** [v || d] on a [number | undefined]: [undefined], [NaN] and [0] are
    falsy. *)
Definition or_else (v : option number) (d : Z) : number :=
  match v with
  | Some (Num z) => if bool_decide (z = 0) then Num d else Num z
  | Some (Infinity negative) => Infinity negative
  | Some NaN | None => Num d
  end.

(** White space and line terminators, which [parseInt] skips: of the code
    units below 256 these are 9 to 13, 32 and 160 (the no-break space). *)
Definition is_space (c : ascii) : bool :=
  let n := Z.of_nat (nat_of_ascii c) in
  ((9 <=? n) && (n <=? 13)) || (n =? 32) || (n =? 160).

Fixpoint skip_space (s : string) : string :=
  match s with
  | String c s' => if is_space c then skip_space s' else s
  | EmptyString => s
  end.

(** The value of [c] as a digit of the given radix (10 or 16). *)
Definition digit_value (radix : Z) (c : ascii) : option Z :=
  let n := Z.of_nat (nat_of_ascii c) in
  let v :=
    if (48 <=? n) && (n <=? 57) then Some (n - 48)
    else if (97 <=? n) && (n <=? 102) then Some (n - 87)
    else if (65 <=? n) && (n <=? 70) then Some (n - 55)
    else None in
  match v with
  | Some d => if d <? radix then Some d else None
  | None => None
  end.

(** The longest prefix of digits, read in the radix; [None] when it is
    empty. *)
Fixpoint digits (radix : Z) (s : string) (acc : option Z) : option Z :=
  match s with
  | String c s' =>
      match digit_value radix c with
      | Some d => digits radix s' (Some (radix * default 0 acc + d))
      | None => acc
      end
  | EmptyString => acc
  end.

(** The Number value of an integer.  A double keeps 53 bits: an integer of
    more bits is rounded to the nearest integer that has only zeros below
    its 53 leading bits, to the even one of two that are equally near, and
    to an infinity when that reaches [2 ^ 1024]. *)
Definition of_integer (z : Z) : number :=
  let a := Z.abs z in
  let low := Z.log2 a - 52 in
  if bool_decide (low ≤ 0) then Num z
  else
    let kept := Z.shiftr a low in
    let rest := Z.land a (Z.ones low) in
    let half := Z.shiftl 1 (low - 1) in
    let kept :=
      if bool_decide (rest < half) then kept
      else if bool_decide (half < rest) then kept + 1
      else if Z.even kept then kept else kept + 1 in
    let rounded := Z.shiftl kept low in
    if bool_decide (2 ^ 1024 ≤ rounded) then Infinity (bool_decide (z < 0))
    else Num (Z.sgn z * rounded).

(** [parseInt(s)] with no radix argument: leading white space, an optional
    sign, an optional [0x] prefix, then the longest prefix of digits. *)
Definition parseInt (s : string) : number :=
  let s := skip_space s in
  let '(sign, s) :=
    match s with
    | String "-"%char r => (-1, r)
    | String "+"%char r => (1, r)
    | _ => (1, s)
    end in
  let '(radix, s) :=
    match s with
    | String "0"%char (String "x"%char r) => (16, r)
    | String "0"%char (String "X"%char r) => (16, r)
    | _ => (10, s)
    end in
  match digits radix s None with
  | Some v => of_integer (sign * v)
  | None => NaN
  end.

End Js.

(** ** Tables ([src/db/schema.ts]) *)

(** A row of [tasks]; its primary key [id] is the key it is stored under. *)
Module Task.
Record t := mk {
  tenantId : string;
  workspaceId : string;
  title : string;
  priority : TaskPriority;
  state : TaskState;
  assigneeId : option string;
  version : Z;
  createdAt : Z;
  updatedAt : Z;
}.
End Task.

(** The argument of [create]: a task without [version], [createdAt] and
    [updatedAt]. *)
Module NewTask.
Record t := mk {
  id : string;
  tenantId : string;
  workspaceId : string;
  title : string;
  priority : TaskPriority;
  state : TaskState;
  assigneeId : option string;
}.
End NewTask.

(** What the three mutations return: [{ task_id, state, version }]. *)
Module Response.
Record t := mk {
  task_id : string;
  state : TaskState;
  version : Z;
}.
End Response.

(** The JSON payload of an outbox event, one shape per event type. *)
Inductive Payload :=
  | Snapshot (task : NewTask.t) (version : Z)
  | Assignee (assigneeId : string)
  | FromTo (from to : TaskState).

(** A row of [task_events]. *)
Module Event.
Record t := mk {
  id : string;
  taskId : string;
  eventType : string;
  payload : Payload;
  createdAt : Z;
}.
End Event.

(** A row of [idempotency_keys]; its primary key [key] is the key it is
    stored under. *)
Module IdempotencyKey.
Record t := mk {
  responsePayload : Response.t;
  createdAt : Z;
}.
End IdempotencyKey.

Global Instance Task_eq_dec : EqDecision Task.t.
Proof. solve_decision. Defined.
Global Instance NewTask_eq_dec : EqDecision NewTask.t.
Proof. solve_decision. Defined.
Global Instance Response_eq_dec : EqDecision Response.t.
Proof. solve_decision. Defined.
Global Instance Payload_eq_dec : EqDecision Payload.
Proof. solve_decision. Defined.
Global Instance Event_eq_dec : EqDecision Event.t.
Proof. solve_decision. Defined.
Global Instance IdempotencyKey_eq_dec : EqDecision IdempotencyKey.t.
Proof. solve_decision. Defined.

Record Store := mkStore {
  tasks : gmap string Task.t;
  taskEvents : list Event.t;
  idempotencyKeys : gmap string IdempotencyKey.t;
}.

(** ** Transactions *)

(** What a repository call throws: one of its own three errors, or an
    error of SQLite, a unique column that already holds the value or a
    LIMIT that is no integer. *)
Inductive Error :=
  | TaskNotFound
  | VersionMismatch
  | InvalidState
  | SqliteConstraint (column : string)
  | SqliteMismatch.

Inductive Result (A : Type) :=
  | Ok (a : A)
  | Throw (e : Error).
Arguments Ok {A} a.
Arguments Throw {A} e.

Global Instance Error_eq_dec : EqDecision Error.
Proof. solve_decision. Defined.
Global Instance Result_eq_dec `{EqDecision A} : EqDecision (Result A).
Proof. solve_decision. Defined.

(** The body of a transaction: it reads and writes the store, and may
    throw. *)
Definition Tx (A : Type) : Type := Store → Result (A * Store).

Module Tx.

Definition ret {A} (a : A) : Tx A := λ db, Ok (a, db).

Definition bind {A B} (m : Tx A) (k : A → Tx B) : Tx B :=
  λ db, match m db with
        | Ok (a, db') => k a db'
        | Throw e => Throw e
        end.

Definition throw {A} (e : Error) : Tx A := λ _, Throw e.

(** [db.transaction(fn)]: commit the writes of [fn] with its result, or
    keep the store as it was and pass the error on. *)
Definition transaction {A} (fn : Tx A) (db : Store) : Result A * Store :=
  match fn db with
  | Ok (a, db') => (Ok a, db')
  | Throw e => (Throw e, db)
  end.

(** [tx.select().from(tasks).where(eq(tasks.id, id)).get()] *)
Definition select_task (id : string) : Tx (option Task.t) :=
  λ db, Ok (tasks db !! id, db).

(** [tx.insert(tasks).values(row).run()]: a second row with the same
    primary key is refused. *)
Definition insert_task (id : string) (row : Task.t) : Tx unit :=
  λ db, match tasks db !! id with
        | Some _ => Throw (SqliteConstraint "tasks.id")
        | None => Ok ((), mkStore (<[id := row]> (tasks db)) (taskEvents db)
                                  (idempotencyKeys db))
        end.

(** [tx.update(tasks).set(..).where(..).run()]: every row the condition
    selects is rewritten; the number of rows changed is not looked at. *)
Definition update_tasks (set : Task.t → Task.t) (cond : string → Task.t → bool)
    : Tx unit :=
  λ db, Ok ((), mkStore
                  (map_imap (λ id row, Some (if cond id row then set row else row))
                            (tasks db))
                  (taskEvents db) (idempotencyKeys db)).

(** [tx.insert(taskEvents).values(ev).run()] *)
Definition insert_event (ev : Event.t) : Tx unit :=
  λ db, if bool_decide (Event.id ev ∈ Event.id <$> taskEvents db)
        then Throw (SqliteConstraint "task_events.id")
        else Ok ((), mkStore (tasks db) (taskEvents db ++ [ev])
                             (idempotencyKeys db)).

(** [tx.select().from(idempotencyKeys).where(eq(idempotencyKeys.key, key)).get()] *)
Definition select_idempotencyKey (key : string) : Tx (option IdempotencyKey.t) :=
  λ db, Ok (idempotencyKeys db !! key, db).

(** [tx.insert(idempotencyKeys).values(..).run()] *)
Definition insert_idempotencyKey (key : string) (row : IdempotencyKey.t) : Tx unit :=
  λ db, match idempotencyKeys db !! key with
        | Some _ => Throw (SqliteConstraint "idempotency_keys.key")
        | None => Ok ((), mkStore (tasks db) (taskEvents db)
                                  (<[key := row]> (idempotencyKeys db)))
        end.

End Tx.

Declare Scope tx_scope.
Delimit Scope tx_scope with tx.
Notation "'let!' x ':=' m 'in' k" := (Tx.bind m (λ x, k))
  (at level 10, x name, m at level 100, k at level 200) : tx_scope.

(** ** The repository ([src/repositories/taskRepository.ts]) *)

(** The [filters] argument of [list]; its [limit] is a number as the
    controller passes it, read by [parseInt] or 20. *)
Module Filters.
Record t := mk {
  state : option string;
  assigneeId : option string;
  limit : option number;
  cursor : option string;
}.
End Filters.

(** The text stored in the [state] column. *)
Definition state_text (s : TaskState) : string :=
  match s with
  | NEW => "NEW"
  | IN_PROGRESS => "IN_PROGRESS"
  | DONE => "DONE"
  | CANCELLED => "CANCELLED"
  end.

(** [ORDER BY created_at DESC]: the row before is at least as recent. *)
Definition created_desc (a b : string * Task.t) : Prop :=
  (Task.createdAt b.2 ≤ Task.createdAt a.2)%Z.

Global Instance created_desc_dec a b : Decision (created_desc a b).
Proof. unfold created_desc. apply _. Defined.

(** The order a query with [ORDER BY created_at DESC] returns its rows in.
    SQLite leaves the order of rows of equal [created_at] to the plan of
    the query; [tie] ranks the primary keys as that plan meets them. *)
Definition created_desc_tie (tie : string → Z) (a b : string * Task.t) : Prop :=
  (Task.createdAt b.2 < Task.createdAt a.2
   ∨ (Task.createdAt b.2 = Task.createdAt a.2 ∧ tie a.1 ≤ tie b.1))%Z.

Global Instance created_desc_tie_dec tie a b : Decision (created_desc_tie tie a b).
Proof. unfold created_desc_tie. apply _. Defined.

(** [.limit(n)] of the query builder writes a LIMIT clause or leaves it
    out.  The releases of drizzle-orm differ in the test: the earlier ones
    write it for a truthy [n] ([limit ? sql`limit ${limit}` : undefined]),
    the later ones for a number that is not negative
    ([typeof limit === 'number' && limit >= 0]). *)
Inductive Drizzle := LimitWhenTruthy | LimitWhenNotNegative.

Module Sqlite.

(** [column < ?] on an integer column, with a JavaScript number bound to
    the parameter. *)
Definition less (z : Z) (n : number) : bool :=
  match n with
  | Num y => bool_decide (z < y)
  | Infinity negative => negb negative
  | NaN => false
  end.

(** The integer LIMIT makes of a number bound to it.  The driver binds a
    JavaScript number as a REAL, and LIMIT takes a REAL that is an integer
    strictly between the least and the greatest integer of 64 bits; any
    other is refused with [datatype mismatch]. *)
Definition must_be_int (n : number) : option Z :=
  match n with
  | Num z => if bool_decide (- 2 ^ 63 < z < 2 ^ 63 - 1) then Some z else None
  | _ => None
  end.

(** [LIMIT n] for an integer [n]: the first [n] rows, and all of them when
    [n] is negative. *)
Definition first_rows {A} (n : Z) (rows : list A) : list A :=
  if bool_decide (n < 0) then rows else take (Z.to_nat n) rows.

End Sqlite.

(** Whether [.limit(n)] writes the clause. *)
Definition writes_limit (release : Drizzle) (n : number) : bool :=
  match release, n with
  | _, NaN => false
  | LimitWhenTruthy, Num z => negb (bool_decide (z = 0))
  | LimitWhenTruthy, Infinity _ => true
  | LimitWhenNotNegative, Num z => bool_decide (0 ≤ z)
  | LimitWhenNotNegative, Infinity negative => negb negative
  end.

(** [.limit(n).all()] on the rows the query selected and ordered. *)
Definition sql_limit {A} (release : Drizzle) (n : number) (rows : list A)
    : Result (list A) :=
  if writes_limit release n then
    match Sqlite.must_be_int n with
    | Some z => Ok (Sqlite.first_rows z rows)
    | None => Throw SqliteMismatch
    end
  else Ok rows.

Module TaskRepository.

Import Tx.
Local Open Scope tx_scope.

(** [.set({ assigneeId, version, updatedAt })] *)
Definition set_assignee (assigneeId : string) (version updatedAt : Z)
    (row : Task.t) : Task.t :=
  {| Task.tenantId := Task.tenantId row;
     Task.workspaceId := Task.workspaceId row;
     Task.title := Task.title row;
     Task.priority := Task.priority row;
     Task.state := Task.state row;
     Task.assigneeId := Some assigneeId;
     Task.version := version;
     Task.createdAt := Task.createdAt row;
     Task.updatedAt := updatedAt |}.

(** [.set({ state, version, updatedAt })] *)
Definition set_state (state : TaskState) (version updatedAt : Z)
    (row : Task.t) : Task.t :=
  {| Task.tenantId := Task.tenantId row;
     Task.workspaceId := Task.workspaceId row;
     Task.title := Task.title row;
     Task.priority := Task.priority row;
     Task.state := state;
     Task.assigneeId := Task.assigneeId row;
     Task.version := version;
     Task.createdAt := Task.createdAt row;
     Task.updatedAt := updatedAt |}.

(** [.where(and(eq(tasks.id, taskId), eq(tasks.version, currentVersion)))] *)
Definition id_and_version (taskId : string) (currentVersion : Z)
    (id : string) (row : Task.t) : bool :=
  bool_decide (id = taskId) && bool_decide (Task.version row = currentVersion).

(** The row [create] inserts: the task with [version: 1], and the
    column defaults for the two timestamps. *)
Definition new_row (task : NewTask.t) (now : Z) : Task.t :=
  {| Task.tenantId := NewTask.tenantId task;
     Task.workspaceId := NewTask.workspaceId task;
     Task.title := NewTask.title task;
     Task.priority := NewTask.priority task;
     Task.state := NewTask.state task;
     Task.assigneeId := NewTask.assigneeId task;
     Task.version := 1;
     Task.createdAt := now;
     Task.updatedAt := now |}.

Definition create (task : NewTask.t) (idempotencyKey : option string)
    (now : Z) (uuid : string) : Store → Result Response.t * Store :=
  transaction (
    (* 1. Idempotency Check *)
    let! cached :=
      match Js.present idempotencyKey with
      | Some key =>
          let! existing := select_idempotencyKey key in
          ret (IdempotencyKey.responsePayload <$> existing)
      | None => ret None
      end in
    match cached with
    | Some response => ret response
    | None =>
        (* 2. Insert Task *)
        let! _ := insert_task (NewTask.id task) (new_row task now) in
        (* 3. Outbox Event *)
        let! _ := insert_event
          {| Event.id := uuid;
             Event.taskId := NewTask.id task;
             Event.eventType := "TaskCreated";
             Event.payload := Snapshot task 1;
             Event.createdAt := now |} in
        let result :=
          {| Response.task_id := NewTask.id task;
             Response.state := NewTask.state task;
             Response.version := 1 |} in
        (* 4. Save Idempotency Key *)
        let! _ :=
          match Js.present idempotencyKey with
          | Some key =>
              insert_idempotencyKey key
                {| IdempotencyKey.responsePayload := result;
                   IdempotencyKey.createdAt := now |}
          | None => ret ()
          end in
        ret result
    end).

Definition assign (taskId assigneeId : string) (currentVersion : Z)
    (now : Z) (uuid : string) : Store → Result Response.t * Store :=
  transaction (
    let! task := select_task taskId in
    match task with
    | None => throw TaskNotFound
    | Some task =>
        if bool_decide (Task.version task ≠ currentVersion)
        then throw VersionMismatch
        else if bool_decide (Task.state task = DONE)
                || bool_decide (Task.state task = CANCELLED)
        then throw InvalidState
        else
          (* Update *)
          let nextVersion := currentVersion + 1 in
          let! _ := update_tasks
            (set_assignee assigneeId nextVersion now)
            (id_and_version taskId currentVersion) in
          (* Outbox *)
          let! _ := insert_event
            {| Event.id := uuid;
               Event.taskId := taskId;
               Event.eventType := "TaskAssigned";
               Event.payload := Assignee assigneeId;
               Event.createdAt := now |} in
          ret {| Response.task_id := taskId;
                 Response.state := Task.state task;
                 Response.version := nextVersion |}
    end).

Definition transition (taskId : string) (toState : TaskState)
    (currentVersion : Z) (now : Z) (uuid : string)
    : Store → Result Response.t * Store :=
  transaction (
    let! task := select_task taskId in
    match task with
    | None => throw TaskNotFound
    | Some task =>
        if bool_decide (Task.version task ≠ currentVersion)
        then throw VersionMismatch
        else
          let nextVersion := currentVersion + 1 in
          let! _ := update_tasks
            (set_state toState nextVersion now)
            (id_and_version taskId currentVersion) in
          (* Outbox *)
          let! _ := insert_event
            {| Event.id := uuid;
               Event.taskId := taskId;
               Event.eventType := "TaskStateChanged";
               Event.payload := FromTo (Task.state task) toState;
               Event.createdAt := now |} in
          ret {| Response.task_id := taskId;
                 Response.state := toState;
                 Response.version := nextVersion |}
    end).

(** The conditions of [list], in the order they are pushed. *)
Definition conditions (workspaceId tenantId : string) (filters : Filters.t)
    : Datatypes.list (string * Task.t → bool) :=
  [ (λ r, bool_decide (Task.workspaceId r.2 = workspaceId));
    (λ r, bool_decide (Task.tenantId r.2 = tenantId)) ]
  ++ match Js.present (Filters.state filters) with
     | Some st => [ λ r, bool_decide (state_text (Task.state r.2) = st) ]
     | None => []
     end
  ++ match Js.present (Filters.assigneeId filters) with
     | Some a => [ λ r, bool_decide (Task.assigneeId r.2 = Some a) ]
     | None => []
     end
  ++ match Js.present (Filters.cursor filters) with
     | Some c =>
         match Js.parseInt c with
         | NaN => []
         | cursorTimestamp =>
             [ λ r, Sqlite.less (Task.createdAt r.2) cursorTimestamp ]
         end
     | None => []
     end.

(** [and(...conditions)] *)
Definition and_ {A} (cs : Datatypes.list (A → bool)) (r : A) : bool :=
  forallb (λ c, c r) cs.

(** The rows come back paired with their primary key, or the query
    throws. *)
Definition list (workspaceId tenantId : string) (filters : Filters.t)
    (release : Drizzle) (tie : string → Z) (db : Store)
    : Result (Datatypes.list (string * Task.t)) :=
  let limit := Js.or_else (Filters.limit filters) 20 in
  sql_limit release limit
    (merge_sort (created_desc_tie tie)
       (filter (λ r, and_ (conditions workspaceId tenantId filters) r = true)
               (map_to_list (tasks db)))).

End TaskRepository.

(** ** The controller ([src/controllers/taskController.ts])

    The handlers of [assign] and [transition], for requests that carry the
    tenant, role, user and version headers (the others are answered 400
    before anything is read).  A handler reads the task with [findById],
    gives way to other handlers at that [await], and then runs the rest, the
    repository call included, in one piece. *)

Module TaskController.

Inductive Body :=
  | Json (result : Response.t)
  | ErrorText (error : string)
  | Issues.

Record Reply := mkReply { status : Z; body : Body }.

Inductive Request :=
  | AssignRequest (role tenantId workspaceId taskId : string)
                  (ifMatchVersion : Z) (assignee_id : string)
  | TransitionRequest (role tenantId currentUserId workspaceId taskId : string)
                      (ifMatchVersion : Z) (to_state : TaskState).

(** [taskRepo.findById(taskId, tenantId)], without the timeline, which
    these two handlers do not read. *)
Definition findById (taskId tenantId : string) (db : Store) : option Task.t :=
  match tasks db !! taskId with
  | Some task =>
      if bool_decide (Task.tenantId task = tenantId) then Some task else None
  | None => None
  end.

(** [e.message] *)
Definition message (e : Error) : string :=
  match e with
  | TaskNotFound => "TaskNotFound"
  | VersionMismatch => "VersionMismatch"
  | InvalidState => "InvalidState"
  | SqliteConstraint column => "UNIQUE constraint failed: " ++ column
  | SqliteMismatch => "datatype mismatch"
  end.

(** The [catch] of [assign], after the call returned or threw. *)
Definition assign_reply (result : Result Response.t) : Reply :=
  match result with
  | Ok r => mkReply 200 (Json r)
  | Throw TaskNotFound => mkReply 404 (ErrorText "Task not found")
  | Throw VersionMismatch => mkReply 409 (ErrorText "Version mismatch")
  | Throw InvalidState =>
      mkReply 409 (ErrorText "Task state allows assignment only in NEW or IN_PROGRESS")
  | Throw e => mkReply 500 (ErrorText (message e))
  end.

(** The [catch] of [transition]. *)
Definition transition_reply (result : Result Response.t) : Reply :=
  match result with
  | Ok r => mkReply 200 (Json r)
  | Throw VersionMismatch => mkReply 409 (ErrorText "Version mismatch")
  | Throw e => mkReply 500 (ErrorText (message e))
  end.

(** Where a handler stands: before its read, after it with the task it
    read, or done. *)
Inductive Handler :=
  | Received (req : Request)
  | Loaded (req : Request) (task : option Task.t)
  | Replied (reply : Reply).

(** Up to the [await] of [findById]: the body and role checks, and the
    read. *)
Definition read (req : Request) (db : Store) : Handler :=
  match req with
  | AssignRequest role tenantId _ taskId _ assignee_id =>
      if bool_decide (assignee_id = "") then Replied (mkReply 400 Issues)
      else if bool_decide (role ≠ "manager")
      then Replied (mkReply 403 (ErrorText "Only manager can assign tasks"))
      else Loaded req (findById taskId tenantId db)
  | TransitionRequest _ tenantId _ _ taskId _ to_state =>
      if bool_decide (to_state = NEW) then Replied (mkReply 400 Issues)
      else Loaded req (findById taskId tenantId db)
  end.

(** From the [await] on, with the task that was read before it: existence
    and workspace checks, for [transition] the state machine, and the
    repository call. *)
Definition finish (req : Request) (task : option Task.t) (now : Z) (uuid : string)
    (db : Store) : Reply * Store :=
  match task with
  | None => (mkReply 404 (ErrorText "Task not found"), db)
  | Some task =>
      match req with
      | AssignRequest _ _ workspaceId taskId ifMatchVersion assignee_id =>
          if bool_decide (Task.workspaceId task ≠ workspaceId)
          then (mkReply 404 (ErrorText "Task not found in this workspace"), db)
          else
            let '(result, db') :=
              TaskRepository.assign taskId assignee_id ifMatchVersion now uuid db in
            (assign_reply result, db')
      | TransitionRequest role _ currentUserId workspaceId taskId ifMatchVersion
                          to_state =>
          if bool_decide (Task.workspaceId task ≠ workspaceId)
          then (mkReply 404 (ErrorText "Task not found in this workspace"), db)
          else if negb (TaskDomain.validateTransition (Task.state task) to_state role
                          (Task.assigneeId task) currentUserId)
          then (mkReply 409 (ErrorText "Invalid transition or unauthorized"), db)
          else
            let '(result, db') :=
              TaskRepository.transition taskId to_state ifMatchVersion now uuid db in
            (transition_reply result, db')
      end
  end.

(** One uninterrupted piece of a handler; [now] and [uuid] are what its
    repository call reads from the clock and from [uuidv4()]. *)
Definition step (h : Handler) (now : Z) (uuid : string) (db : Store)
    : Handler * Store :=
  match h with
  | Received req => (read req db, db)
  | Loaded req task =>
      let '(reply, db') := finish req task now uuid db in (Replied reply, db')
  | Replied _ => (h, db)
  end.

(** Which of two handlers in flight runs its next piece. *)
Inductive Turn := First | Second.

Fixpoint interleave (turns : list Turn) (a b : Handler)
    (now_a : Z) (uuid_a : string) (now_b : Z) (uuid_b : string) (db : Store)
    : Handler * Handler * Store :=
  match turns with
  | [] => (a, b, db)
  | First :: rest =>
      let '(a', db') := step a now_a uuid_a db in
      interleave rest a' b now_a uuid_a now_b uuid_b db'
  | Second :: rest =>
      let '(b', db') := step b now_b uuid_b db in
      interleave rest a b' now_a uuid_a now_b uuid_b db'
  end.

(** A handler run from start to end with no other handler in between. *)
Definition alone (req : Request) (now : Z) (uuid : string) (db : Store)
    : Handler * Store :=
  let '(h, db') := step (Received req) now uuid db in step h now uuid db'.

(** The task and the version a request names. *)
Definition names (req : Request) : string * Z :=
  match req with
  | AssignRequest _ _ _ taskId v _ => (taskId, v)
  | TransitionRequest _ _ _ _ taskId v _ => (taskId, v)
  end.

(** The checks of [finish] on the task that was read. *)
Definition passes (req : Request) (task : Task.t) : bool :=
  match req with
  | AssignRequest _ _ workspaceId _ _ _ =>
      bool_decide (Task.workspaceId task = workspaceId)
  | TransitionRequest role _ currentUserId workspaceId _ _ to_state =>
      bool_decide (Task.workspaceId task = workspaceId)
      && TaskDomain.validateTransition (Task.state task) to_state role
           (Task.assigneeId task) currentUserId
  end.

(** The [catch] of the handler of a request. *)
Definition reply_of (req : Request) (result : Result Response.t) : Reply :=
  match req with
  | AssignRequest _ _ _ _ _ _ => assign_reply result
  | TransitionRequest _ _ _ _ _ _ _ => transition_reply result
  end.

End TaskController.

(** ** What the mutations write

    The event each mutation appends, and the response and the store of a
    [create] that creates. *)

Module Outcome.

Definition assigned_event (taskId assigneeId : string) (now : Z) (uuid : string)
    : Event.t :=
  {| Event.id := uuid; Event.taskId := taskId;
     Event.eventType := "TaskAssigned";
     Event.payload := Assignee assigneeId; Event.createdAt := now |}.

Definition changed_event (taskId : string) (from to : TaskState) (now : Z)
    (uuid : string) : Event.t :=
  {| Event.id := uuid; Event.taskId := taskId;
     Event.eventType := "TaskStateChanged";
     Event.payload := FromTo from to; Event.createdAt := now |}.

Definition created_event (new : NewTask.t) (now : Z) (uuid : string) : Event.t :=
  {| Event.id := uuid; Event.taskId := NewTask.id new;
     Event.eventType := "TaskCreated";
     Event.payload := Snapshot new 1; Event.createdAt := now |}.

Definition created_response (new : NewTask.t) : Response.t :=
  {| Response.task_id := NewTask.id new; Response.state := NewTask.state new;
     Response.version := 1 |}.

(** The store a creating [create] leaves. *)
Definition created_store (db : Store) (new : NewTask.t)
    (idempotencyKey : option string) (now : Z) (uuid : string) : Store :=
  mkStore (<[NewTask.id new := TaskRepository.new_row new now]> (tasks db))
          (taskEvents db ++ [created_event new now uuid])
          (match Js.present idempotencyKey with
           | Some key =>
               <[key := {| IdempotencyKey.responsePayload := created_response new;
                           IdempotencyKey.createdAt := now |}]> (idempotencyKeys db)
           | None => idempotencyKeys db
           end).

Definition uncached (db : Store) (idempotencyKey : option string) : Prop :=
  ∀ key, Js.present idempotencyKey = Some key → idempotencyKeys db !! key = None.

End Outcome.

(** ** Calls and schedules

    Each mutation is one synchronous transaction on the one connection of
    [src/db/index.ts], so calls issued concurrently run one after the other,
    in some order. *)

Inductive Call :=
  | Create (task : NewTask.t) (idempotencyKey : option string) (now : Z) (uuid : string)
  | Assign (taskId assigneeId : string) (currentVersion : Z) (now : Z) (uuid : string)
  | Transition (taskId : string) (toState : TaskState) (currentVersion : Z)
               (now : Z) (uuid : string).

Definition exec (c : Call) : Store → Result Response.t * Store :=
  match c with
  | Create task key now uuid => TaskRepository.create task key now uuid
  | Assign taskId assigneeId v now uuid =>
      TaskRepository.assign taskId assigneeId v now uuid
  | Transition taskId toState v now uuid =>
      TaskRepository.transition taskId toState v now uuid
  end.

(** The outcomes of a schedule, in order, and the store it leaves. *)
Fixpoint run (calls : list Call) (db : Store)
    : list (Result Response.t) * Store :=
  match calls with
  | [] => ([], db)
  | c :: rest =>
      let '(r, db') := exec c db in
      let '(rs, db'') := run rest db' in
      (r :: rs, db'')
  end.

(** The task a call of [assign] or [transition] is about, and the version
    it expects. *)
Definition target (c : Call) : option (string * Z) :=
  match c with
  | Create _ _ _ _ => None
  | Assign taskId _ v _ _ => Some (taskId, v)
  | Transition taskId _ v _ _ => Some (taskId, v)
  end.

(** The repository call a request leads to. *)
Definition call_of (req : TaskController.Request) (now : Z) (uuid : string) : Call :=
  match req with
  | TaskController.AssignRequest _ _ _ taskId v assignee_id =>
      Assign taskId assignee_id v now uuid
  | TaskController.TransitionRequest _ _ _ _ taskId v to_state =>
      Transition taskId to_state v now uuid
  end.

(** The event a call of [assign] or [transition] appends, given the state
    the task was in. *)
Definition matching_event (c : Call) (from : TaskState) : option Event.t :=
  match c with
  | Create _ _ _ _ => None
  | Assign taskId assigneeId _ now uuid =>
      Some (Outcome.assigned_event taskId assigneeId now uuid)
  | Transition taskId toState _ now uuid =>
      Some (Outcome.changed_event taskId from toState now uuid)
  end.

(** The version stored for a task, when the task is stored. *)
Definition version_of (db : Store) (taskId : string) : option Z :=
  Task.version <$> tasks db !! taskId.

(** The identifiers in use in the outbox. *)
Definition event_ids (db : Store) : list string := Event.id <$> taskEvents db.

(** ** Scenarios *)

Module Scenario.

Definition empty : Store := mkStore ∅ [] ∅.

Definition request (id title : string) (priority : TaskPriority) : NewTask.t :=
  {| NewTask.id := id; NewTask.tenantId := "tenant_1";
     NewTask.workspaceId := "ws_1"; NewTask.title := title;
     NewTask.priority := priority; NewTask.state := NEW;
     NewTask.assigneeId := None |}.

(** One task [t1], created at time 100. *)
Definition created : Store :=
  (TaskRepository.create (request "t1" "Implement auth" HIGH) None 100 "e1" empty).2.

(** [t1] assigned to [user_123], started, and completed by that agent:
    state [DONE], version 4. *)
Definition done : Store :=
  (run [ Assign "t1" "user_123" 1 101 "e2";
         Transition "t1" IN_PROGRESS 2 102 "e3";
         Transition "t1" DONE 3 103 "e4" ] created).2.

(** [t1] assigned to [user_123] and started by that agent: state
    [IN_PROGRESS], version 3. *)
Definition started : Store :=
  (run [ Assign "t1" "user_123" 1 101 "e2";
         Transition "t1" IN_PROGRESS 2 102 "e3" ] created).2.

(** The agent completes [t1], expecting version 3. *)
Definition complete : TaskController.Request :=
  TaskController.TransitionRequest "agent" "tenant_1" "user_123" "ws_1" "t1" 3 DONE.

(** A manager cancels [t1], expecting the version the completion will
    leave. *)
Definition cancel_next : TaskController.Request :=
  TaskController.TransitionRequest "manager" "tenant_1" "user_9" "ws_1" "t1" 4
                                   CANCELLED.

(** Three tasks of one workspace, created at times 100, 200 and 300. *)
Definition three : Store :=
  (run [ Create (request "a" "first" LOW) None 100 "e1";
         Create (request "b" "second" MEDIUM) None 200 "e2";
         Create (request "c" "third" HIGH) None 300 "e3" ] empty).2.

Definition before (cursor : string) : Filters.t :=
  {| Filters.state := None; Filters.assigneeId := None;
     Filters.limit := None; Filters.cursor := Some cursor |}.

End Scenario.

(** ** Reads of the repository, and the remaining handlers

    [findById] of the repository with its timeline, and the handlers
    [create], [get] and [list] of the controller.  A string stands for its
    sequence of code units, so its [length] is the one JavaScript and the
    body schema measure. *)

(** [ORDER BY created_at DESC] on the outbox. *)
Definition event_desc (a b : Event.t) : Prop :=
  (Event.createdAt b ≤ Event.createdAt a)%Z.

Global Instance event_desc_dec a b : Decision (event_desc a b).
Proof. unfold event_desc. apply _. Defined.

(** The order the query returns the events in, [tie] ranking the primary
    keys of events of equal [created_at]. *)
Definition event_desc_tie (tie : string → Z) (a b : Event.t) : Prop :=
  (Event.createdAt b < Event.createdAt a
   ∨ (Event.createdAt b = Event.createdAt a ∧ tie (Event.id a) ≤ tie (Event.id b)))%Z.

Global Instance event_desc_tie_dec tie a b : Decision (event_desc_tie tie a b).
Proof. unfold event_desc_tie. apply _. Defined.

Module TaskQueries.

(** The second query of [findById]: the events of the task, most recent
    first, 20 at most.  Every release writes [LIMIT 20], which SQLite
    takes. *)
Definition timeline (taskId : string) (tie : string → Z) (db : Store)
    : list Event.t :=
  Sqlite.first_rows 20
    (merge_sort (event_desc_tie tie)
       (filter (λ e, Event.taskId e = taskId) (taskEvents db))).

(** [TaskRepository.findById].  Its two queries are awaited one after the
    other, outside any transaction: [db] is the store the first one reads,
    [db'] the store the second one reads. *)
Definition findById (taskId tenantId : string) (tie : string → Z)
    (db db' : Store) : option (Task.t * list Event.t) :=
  match tasks db !! taskId with
  | Some task =>
      if bool_decide (Task.tenantId task = tenantId)
      then Some (task, timeline taskId tie db')
      else None
  | None => None
  end.

End TaskQueries.

(** What [mapTask] makes of an event of the timeline. *)
Module EventView.
Record t := mk {
  id : string;
  task_id : string;
  event_type : string;
  payload : Payload;
  created_at : Z;
}.
End EventView.

(** What [mapTask] makes of a task; [timeline] is [undefined] for a row
    that carries none. *)
Module TaskView.
Record t := mk {
  task_id : string;
  tenant_id : string;
  workspace_id : string;
  title : string;
  priority : TaskPriority;
  state : TaskState;
  assignee_id : option string;
  version : Z;
  created_at : Z;
  updated_at : Z;
  timeline : option (list EventView.t);
}.
End TaskView.

(** A field of a JSON body: missing, a string, or a value of another
    type. *)
Inductive Field := Missing | Text (s : string) | Other.

Module TaskEndpoints.

Definition mapEvent (e : Event.t) : EventView.t :=
  {| EventView.id := Event.id e;
     EventView.task_id := Event.taskId e;
     EventView.event_type := Event.eventType e;
     EventView.payload := Event.payload e;
     EventView.created_at := Event.createdAt e |}.

(** [TaskController.mapTask], on a row, the key it is stored under and the
    timeline it carries, if any. *)
Definition mapTask (id : string) (task : Task.t) (timeline : option (list Event.t))
    : TaskView.t :=
  {| TaskView.task_id := id;
     TaskView.tenant_id := Task.tenantId task;
     TaskView.workspace_id := Task.workspaceId task;
     TaskView.title := Task.title task;
     TaskView.priority := Task.priority task;
     TaskView.state := Task.state task;
     TaskView.assignee_id := Task.assigneeId task;
     TaskView.version := Task.version task;
     TaskView.created_at := Task.createdAt task;
     TaskView.updated_at := Task.updatedAt task;
     TaskView.timeline :=
       match timeline with
       | Some events => Some (map mapEvent events)
       | None => None
       end |}.

(** [title: z.string().min(1).max(120)] *)
Definition parse_title (f : Field) : option string :=
  match f with
  | Text s =>
      if bool_decide (1 ≤ String.length s ≤ 120)%nat then Some s else None
  | _ => None
  end.

(** [priority: z.enum(['LOW', 'MEDIUM', 'HIGH']).default('MEDIUM')] *)
Definition parse_priority (f : Field) : option TaskPriority :=
  match f with
  | Missing => Some MEDIUM
  | Text s =>
      if bool_decide (s = "LOW") then Some LOW
      else if bool_decide (s = "MEDIUM") then Some MEDIUM
      else if bool_decide (s = "HIGH") then Some HIGH
      else None
  | Other => None
  end.

(** [TaskController.create].  [id] is the [uuidv4()] of the handler, [uuid]
    the one of the repository. *)
Definition create (tenantId idempotencyKey : option string) (workspaceId : string)
    (title priority : Field) (id uuid : string) (now : Z) (db : Store)
    : TaskController.Reply * Store :=
  match Js.present tenantId with
  | None =>
      (TaskController.mkReply 400
         (TaskController.ErrorText "X-Tenant-Id header required"), db)
  | Some tenantId =>
      match parse_title title, parse_priority priority with
      | Some title, Some priority =>
          let '(result, db') :=
            TaskRepository.create
              {| NewTask.id := id; NewTask.tenantId := tenantId;
                 NewTask.workspaceId := workspaceId; NewTask.title := title;
                 NewTask.priority := priority; NewTask.state := NEW;
                 NewTask.assigneeId := None |}
              idempotencyKey now uuid db in
          match result with
          | Ok task => (TaskController.mkReply 201 (TaskController.Json task), db')
          | Throw e =>
              (TaskController.mkReply 500
                 (TaskController.ErrorText (TaskController.message e)), db')
          end
      | _, _ => (TaskController.mkReply 400 TaskController.Issues, db)
      end
  end.

(** What [get] and [list] answer; [ErrorPage] is the page of Express's
    own error handler, whose text is not modelled. *)
Inductive ReadBody :=
  | OneTask (task : TaskView.t)
  | ManyTasks (tasks : list TaskView.t)
  | ReadError (error : string)
  | ErrorPage.

Record ReadReply := mkReadReply { read_status : Z; read_body : ReadBody }.

(** [TaskController.get]; [db] and [db'] are the stores the two queries of
    [findById] read. *)
Definition get (tenantId : option string) (workspaceId taskId : string)
    (tie : string → Z) (db db' : Store) : ReadReply :=
  match Js.present tenantId with
  | None => mkReadReply 400 (ReadError "X-Tenant-Id header required")
  | Some tenantId =>
      match TaskQueries.findById taskId tenantId tie db db' with
      | Some (task, timeline) =>
          if bool_decide (Task.workspaceId task ≠ workspaceId)
          then mkReadReply 404 (ReadError "Task not found")
          else mkReadReply 200 (OneTask (mapTask taskId task (Some timeline)))
      | None => mkReadReply 404 (ReadError "Task not found")
      end
  end.

(** The filters [TaskController.list] hands to the repository:
    [limit ? parseInt(limit) : 20] for the limit, the other three as they
    came. *)
Definition list_filters (state assignee_id limit cursor : option string)
    : Filters.t :=
  {| Filters.state := state;
     Filters.assigneeId := assignee_id;
     Filters.limit :=
       Some (match Js.present limit with
             | Some l => Js.parseInt l
             | None => Num 20
             end);
     Filters.cursor := cursor |}.

(** [TaskController.list], for query parameters given once.  The handler
    has no [try]: it sends a reply, or its promise rejects with what the
    repository threw. *)
Definition list (tenantId : option string) (workspaceId : string)
    (state assignee_id limit cursor : option string)
    (release : Drizzle) (tie : string → Z) (db : Store) : Result ReadReply :=
  match Js.present tenantId with
  | None => Ok (mkReadReply 400 (ReadError "X-Tenant-Id header required"))
  | Some tenantId =>
      match TaskRepository.list workspaceId tenantId
              (list_filters state assignee_id limit cursor) release tie db with
      | Ok results =>
          Ok (mkReadReply 200
                (ManyTasks ((λ r, mapTask r.1 r.2 None) <$> results)))
      | Throw e => Throw e
      end
  end.

(** What the client of a handler gets.  Express, from release 5 on, hands
    the rejection of a handler's promise to its error handler; the
    application installs none of its own, and the built-in one answers 500
    for an error that names no status. *)
Definition routed (outcome : Result ReadReply) : ReadReply :=
  match outcome with
  | Ok reply => reply
  | Throw _ => mkReadReply 500 ErrorPage
  end.

End TaskEndpoints.

(** ** Requests served one at a time *)

(** The [X-Tenant-Id] header of an assign or transition request. *)
Definition request_tenant (req : TaskController.Request) : string :=
  match req with
  | TaskController.AssignRequest _ tenantId _ _ _ _ => tenantId
  | TaskController.TransitionRequest _ tenantId _ _ _ _ _ => tenantId
  end.

(** A request that may write: a create, or an assign or transition. *)
Inductive HttpRequest :=
  | PostTask (tenantId idempotencyKey : option string) (workspaceId : string)
             (title priority : Field) (id uuid : string) (now : Z)
  | PostChange (req : TaskController.Request) (now : Z) (uuid : string).

(** The store a request leaves when no other request runs while it is
    handled.  An assign or transition whose tenant header is empty is
    answered 400 before anything else, like one without the header. *)
Definition serve (r : HttpRequest) (db : Store) : Store :=
  match r with
  | PostTask tenantId idempotencyKey workspaceId title priority id uuid now =>
      (TaskEndpoints.create tenantId idempotencyKey workspaceId title priority
                            id uuid now db).2
  | PostChange req now uuid =>
      if bool_decide (request_tenant req = "") then db
      else (TaskController.alone req now uuid db).2
  end.

Definition serve_all (requests : list HttpRequest) (db : Store) : Store :=
  foldl (λ db r, serve r db) db requests.

(** The outbox events that refer to a task. *)
Definition events_of (db : Store) (taskId : string) : list Event.t :=
  filter (λ e, Event.taskId e = taskId) (taskEvents db).

(** The tenant a request is made under: its [X-Tenant-Id] header. *)
Definition tenant_of (r : HttpRequest) : option string :=
  match r with
  | PostTask tenantId _ _ _ _ _ _ _ => tenantId
  | PostChange (TaskController.AssignRequest _ tenantId _ _ _ _) _ _ => Some tenantId
  | PostChange (TaskController.TransitionRequest _ tenantId _ _ _ _ _) _ _ =>
      Some tenantId
  end.

(** The rows the conditions of [list] select, before they are ordered and
    cut to a page. *)
Definition matching (workspaceId tenantId : string) (filters : Filters.t)
    (db : Store) : list (string * Task.t) :=
  filter (λ r, TaskRepository.and_
                 (TaskRepository.conditions workspaceId tenantId filters) r = true)
         (map_to_list (tasks db)).

(** The filters of the next page: the same, with a cursor. *)
Definition with_cursor (filters : Filters.t) (cursor : string) : Filters.t :=
  {| Filters.state := Filters.state filters;
     Filters.assigneeId := Filters.assigneeId filters;
     Filters.limit := Filters.limit filters;
     Filters.cursor := Some cursor |}.

(** ** Invariants of the store *)

(** The outbox accounts for the versions: a stored task is at the version
    that counts the events referring to it, and no event refers to a task
    that is not stored. *)
Definition accounted (db : Store) : Prop :=
  ∀ taskId,
    match tasks db !! taskId with
    | Some task => Task.version task = Z.of_nat (length (events_of db taskId))
    | None => events_of db taskId = []
    end.

(** The columns no mutation writes. *)
Definition same_origin (a b : Task.t) : Prop :=
  Task.tenantId a = Task.tenantId b
  ∧ Task.workspaceId a = Task.workspaceId b
  ∧ Task.title a = Task.title b
  ∧ Task.priority a = Task.priority b
  ∧ Task.createdAt a = Task.createdAt b.

(** Every state change on record follows an edge of the transition
    table. *)
Definition edges_only (db : Store) : Prop :=
  ∀ e from to,
    e ∈ taskEvents db → Event.payload e = FromTo from to →
    StateMachineSpec.edge from to.

(** A task that was started has an assignee. *)
Definition owned (db : Store) : Prop :=
  ∀ taskId task,
    tasks db !! taskId = Some task →
    Task.state task = IN_PROGRESS ∨ Task.state task = DONE →
    is_Some (Task.assigneeId task).

(** What the handlers let into a row. *)
Definition well_formed (db : Store) : Prop :=
  ∀ taskId task,
    tasks db !! taskId = Some task →
    (1 ≤ String.length (Task.title task) ≤ 120)%nat
    ∧ Task.tenantId task ≠ ""
    ∧ Task.assigneeId task ≠ Some ""
    ∧ 1 ≤ Task.version task.

(** * Properties *)

(** ** The state machine *)

Section StateMachine.

Import TaskDomain StateMachineSpec.

Lemma includes_allowed (from to : TaskState) :
  includes (allowed from) to = true ↔ edge from to.
Proof.
  unfold edge.
  destruct from, to; vm_compute; split; try discriminate; try tauto;
    intros [[? ?] | [[? ?] | [[? ?] | [? ?]]]]; discriminate.
Qed.

Lemma edge_from_terminal (from to : TaskState) : terminal from → ¬ edge from to.
Proof.
  unfold terminal, edge.
  intros [-> | ->] [[? ?] | [[? ?] | [[? ?] | [? ?]]]]; discriminate.
Qed.

Lemma edge_new_done : ¬ edge NEW DONE.
Proof.
  unfold edge. intros [[? ?] | [[? ?] | [[? ?] | [? ?]]]]; discriminate.
Qed.

End StateMachine.

(** C5. [validateTransition] accepts exactly the requests whose edge is in
    the transition table and whose role passes the overlay: a manager only
    to cancel, an agent only as the assignee and only to start or complete,
    no other role at all.  In particular every request on a [DONE] or a
    [CANCELLED] task, and [NEW] to [DONE], is rejected for every role, and
    an agent never cancels. *)
Theorem validateTransition_iff
    (currentState toState : TaskState) (role : string)
    (assigneeId : option string) (actorId : string) :
  (TaskDomain.validateTransition currentState toState role assigneeId actorId = true
   ↔ StateMachineSpec.decide_ok currentState toState role assigneeId actorId)
  ∧ TaskDomain.validateTransition DONE toState role assigneeId actorId = false
  ∧ TaskDomain.validateTransition CANCELLED toState role assigneeId actorId = false
  ∧ TaskDomain.validateTransition NEW DONE role assigneeId actorId = false
  ∧ TaskDomain.validateTransition currentState CANCELLED "agent" assigneeId actorId
    = false.
Proof.
  assert (Hiff : ∀ c t r a u,
    TaskDomain.validateTransition c t r a u = true
    ↔ StateMachineSpec.decide_ok c t r a u).
  { intros c t r a u.
    unfold TaskDomain.validateTransition, StateMachineSpec.decide_ok,
      StateMachineSpec.overlay.
    pose proof (includes_allowed c t) as Hedge.
    destruct (TaskDomain.includes (TaskDomain.allowed c) t); simpl.
    - assert (He : StateMachineSpec.edge c t) by (by apply Hedge).
      repeat case_bool_decide; subst; simpl;
        split; try discriminate; try (intros _; split; [done|]);
        intuition (try discriminate; try congruence).
    - split; [discriminate|]. intros [He _]. apply Hedge in He. discriminate. }
  assert (Hfalse : ∀ c t r a u,
    ¬ StateMachineSpec.decide_ok c t r a u →
    TaskDomain.validateTransition c t r a u = false).
  { intros c t r a u Hn.
    destruct (TaskDomain.validateTransition c t r a u) eqn:E; [|done].
    apply Hiff in E. done. }
  split; [apply Hiff|]. split; [|split; [|split]].
  - apply Hfalse. intros [He _].
    apply (edge_from_terminal DONE toState); [by left | done].
  - apply Hfalse. intros [He _].
    apply (edge_from_terminal CANCELLED toState); [by right | done].
  - apply Hfalse. intros [He _]. by apply edge_new_done.
  - apply Hfalse. intros [_ Ho]. unfold StateMachineSpec.overlay in Ho.
    destruct Ho as [[? _] | [_ [_ [[_ ?] | [_ ?]]]]]; discriminate.
Qed.

(** C7. [canAssign] holds exactly for a manager on a task that is [NEW] or
    [IN_PROGRESS]; for every other pair it is false. *)
Theorem canAssign_iff (state : TaskState) (role : string) :
  TaskDomain.canAssign state role = true
  ↔ role = "manager" ∧ (state = NEW ∨ state = IN_PROGRESS).
Proof.
  unfold TaskDomain.canAssign.
  case_bool_decide as Hr.
  - split; [discriminate|]. intros [-> _]. done.
  - subst role.
    destruct state; vm_compute; intuition (try discriminate; try congruence).
Qed.

(** ** The repository, case by case *)

Global Instance terminal_dec s : Decision (StateMachineSpec.terminal s).
Proof. unfold StateMachineSpec.terminal. apply _. Defined.

Section Repository.

Import TaskRepository StateMachineSpec Outcome.

Implicit Types (db : Store) (task : Task.t) (taskId uuid : string).
Implicit Types (v now : Z).

(** The guarded update rewrites the one row it is aimed at. *)
Lemma update_one (m : gmap string Task.t) taskId v (set : Task.t → Task.t) task :
  m !! taskId = Some task →
  Task.version task = v →
  map_imap (λ id row, Some (if id_and_version taskId v id row then set row else row)) m
  = <[taskId := set task]> m.
Proof.
  intros Hm Hv. apply map_eq. intros i. rewrite map_lookup_imap.
  unfold id_and_version.
  destruct (decide (i = taskId)) as [-> | Hne].
  - rewrite lookup_insert_eq, Hm. simpl.
    by rewrite !bool_decide_eq_true_2.
  - rewrite lookup_insert_ne by done.
    destruct (m !! i); simpl; [|done].
    by rewrite (bool_decide_eq_false_2 (i = taskId)).
Qed.

(** A guarded update that finds the version changed rewrites nothing. *)
Lemma update_none (m : gmap string Task.t) taskId v (set : Task.t → Task.t) :
  (∀ task, m !! taskId = Some task → Task.version task ≠ v) →
  map_imap (λ id row, Some (if id_and_version taskId v id row then set row else row)) m
  = m.
Proof.
  intros Hm. apply map_eq. intros i. rewrite map_lookup_imap.
  unfold id_and_version.
  destruct (m !! i) as [row|] eqn:Hi; simpl; [|done].
  destruct (decide (i = taskId)) as [-> | Hne].
  - by rewrite (bool_decide_eq_false_2 (Task.version row = v)), andb_false_r
      by (by apply Hm).
  - by rewrite (bool_decide_eq_false_2 (i = taskId)).
Qed.

Lemma assign_not_found db taskId a v now uuid :
  tasks db !! taskId = None →
  assign taskId a v now uuid db = (Throw TaskNotFound, db).
Proof.
  intros H. unfold assign, Tx.transaction, Tx.bind, Tx.select_task.
  by rewrite H.
Qed.

Lemma assign_version_mismatch db taskId a v now uuid task :
  tasks db !! taskId = Some task →
  Task.version task ≠ v →
  assign taskId a v now uuid db = (Throw VersionMismatch, db).
Proof.
  intros H Hv. unfold assign, Tx.transaction, Tx.bind, Tx.select_task.
  rewrite H. by rewrite bool_decide_eq_true_2.
Qed.

Lemma assign_invalid_state db taskId a v now uuid task :
  tasks db !! taskId = Some task →
  Task.version task = v →
  terminal (Task.state task) →
  assign taskId a v now uuid db = (Throw InvalidState, db).
Proof.
  intros H Hv Ht. unfold assign, Tx.transaction, Tx.bind, Tx.select_task.
  rewrite H. rewrite bool_decide_eq_false_2 by (intros ?; done).
  by destruct Ht as [-> | ->].
Qed.

Lemma assign_duplicate_event db taskId a v now uuid task :
  tasks db !! taskId = Some task →
  Task.version task = v →
  ¬ terminal (Task.state task) →
  uuid ∈ event_ids db →
  assign taskId a v now uuid db = (Throw (SqliteConstraint "task_events.id"), db).
Proof.
  intros H Hv Ht Hu.
  unfold assign, Tx.transaction, Tx.bind, Tx.select_task, Tx.update_tasks,
    Tx.insert_event.
  rewrite H. rewrite bool_decide_eq_false_2 by (intros ?; done).
  rewrite !bool_decide_eq_false_2 by (intros ?; apply Ht; unfold terminal; auto).
  simpl. by rewrite bool_decide_eq_true_2.
Qed.

Lemma assign_ok db taskId a v now uuid task :
  tasks db !! taskId = Some task →
  Task.version task = v →
  ¬ terminal (Task.state task) →
  uuid ∉ event_ids db →
  assign taskId a v now uuid db
  = (Ok {| Response.task_id := taskId; Response.state := Task.state task;
           Response.version := v + 1 |},
     mkStore (<[taskId := set_assignee a (v + 1) now task]> (tasks db))
             (taskEvents db ++ [assigned_event taskId a now uuid])
             (idempotencyKeys db)).
Proof.
  intros H Hv Ht Hu.
  unfold assign, Tx.transaction, Tx.bind, Tx.select_task, Tx.update_tasks,
    Tx.insert_event, Tx.ret.
  rewrite H. rewrite bool_decide_eq_false_2 by (intros ?; done).
  rewrite !bool_decide_eq_false_2 by (intros ?; apply Ht; unfold terminal; auto).
  simpl. rewrite bool_decide_eq_false_2 by done.
  by rewrite (update_one _ _ _ _ task).
Qed.

(** What a successful [assign] was given, returned and wrote. *)
Lemma assign_inv db taskId a v now uuid r db' :
  assign taskId a v now uuid db = (Ok r, db') →
  ∃ task,
    tasks db !! taskId = Some task ∧ Task.version task = v
    ∧ ¬ terminal (Task.state task) ∧ (uuid ∉ event_ids db)
    ∧ r = {| Response.task_id := taskId; Response.state := Task.state task;
             Response.version := v + 1 |}
    ∧ db' = mkStore (<[taskId := set_assignee a (v + 1) now task]> (tasks db))
                    (taskEvents db ++ [assigned_event taskId a now uuid])
                    (idempotencyKeys db).
Proof.
  intros Hrun.
  destruct (tasks db !! taskId) as [task|] eqn:Hlook.
  2: { rewrite assign_not_found in Hrun by done. discriminate. }
  destruct (decide (Task.version task = v)) as [Hv | Hv].
  2: { rewrite (assign_version_mismatch _ _ _ _ _ _ task) in Hrun by done.
       discriminate. }
  destruct (decide (terminal (Task.state task))) as [Ht | Ht].
  { rewrite (assign_invalid_state _ _ _ _ _ _ task) in Hrun by done.
    discriminate. }
  destruct (decide (uuid ∈ event_ids db)) as [Hu | Hu].
  { rewrite (assign_duplicate_event _ _ _ _ _ _ task) in Hrun by done.
    discriminate. }
  rewrite (assign_ok _ _ _ _ _ _ task) in Hrun by done.
  injection Hrun as <- <-. by exists task.
Qed.

Lemma transition_not_found db taskId to v now uuid :
  tasks db !! taskId = None →
  transition taskId to v now uuid db = (Throw TaskNotFound, db).
Proof.
  intros H. unfold transition, Tx.transaction, Tx.bind, Tx.select_task.
  by rewrite H.
Qed.

Lemma transition_version_mismatch db taskId to v now uuid task :
  tasks db !! taskId = Some task →
  Task.version task ≠ v →
  transition taskId to v now uuid db = (Throw VersionMismatch, db).
Proof.
  intros H Hv. unfold transition, Tx.transaction, Tx.bind, Tx.select_task.
  rewrite H. by rewrite bool_decide_eq_true_2.
Qed.

Lemma transition_duplicate_event db taskId to v now uuid task :
  tasks db !! taskId = Some task →
  Task.version task = v →
  uuid ∈ event_ids db →
  transition taskId to v now uuid db = (Throw (SqliteConstraint "task_events.id"), db).
Proof.
  intros H Hv Hu.
  unfold transition, Tx.transaction, Tx.bind, Tx.select_task, Tx.update_tasks,
    Tx.insert_event.
  rewrite H. rewrite bool_decide_eq_false_2 by (intros ?; done).
  simpl. by rewrite bool_decide_eq_true_2.
Qed.

(** No guard of [transition] reads the state of the row. *)
Lemma transition_ok db taskId to v now uuid task :
  tasks db !! taskId = Some task →
  Task.version task = v →
  uuid ∉ event_ids db →
  transition taskId to v now uuid db
  = (Ok {| Response.task_id := taskId; Response.state := to;
           Response.version := v + 1 |},
     mkStore (<[taskId := set_state to (v + 1) now task]> (tasks db))
             (taskEvents db
              ++ [changed_event taskId (Task.state task) to now uuid])
             (idempotencyKeys db)).
Proof.
  intros H Hv Hu.
  unfold transition, Tx.transaction, Tx.bind, Tx.select_task, Tx.update_tasks,
    Tx.insert_event, Tx.ret.
  rewrite H. rewrite bool_decide_eq_false_2 by (intros ?; done).
  simpl. rewrite bool_decide_eq_false_2 by done.
  by rewrite (update_one _ _ _ _ task).
Qed.

(** What a successful [transition] was given, returned and wrote. *)
Lemma transition_inv db taskId to v now uuid r db' :
  transition taskId to v now uuid db = (Ok r, db') →
  ∃ task,
    tasks db !! taskId = Some task ∧ Task.version task = v
    ∧ (uuid ∉ event_ids db)
    ∧ r = {| Response.task_id := taskId; Response.state := to;
             Response.version := v + 1 |}
    ∧ db' = mkStore (<[taskId := set_state to (v + 1) now task]> (tasks db))
                    (taskEvents db
                     ++ [changed_event taskId (Task.state task) to now uuid])
                    (idempotencyKeys db).
Proof.
  intros Hrun.
  destruct (tasks db !! taskId) as [task|] eqn:Hlook.
  2: { rewrite transition_not_found in Hrun by done. discriminate. }
  destruct (decide (Task.version task = v)) as [Hv | Hv].
  2: { rewrite (transition_version_mismatch _ _ _ _ _ _ task) in Hrun by done.
       discriminate. }
  destruct (decide (uuid ∈ event_ids db)) as [Hu | Hu].
  { rewrite (transition_duplicate_event _ _ _ _ _ _ task) in Hrun by done.
    discriminate. }
  rewrite (transition_ok _ _ _ _ _ _ task) in Hrun by done.
  injection Hrun as <- <-. by exists task.
Qed.

(** The key [create] looks up and stores: none when the argument is
    missing or empty. *)
Lemma present_Some (key : string) : key ≠ "" → Js.present (Some key) = Some key.
Proof. intros H. unfold Js.present. by rewrite bool_decide_eq_false_2. Qed.

Lemma present_inv (idempotencyKey : option string) (key : string) :
  Js.present idempotencyKey = Some key → idempotencyKey = Some key ∧ key ≠ "".
Proof.
  unfold Js.present. destruct idempotencyKey as [k|]; [|done].
  case_bool_decide; [done|]. by intros [= ->].
Qed.

(** A stored key answers for the request, whatever the request is. *)
Lemma create_cached db new idempotencyKey now uuid key row :
  Js.present idempotencyKey = Some key →
  idempotencyKeys db !! key = Some row →
  create new idempotencyKey now uuid db
  = (Ok (IdempotencyKey.responsePayload row), db).
Proof.
  intros Hk Hrow.
  unfold create, Tx.transaction, Tx.bind, Tx.select_idempotencyKey, Tx.ret.
  rewrite Hk. by rewrite Hrow.
Qed.

Lemma create_ok db new idempotencyKey now uuid :
  uncached db idempotencyKey →
  tasks db !! NewTask.id new = None →
  uuid ∉ event_ids db →
  create new idempotencyKey now uuid db
  = (Ok (created_response new), created_store db new idempotencyKey now uuid).
Proof.
  intros Hk Hid Hu.
  unfold create, created_store, Tx.transaction, Tx.bind,
    Tx.select_idempotencyKey, Tx.insert_task, Tx.insert_event,
    Tx.insert_idempotencyKey, Tx.ret.
  destruct (Js.present idempotencyKey) as [key|] eqn:Hp; simpl.
  - rewrite (Hk key) by done. simpl. rewrite Hid. simpl.
    rewrite bool_decide_eq_false_2 by done. simpl.
    by rewrite (Hk key).
  - rewrite Hid. simpl. by rewrite bool_decide_eq_false_2.
Qed.

(** What a successful [create] did: it answered from the cache and wrote
    nothing, or it wrote one row, one event and, with a key, one record. *)
Lemma create_inv db new idempotencyKey now uuid r db' :
  create new idempotencyKey now uuid db = (Ok r, db') →
  (∃ key row, Js.present idempotencyKey = Some key
              ∧ idempotencyKeys db !! key = Some row
              ∧ r = IdempotencyKey.responsePayload row ∧ db' = db)
  ∨ (uncached db idempotencyKey ∧ tasks db !! NewTask.id new = None
     ∧ (uuid ∉ event_ids db) ∧ r = created_response new
     ∧ db' = created_store db new idempotencyKey now uuid).
Proof.
  intros Hrun.
  destruct (Js.present idempotencyKey) as [key|] eqn:Hp.
  - destruct (idempotencyKeys db !! key) as [row|] eqn:Hrow.
    + rewrite (create_cached _ _ _ _ _ key row) in Hrun by done.
      injection Hrun as <- <-. left. by exists key, row.
    + right. assert (Hunc : uncached db idempotencyKey).
      { intros k Hk. rewrite Hp in Hk. by injection Hk as <-. }
      revert Hrun.
      unfold create, Tx.transaction, Tx.bind, Tx.select_idempotencyKey,
        Tx.insert_task, Tx.insert_event, Tx.insert_idempotencyKey, Tx.ret.
      rewrite Hp, Hrow. simpl.
      destruct (tasks db !! NewTask.id new) eqn:Hid; simpl; [discriminate|].
      case_bool_decide as Hu; simpl; [discriminate|].
      rewrite Hrow. intros [= <- <-].
      unfold created_store. by rewrite Hp.
  - right. assert (Hunc : uncached db idempotencyKey).
    { intros k Hk. rewrite Hp in Hk. discriminate. }
    revert Hrun.
    unfold create, Tx.transaction, Tx.bind, Tx.select_idempotencyKey,
      Tx.insert_task, Tx.insert_event, Tx.insert_idempotencyKey, Tx.ret.
    rewrite Hp. simpl.
    destruct (tasks db !! NewTask.id new) eqn:Hid; simpl; [discriminate|].
    case_bool_decide as Hu; simpl; [discriminate|].
    intros [= <- <-]. unfold created_store. by rewrite Hp.
Qed.

End Repository.


(** ** Guards of the store-level mutations *)

(** C1. On the task of [Scenario.done], which is [DONE] at version 4, a
    store-level [transition] to [CANCELLED] with the matching version is
    accepted: it returns the new state at version 5, rewrites the state of
    the row and appends a state-change event.  [transition] has no guard on
    the stored state; [assign] has one. *)
Theorem transition_rewrites_done_task :
  let db := Scenario.done in
  let out := TaskRepository.transition "t1" CANCELLED 4 104 "e5" db in
  Task.state <$> tasks db !! "t1" = Some DONE
  ∧ version_of db "t1" = Some 4
  ∧ out.1 = Ok {| Response.task_id := "t1"; Response.state := CANCELLED;
                  Response.version := 5 |}
  ∧ Task.state <$> tasks out.2 !! "t1" = Some CANCELLED
  ∧ version_of out.2 "t1" = Some 5
  ∧ last (taskEvents out.2)
    = Some (Outcome.changed_event "t1" DONE CANCELLED 104 "e5")
  ∧ (TaskRepository.assign "t1" "user_456" 4 104 "e5" db).1 = Throw InvalidState.
Proof. vm_compute. repeat split; reflexivity. Qed.

(** The race the missing guard of [transition] loses.  [t1] is
    [IN_PROGRESS] at version 3.  A manager's cancel that expects version 4
    is checked against that state; the agent's completion then commits and
    leaves [DONE] at version 4; the cancel then reaches the repository,
    finds the version it expects, and rewrites the finished task. *)
Lemma stale_check_cancels_done_task :
  let out :=
    TaskController.interleave
      [TaskController.Second; TaskController.First;
       TaskController.First; TaskController.Second]
      (TaskController.Received Scenario.complete)
      (TaskController.Received Scenario.cancel_next)
      103 "e4" 104 "e5" Scenario.started in
  out.1.1 = TaskController.Replied
              (TaskController.mkReply 200
                 (TaskController.Json
                    {| Response.task_id := "t1"; Response.state := DONE;
                       Response.version := 4 |}))
  ∧ out.1.2 = TaskController.Replied
                (TaskController.mkReply 200
                   (TaskController.Json
                      {| Response.task_id := "t1"; Response.state := CANCELLED;
                         Response.version := 5 |}))
  ∧ Task.state <$> tasks out.2 !! "t1" = Some CANCELLED
  ∧ Event.payload <$> taskEvents out.2
    = [ Snapshot (Scenario.request "t1" "Implement auth" HIGH) 1;
        Assignee "user_123"; FromTo NEW IN_PROGRESS;
        FromTo IN_PROGRESS DONE; FromTo DONE CANCELLED ].
Proof. vm_compute. repeat split; reflexivity. Qed.

(** C2, as stated, fails: on the task of [Scenario.done], which is [DONE]
    at version 4, an [assign] that expects version 1 throws
    [VersionMismatch], not [InvalidState]. *)
Lemma assign_stale_on_done_task :
  let db := Scenario.done in
  let out := TaskRepository.assign "t1" "user_456" 1 104 "e5" db in
  Task.state <$> tasks db !! "t1" = Some DONE
  ∧ version_of db "t1" = Some 4
  ∧ out.1 = Throw VersionMismatch
  ∧ out.1 ≠ Throw InvalidState.
Proof. vm_compute. repeat split; try reflexivity. discriminate. Qed.

(** C2, amended. [assign] applies its guards in the order absent row, then
    version, then terminal state: a stored task whose version differs from
    the expected one gets [VersionMismatch] whatever its state, terminal
    states included, and a terminal task gets [InvalidState] only when the
    version matches.  A refused call leaves the store as it was. *)
Theorem assign_guard_order
    (db : Store) (taskId assigneeId : string) (v now : Z) (uuid : string) :
  let out := TaskRepository.assign taskId assigneeId v now uuid db in
  (tasks db !! taskId = None → out = (Throw TaskNotFound, db))
  ∧ (∀ task, tasks db !! taskId = Some task →
       Task.version task ≠ v → out = (Throw VersionMismatch, db))
  ∧ (∀ task, tasks db !! taskId = Some task →
       Task.version task = v → StateMachineSpec.terminal (Task.state task) →
       out = (Throw InvalidState, db)).
Proof.
  simpl. split; [|split].
  - apply assign_not_found.
  - intros task. apply assign_version_mismatch.
  - intros task. apply assign_invalid_state.
Qed.

Lemma assign_guard_order_witness :
  let db := Scenario.done in
  (∃ task, tasks db !! "t1" = Some task ∧ Task.version task ≠ 1
           ∧ StateMachineSpec.terminal (Task.state task))
  ∧ TaskRepository.assign "t1" "user_456" 1 104 "e5" db
    = (Throw VersionMismatch, db)
  ∧ TaskRepository.assign "t1" "user_456" 4 104 "e5" db
    = (Throw InvalidState, db)
  ∧ TaskRepository.assign "t9" "user_456" 1 104 "e5" db
    = (Throw TaskNotFound, db).
Proof.
  pose proof (assign_guard_order Scenario.done "t1" "user_456" 1 104 "e5") as H1.
  pose proof (assign_guard_order Scenario.done "t1" "user_456" 4 104 "e5") as H4.
  pose proof (assign_guard_order Scenario.done "t9" "user_456" 1 104 "e5") as H9.
  simpl in *.
  destruct H1 as (_ & H1 & _), H4 as (_ & _ & H4), H9 as (H9 & _).
  assert (Hrow : ∃ task, tasks Scenario.done !! "t1" = Some task).
  { vm_compute. eauto. }
  destruct Hrow as [task Hrow].
  assert (Hv : Task.version task = 4).
  { apply (inj Some). change (Task.version <$> Some task = Some 4).
    rewrite <- Hrow. vm_compute. reflexivity. }
  assert (Hs : Task.state task = DONE).
  { apply (inj Some). change (Task.state <$> Some task = Some DONE).
    rewrite <- Hrow. vm_compute. reflexivity. }
  split; [|split; [|split]].
  - exists task. split; [done|]. split; [lia|]. by left.
  - apply (H1 task); [done | lia].
  - apply (H4 task); [done | done | by left].
  - apply H9. vm_compute. reflexivity.
Defined.

(** ** Accepted mutations *)

(** C4. An accepted [assign] or [transition] leaves the task at its former
    version plus one, answers with that version, and appends exactly one
    event to the outbox: [TaskAssigned] with the new assignee, or
    [TaskStateChanged] with the former and the new state. *)
Theorem accepted_mutation_bumps_version_and_logs
    (c : Call) (taskId : string) (v : Z) (db db' : Store) (r : Response.t) :
  target c = Some (taskId, v) →
  exec c db = (Ok r, db') →
  ∃ task task' ev,
    tasks db !! taskId = Some task
    ∧ tasks db' !! taskId = Some task'
    ∧ Task.version task' = Task.version task + 1
    ∧ Response.version r = Task.version task + 1
    ∧ matching_event c (Task.state task) = Some ev
    ∧ taskEvents db' = (taskEvents db ++ [ev])%list
    ∧ Event.taskId ev = taskId
    ∧ match c with
      | Assign _ assigneeId _ _ _ =>
          Event.eventType ev = "TaskAssigned"
          ∧ Event.payload ev = Assignee assigneeId
      | Transition _ toState _ _ _ =>
          Event.eventType ev = "TaskStateChanged"
          ∧ Event.payload ev = FromTo (Task.state task) toState
      | Create _ _ _ _ => False
      end.
Proof.
  intros Htarget Hexec. destruct c as [| id a v0 now uuid | id to v0 now uuid];
    simpl in Htarget; [discriminate | |]; injection Htarget as -> ->;
    simpl in Hexec.
  - apply assign_inv in Hexec
      as (task & Hlook & Hv & _ & _ & -> & ->).
    eexists task, _, _. simpl. rewrite lookup_insert_eq.
    repeat split; try reflexivity; try done; simpl; lia.
  - apply transition_inv in Hexec
      as (task & Hlook & Hv & _ & -> & ->).
    eexists task, _, _. simpl. rewrite lookup_insert_eq.
    repeat split; try reflexivity; try done; simpl; lia.
Qed.

Lemma accepted_mutation_witness :
  ∃ task task' ev,
    tasks Scenario.created !! "t1" = Some task
    ∧ Task.version task' = Task.version task + 1
    ∧ Event.eventType ev = "TaskAssigned"
    ∧ Event.payload ev = Assignee "user_123".
Proof.
  destruct (accepted_mutation_bumps_version_and_logs
              (Assign "t1" "user_123" 1 101 "e2") "t1" 1 Scenario.created
              (exec (Assign "t1" "user_123" 1 101 "e2") Scenario.created).2
              {| Response.task_id := "t1"; Response.state := NEW;
                 Response.version := 2 |})
    as (task & task' & ev & H1 & _ & H3 & _ & _ & _ & _ & H7 & H8).
  - reflexivity.
  - vm_compute. reflexivity.
  - by exists task, task', ev.
Defined.

(** C9. On a stored task that is not terminal and whose version is the
    expected one, [assign] (drawing an unused event identifier) succeeds;
    it answers with the state the task had; the row keeps its key and its
    tenant, workspace, title, priority, state and creation time, and gets
    the new assignee, the version plus one and the time of the call as
    last-modified time; every other row is left as it was. *)
Theorem assign_frame
    (db : Store) (taskId assigneeId : string) (v now : Z) (uuid : string)
    (task : Task.t) :
  tasks db !! taskId = Some task →
  Task.version task = v →
  ¬ StateMachineSpec.terminal (Task.state task) →
  uuid ∉ event_ids db →
  ∃ r db' task',
    TaskRepository.assign taskId assigneeId v now uuid db = (Ok r, db')
    ∧ Response.task_id r = taskId
    ∧ Response.state r = Task.state task
    ∧ Response.version r = v + 1
    ∧ tasks db' !! taskId = Some task'
    ∧ Task.assigneeId task' = Some assigneeId
    ∧ Task.version task' = v + 1
    ∧ Task.updatedAt task' = now
    ∧ Task.state task' = Task.state task
    ∧ Task.title task' = Task.title task
    ∧ Task.priority task' = Task.priority task
    ∧ Task.tenantId task' = Task.tenantId task
    ∧ Task.workspaceId task' = Task.workspaceId task
    ∧ Task.createdAt task' = Task.createdAt task
    ∧ dom (tasks db') = dom (tasks db)
    ∧ (∀ other, other ≠ taskId → tasks db' !! other = tasks db !! other)
    ∧ idempotencyKeys db' = idempotencyKeys db.
Proof.
  intros Hlook Hv Hterm Hu.
  eexists _, _, _. split; [by apply assign_ok|]. simpl.
  rewrite lookup_insert_eq.
  repeat split; try reflexivity.
  - apply set_eq. intros k. rewrite dom_insert, elem_of_union, elem_of_singleton.
    split; [|by right]. intros [-> | ?]; [|done]. by apply elem_of_dom_2 in Hlook.
  - intros other Hne. by rewrite lookup_insert_ne.
Qed.

Lemma assign_frame_witness :
  ∃ r db',
    TaskRepository.assign "t1" "user_123" 1 101 "e2" Scenario.created = (Ok r, db')
    ∧ Response.state r = NEW
    ∧ Response.version r = 2
    ∧ dom (tasks db') = dom (tasks Scenario.created).
Proof.
  destruct (assign_frame Scenario.created "t1" "user_123" 1 101 "e2"
              (TaskRepository.new_row (Scenario.request "t1" "Implement auth" HIGH) 100))
    as (r & db' & task' & Hrun & _ & Hs & Hver & _ & _ & _ & _ & _ & _ & _ & _
        & _ & _ & Hdom & _).
  - vm_compute. reflexivity.
  - reflexivity.
  - vm_compute. intros [H | H]; discriminate.
  - vm_compute. intros H. inversion H as [| ? ? ? H']. inversion H'.
  - by exists r, db'.
Defined.

(** ** Two calls racing on one version *)

Section Race.

Import TaskRepository StateMachineSpec.

(** A refused call leaves the store as it was. *)
Lemma exec_throw (c : Call) (db db' : Store) (e : Error) :
  exec c db = (Throw e, db') → db' = db.
Proof.
  destruct c; simpl; unfold create, assign, transition, Tx.transaction;
    match goal with |- context [match ?m db with _ => _ end] =>
      destruct (m db) as [[? ?] | ?] end;
    intros [= ]; done.
Qed.

(** After an accepted [assign] or [transition] the task is stored at the
    expected version plus one. *)
Lemma exec_ok_version (c : Call) (taskId : string) (v : Z) (db db' : Store)
    (r : Response.t) :
  target c = Some (taskId, v) →
  exec c db = (Ok r, db') →
  version_of db taskId = Some v
  ∧ version_of db' taskId = Some (v + 1)
  ∧ Response.version r = v + 1
  ∧ length (taskEvents db') = S (length (taskEvents db)).
Proof.
  intros Htarget Hexec. unfold version_of.
  destruct c as [| id a v0 now uuid | id to v0 now uuid];
    simpl in Htarget; [discriminate | |]; injection Htarget as -> ->;
    simpl in Hexec.
  - apply assign_inv in Hexec as (task & Hlook & Hv & _ & _ & -> & ->).
    simpl. rewrite Hlook, lookup_insert_eq, length_app. simpl.
    repeat split; try (f_equal; done). lia.
  - apply transition_inv in Hexec as (task & Hlook & Hv & _ & -> & ->).
    simpl. rewrite Hlook, lookup_insert_eq, length_app. simpl.
    repeat split; try (f_equal; done). lia.
Qed.

(** A call that expects a version other than the stored one is refused with
    [VersionMismatch], before any other guard is looked at. *)
Lemma exec_stale (c : Call) (taskId : string) (v w : Z) (db : Store) :
  target c = Some (taskId, v) →
  version_of db taskId = Some w →
  w ≠ v →
  exec c db = (Throw VersionMismatch, db).
Proof.
  intros Htarget Hw Hne. unfold version_of in Hw.
  destruct (tasks db !! taskId) as [task|] eqn:Hlook; [|discriminate].
  injection Hw as Hw.
  destruct c as [| id a v0 now uuid | id to v0 now uuid];
    simpl in Htarget; [discriminate | |]; injection Htarget as -> ->; simpl.
  - apply (assign_version_mismatch _ _ _ _ _ _ task); [done | lia].
  - apply (transition_version_mismatch _ _ _ _ _ _ task); [done | lia].
Qed.

(** Whichever of the two calls runs first wins, and the other loses. *)
Lemma first_wins (a b : Call) (taskId : string) (v : Z) (db : Store) :
  target a = Some (taskId, v) →
  target b = Some (taskId, v) →
  (∃ r db', exec a db = (Ok r, db')) →
  ∃ r, (run [a; b] db).1 = [Ok r; Throw VersionMismatch]
       ∧ Response.version r = v + 1
       ∧ version_of db taskId = Some v
       ∧ version_of (run [a; b] db).2 taskId = Some (v + 1)
       ∧ length (taskEvents (run [a; b] db).2) = S (length (taskEvents db)).
Proof.
  intros Ha Hb (r & db1 & Hrun).
  destruct (exec_ok_version a taskId v db db1 r Ha Hrun) as (H0 & H1 & Hr & Hlen).
  assert (Hlose : exec b db1 = (Throw VersionMismatch, db1)).
  { apply (exec_stale b taskId v (v + 1)); [done | done | lia]. }
  exists r. simpl. rewrite Hrun, Hlose. simpl. done.
Qed.

End Race.

(** ** Handlers in flight together *)

Section Handlers.

Import TaskController.

Lemma target_call_of (req : Request) (now : Z) (uuid : string) :
  target (call_of req now uuid) = Some (names req).
Proof. by destruct req. Qed.

(** Once the checks on the task that was read have passed, the rest of the
    handler is the repository call and the reply made from its outcome. *)
Lemma finish_passes (req : Request) (task : Task.t) (now : Z) (uuid : string)
    (db : Store) :
  passes req task = true →
  finish req (Some task) now uuid db
  = (reply_of req (exec (call_of req now uuid) db).1,
     (exec (call_of req now uuid) db).2).
Proof.
  destruct req as [role tn ws id v a | role tn u ws id v to]; simpl; intros Hp.
  - apply bool_decide_eq_true_1 in Hp.
    rewrite bool_decide_eq_false_2 by (intros ?; done).
    by destruct (TaskRepository.assign id a v now uuid db).
  - apply andb_true_iff in Hp as [Hw Hv]. apply bool_decide_eq_true_1 in Hw.
    rewrite bool_decide_eq_false_2 by (intros ?; done).
    rewrite Hv. simpl.
    by destruct (TaskRepository.transition id to v now uuid db).
Qed.

Lemma finish_refuses (req : Request) (task : Task.t) (now : Z) (uuid : string)
    (db : Store) :
  passes req task = false →
  status (finish req (Some task) now uuid db).1 ≠ 200.
Proof.
  destruct req as [role tn ws id v a | role tn u ws id v to]; simpl; intros Hp.
  - apply bool_decide_eq_false_1 in Hp. rewrite bool_decide_eq_true_2 by done.
    simpl. lia.
  - destruct (decide (Task.workspaceId task = ws)) as [Hw | Hw].
    + rewrite bool_decide_eq_true_2 in Hp by done.
      rewrite bool_decide_eq_false_2 by (intros ?; done).
      simpl in Hp. rewrite Hp. simpl. lia.
    + rewrite bool_decide_eq_true_2 by done. simpl. lia.
Qed.

Lemma reply_of_200 (req : Request) (result : Result Response.t) (j : Response.t) :
  reply_of req result = mkReply 200 (Json j) → result = Ok j.
Proof.
  destruct req; simpl; destruct result as [r | []]; simpl; intros [=];
    by subst.
Qed.

Lemma reply_of_stale (req : Request) :
  reply_of req (Throw VersionMismatch) = mkReply 409 (ErrorText "Version mismatch").
Proof. by destruct req. Qed.

(** A request answered 200 when it runs alone read a task, passed the
    checks on it, and had its repository call accepted. *)
Lemma alone_200 (req : Request) (now : Z) (uuid : string) (db : Store)
    (j : Response.t) :
  (alone req now uuid db).1 = Replied (mkReply 200 (Json j)) →
  ∃ task, read req db = Loaded req (Some task)
          ∧ passes req task = true
          ∧ (exec (call_of req now uuid) db).1 = Ok j.
Proof.
  unfold alone. simpl.
  assert (Hshape : (∃ t, read req db = Loaded req t)
                   ∨ (∃ reply, read req db = Replied reply ∧ status reply ≠ 200)).
  { destruct req; simpl; repeat case_bool_decide; eauto;
      right; eexists; (split; [reflexivity | done]). }
  destruct Hshape as [[t Hread] | (reply & Hread & Hstatus)]; rewrite Hread; simpl.
  2: { intros [= ->]. done. }
  destruct t as [task|].
  2: { intros [=]. }
  destruct (passes req task) eqn:Hp.
  - rewrite finish_passes by done. simpl. intros [= Hreply].
    apply reply_of_200 in Hreply. by exists task.
  - pose proof (finish_refuses req task now uuid db Hp) as Hne.
    destruct (finish req (Some task) now uuid db) as [reply db'].
    simpl in *. intros [= ->]. done.
Qed.

(** Two requests that name the same task and version, each answered 200
    when it runs alone.  When both handlers read before either of them
    calls the repository, the handler that calls first is answered 200 and
    the other one 409 with "Version mismatch", and the task ends one
    version up. *)
Lemma interleaved_reads_one_winner
    (db : Store) (ra rb : Request) (taskId : string) (v : Z)
    (now_a now_b : Z) (uuid_a uuid_b : string) (ja jb : Response.t)
    (turns : list Turn) :
  names ra = (taskId, v) →
  names rb = (taskId, v) →
  (alone ra now_a uuid_a db).1 = Replied (mkReply 200 (Json ja)) →
  (alone rb now_b uuid_b db).1 = Replied (mkReply 200 (Json jb)) →
  turns ∈ [ [First; Second; First; Second]; [Second; First; First; Second];
            [First; Second; Second; First]; [Second; First; Second; First] ] →
  let out := interleave turns (Received ra) (Received rb)
                        now_a uuid_a now_b uuid_b db in
  let stale := Replied (mkReply 409 (ErrorText "Version mismatch")) in
  ((out.1.1 = Replied (mkReply 200 (Json ja)) ∧ out.1.2 = stale)
   ∨ (out.1.1 = stale ∧ out.1.2 = Replied (mkReply 200 (Json jb))))
  ∧ version_of out.2 taskId = Some (v + 1).
Proof.
  intros Hna Hnb Ha Hb Hturns.
  apply alone_200 in Ha as (ta & Hra & Hpa & Hea).
  apply alone_200 in Hb as (tb & Hrb & Hpb & Heb).
  pose proof (target_call_of ra now_a uuid_a) as Hta. rewrite Hna in Hta.
  pose proof (target_call_of rb now_b uuid_b) as Htb. rewrite Hnb in Htb.
  set (ca := call_of ra now_a uuid_a) in *.
  set (cb := call_of rb now_b uuid_b) in *.
  destruct (exec ca db) as [resa dba] eqn:Hxa. simpl in Hea. subst resa.
  destruct (exec cb db) as [resb dbb] eqn:Hxb. simpl in Heb. subst resb.
  destruct (exec_ok_version ca taskId v db dba ja Hta Hxa) as (_ & Hva & _ & _).
  destruct (exec_ok_version cb taskId v db dbb jb Htb Hxb) as (_ & Hvb & _ & _).
  assert (Hlose_b : exec cb dba = (Throw VersionMismatch, dba)).
  { apply (exec_stale cb taskId v (v + 1)); [done | done | lia]. }
  assert (Hlose_a : exec ca dbb = (Throw VersionMismatch, dbb)).
  { apply (exec_stale ca taskId v (v + 1)); [done | done | lia]. }
  repeat (apply elem_of_cons in Hturns as [-> | Hturns]);
    [| | | | by apply elem_of_nil in Hturns];
    cbn [interleave step]; rewrite ?Hra, ?Hrb; cbn [interleave step];
    rewrite ?(finish_passes ra ta), ?(finish_passes rb tb) by done;
    fold ca cb; rewrite ?Hxa, ?Hxb; cbn [interleave step fst snd];
    rewrite ?(finish_passes ra ta), ?(finish_passes rb tb) by done;
    fold ca cb; rewrite ?Hlose_a, ?Hlose_b; cbn [interleave step fst snd];
    rewrite ?reply_of_stale.
  - split; [left|done]. split; [|done].
    f_equal. destruct ra; simpl; done.
  - split; [left|done]. split; [|done].
    f_equal. destruct ra; simpl; done.
  - split; [right|done]. split; [done|].
    f_equal. destruct rb; simpl; done.
  - split; [right|done]. split; [done|].
    f_equal. destruct rb; simpl; done.
Qed.

End Handlers.

(** C6. Two calls of [assign] or [transition] on one task, expecting the
    same version, each of which would be accepted if it ran alone.

    Each call is one synchronous transaction, so the two calls run in one
    of the two orders; in either order exactly one is accepted, the other is
    refused with [VersionMismatch], the task ends at the starting version
    plus one, and one event is appended.

    The reads that do interleave are those of the two handlers, before
    their calls.  When both handlers have read before either calls the
    repository, the one that calls first is answered 200 and the other 409
    with "Version mismatch", and the task again ends one version up. *)
Theorem race_has_one_winner :
  (∀ (db : Store) (taskId : string) (v : Z) (c1 c2 : Call) (schedule : list Call),
     target c1 = Some (taskId, v) →
     target c2 = Some (taskId, v) →
     (∃ r db', exec c1 db = (Ok r, db')) →
     (∃ r db', exec c2 db = (Ok r, db')) →
     schedule ≡ₚ [c1; c2] →
     ∃ r, (run schedule db).1 = [Ok r; Throw VersionMismatch]
          ∧ Response.version r = v + 1
          ∧ version_of db taskId = Some v
          ∧ version_of (run schedule db).2 taskId = Some (v + 1)
          ∧ length (taskEvents (run schedule db).2) = S (length (taskEvents db)))
  ∧ (∀ (db : Store) (ra rb : TaskController.Request) (taskId : string) (v : Z)
       (now_a now_b : Z) (uuid_a uuid_b : string) (ja jb : Response.t)
       (turns : list TaskController.Turn),
       TaskController.names ra = (taskId, v) →
       TaskController.names rb = (taskId, v) →
       (TaskController.alone ra now_a uuid_a db).1
       = TaskController.Replied (TaskController.mkReply 200 (TaskController.Json ja)) →
       (TaskController.alone rb now_b uuid_b db).1
       = TaskController.Replied (TaskController.mkReply 200 (TaskController.Json jb)) →
       turns ∈ [ [TaskController.First; TaskController.Second;
                  TaskController.First; TaskController.Second];
                 [TaskController.Second; TaskController.First;
                  TaskController.First; TaskController.Second];
                 [TaskController.First; TaskController.Second;
                  TaskController.Second; TaskController.First];
                 [TaskController.Second; TaskController.First;
                  TaskController.Second; TaskController.First] ] →
       let out := TaskController.interleave turns
                    (TaskController.Received ra) (TaskController.Received rb)
                    now_a uuid_a now_b uuid_b db in
       let stale :=
         TaskController.Replied
           (TaskController.mkReply 409 (TaskController.ErrorText "Version mismatch")) in
       ((out.1.1 = TaskController.Replied
                     (TaskController.mkReply 200 (TaskController.Json ja))
         ∧ out.1.2 = stale)
        ∨ (out.1.1 = stale
           ∧ out.1.2 = TaskController.Replied
                         (TaskController.mkReply 200 (TaskController.Json jb))))
       ∧ version_of out.2 taskId = Some (v + 1)).
Proof.
  split.
  - intros db taskId v c1 c2 schedule H1 H2 Hok1 Hok2 Hperm.
    symmetry in Hperm. apply Permutation_length_2_inv in Hperm as [-> | ->].
    + by apply first_wins.
    + by apply first_wins.
  - apply interleaved_reads_one_winner.
Qed.

Lemma race_has_one_winner_witness :
  let assign := Assign "t1" "user_123" 1 101 "e2" in
  let cancel := Transition "t1" CANCELLED 1 101 "e3" in
  let cancel_request :=
    TaskController.TransitionRequest "manager" "tenant_1" "user_9" "ws_1" "t1" 3
                                     CANCELLED in
  (∃ r, (run [assign; cancel] Scenario.created).1 = [Ok r; Throw VersionMismatch]
        ∧ version_of (run [assign; cancel] Scenario.created).2 "t1" = Some 2)
  ∧ (∃ r, (run [cancel; assign] Scenario.created).1 = [Ok r; Throw VersionMismatch]
          ∧ version_of (run [cancel; assign] Scenario.created).2 "t1" = Some 2)
  ∧ version_of
      (TaskController.interleave
         [TaskController.First; TaskController.Second;
          TaskController.Second; TaskController.First]
         (TaskController.Received Scenario.complete)
         (TaskController.Received cancel_request)
         103 "e4" 104 "e5" Scenario.started).2 "t1"
    = Some 4.
Proof.
  simpl.
  destruct race_has_one_winner as [Hcalls Hhandlers].
  assert (Ha : ∃ r db', exec (Assign "t1" "user_123" 1 101 "e2") Scenario.created
                        = (Ok r, db')).
  { eexists _, _. vm_compute. reflexivity. }
  assert (Hc : ∃ r db', exec (Transition "t1" CANCELLED 1 101 "e3") Scenario.created
                        = (Ok r, db')).
  { eexists _, _. vm_compute. reflexivity. }
  split; [|split].
  - destruct (Hcalls Scenario.created "t1" 1
                (Assign "t1" "user_123" 1 101 "e2")
                (Transition "t1" CANCELLED 1 101 "e3")
                [Assign "t1" "user_123" 1 101 "e2";
                 Transition "t1" CANCELLED 1 101 "e3"]
                eq_refl eq_refl Ha Hc (reflexivity _))
      as (r & Hr & _ & _ & Hv & _).
    by exists r.
  - destruct (Hcalls Scenario.created "t1" 1
                (Assign "t1" "user_123" 1 101 "e2")
                (Transition "t1" CANCELLED 1 101 "e3")
                [Transition "t1" CANCELLED 1 101 "e3";
                 Assign "t1" "user_123" 1 101 "e2"]
                eq_refl eq_refl Ha Hc (Permutation_swap _ _ _))
      as (r & Hr & _ & _ & Hv & _).
    by exists r.
  - assert (Hturns :
      [TaskController.First; TaskController.Second;
       TaskController.Second; TaskController.First]
      ∈ [ [TaskController.First; TaskController.Second;
           TaskController.First; TaskController.Second];
          [TaskController.Second; TaskController.First;
           TaskController.First; TaskController.Second];
          [TaskController.First; TaskController.Second;
           TaskController.Second; TaskController.First];
          [TaskController.Second; TaskController.First;
           TaskController.Second; TaskController.First] ]).
    { do 2 right. left. }
    assert (Hdone :
      (TaskController.alone Scenario.complete 103 "e4" Scenario.started).1
      = TaskController.Replied
          (TaskController.mkReply 200
             (TaskController.Json
                {| Response.task_id := "t1"; Response.state := DONE;
                   Response.version := 4 |}))).
    { vm_compute. reflexivity. }
    assert (Hcancel :
      (TaskController.alone
         (TaskController.TransitionRequest
            "manager" "tenant_1" "user_9" "ws_1" "t1" 3 CANCELLED)
         104 "e5" Scenario.started).1
      = TaskController.Replied
          (TaskController.mkReply 200
             (TaskController.Json
                {| Response.task_id := "t1"; Response.state := CANCELLED;
                   Response.version := 4 |}))).
    { vm_compute. reflexivity. }
    exact (proj2 (Hhandlers Scenario.started Scenario.complete
                    (TaskController.TransitionRequest
                       "manager" "tenant_1" "user_9" "ws_1" "t1" 3 CANCELLED)
                    "t1" 3 103 104 "e4" "e5" _ _ _
                    eq_refl eq_refl Hdone Hcancel Hturns)).
Defined.

(** ** Idempotent create *)

Section Idempotency.

Import Outcome.

(** No call rewrites or removes a stored idempotency record. *)
Lemma exec_keeps_record (c : Call) (db : Store) (key : string)
    (row : IdempotencyKey.t) :
  idempotencyKeys db !! key = Some row →
  idempotencyKeys (exec c db).2 !! key = Some row.
Proof.
  intros Hrow. destruct (exec c db) as [[r | e] db'] eqn:Hexec; simpl.
  2: { apply exec_throw in Hexec. by subst. }
  destruct c as [new k now uuid | id a v now uuid | id to v now uuid];
    simpl in Hexec.
  - apply create_inv in Hexec
      as [(? & ? & _ & _ & _ & ->) | (Hunc & _ & _ & _ & ->)]; [done|].
    unfold created_store. simpl.
    destruct (Js.present k) as [key'|] eqn:Hp; [|done].
    rewrite lookup_insert_ne; [done|].
    intros ->. rewrite (Hunc key) in Hrow by done. discriminate.
  - by apply assign_inv in Hexec as (? & _ & _ & _ & _ & _ & ->).
  - by apply transition_inv in Hexec as (? & _ & _ & _ & _ & ->).
Qed.

Lemma run_keeps_record (calls : list Call) (db : Store) (key : string)
    (row : IdempotencyKey.t) :
  idempotencyKeys db !! key = Some row →
  idempotencyKeys (run calls db).2 !! key = Some row.
Proof.
  revert db. induction calls as [| c rest IH]; intros db Hrow; [done|].
  simpl. pose proof (exec_keeps_record c db key row Hrow) as Hc.
  destruct (exec c db) as [r db1]. simpl in Hc.
  specialize (IH db1 Hc). by destruct (run rest db1).
Qed.

(** After a successful [create] with a key, the key is stored with the
    response the call returned. *)
Lemma create_records_response (db db1 : Store) (new : NewTask.t) (key : string)
    (now : Z) (uuid : string) (r : Response.t) :
  key ≠ "" →
  TaskRepository.create new (Some key) now uuid db = (Ok r, db1) →
  ∃ row, idempotencyKeys db1 !! key = Some row
         ∧ IdempotencyKey.responsePayload row = r.
Proof.
  intros Hkey Hrun. pose proof (present_Some key Hkey) as Hp.
  apply create_inv in Hrun
    as [(k & row & Hk & Hrow & -> & ->) | (_ & _ & _ & -> & ->)].
  - rewrite Hp in Hk. injection Hk as <-. by exists row.
  - unfold created_store. rewrite Hp. simpl. rewrite lookup_insert_eq.
    by eexists.
Qed.

End Idempotency.

(** C3, as stated, fails for the empty key: [create] tests the key for
    truth, and the empty string is not true, so two requests that both
    carry the key [""] are both carried out.  The second inserts a second
    row and a second [TaskCreated] event and answers with its own task, and
    no idempotency record is written. *)
Lemma create_twice_with_empty_key :
  let first :=
    TaskRepository.create (Scenario.request "t1" "Implement auth" HIGH)
                          (Some "") 100 "e1" Scenario.empty in
  let second :=
    TaskRepository.create (Scenario.request "t2" "Implement auth" HIGH)
                          (Some "") 101 "e2" first.2 in
  first.1 = Ok {| Response.task_id := "t1"; Response.state := NEW;
                  Response.version := 1 |}
  ∧ second.1 = Ok {| Response.task_id := "t2"; Response.state := NEW;
                     Response.version := 1 |}
  ∧ second.1 ≠ first.1
  ∧ size (tasks first.2) = 1%nat ∧ size (tasks second.2) = 2%nat
  ∧ Event.eventType <$> taskEvents second.2 = ["TaskCreated"; "TaskCreated"]
  ∧ idempotencyKeys second.2 = ∅.
Proof. vm_compute. repeat split; try reflexivity. discriminate. Qed.

(** C3, amended to non-empty keys.  When a [create] with a non-empty key
    returns a response, the key is stored with that response; a later
    [create] with the same key returns the same response (task identifier,
    state and version) and leaves every table as it was, so it inserts no
    row and appends no event; and whatever calls run in between, the record
    stays as it is and the answer stays the same. *)
Theorem create_idempotent
    (db db1 : Store) (new : NewTask.t) (key : string) (now : Z) (uuid : string)
    (r : Response.t) :
  key ≠ "" →
  TaskRepository.create new (Some key) now uuid db = (Ok r, db1) →
  ∃ row,
    idempotencyKeys db1 !! key = Some row
    ∧ IdempotencyKey.responsePayload row = r
    ∧ (∀ new' now' uuid',
         TaskRepository.create new' (Some key) now' uuid' db1 = (Ok r, db1))
    ∧ (∀ calls, idempotencyKeys (run calls db1).2 !! key = Some row)
    ∧ (∀ calls new' now' uuid',
         TaskRepository.create new' (Some key) now' uuid' (run calls db1).2
         = (Ok r, (run calls db1).2)).
Proof.
  intros Hkey Hrun.
  destruct (create_records_response db db1 new key now uuid r Hkey Hrun)
    as (row & Hrow & Hr).
  pose proof (present_Some key Hkey) as Hp.
  exists row. repeat split; try done.
  - intros new' now' uuid'. rewrite <- Hr.
    by apply (create_cached _ _ _ _ _ key row).
  - intros calls. by apply run_keeps_record.
  - intros calls new' now' uuid'. rewrite <- Hr.
    apply (create_cached _ _ _ _ _ key row); [done|].
    by apply run_keeps_record.
Qed.

Lemma create_idempotent_witness :
  let first :=
    TaskRepository.create (Scenario.request "t1" "Implement auth" HIGH)
                          (Some "key-1") 100 "e1" Scenario.empty in
  "key-1" ≠ ""
  ∧ first.1 = Ok {| Response.task_id := "t1"; Response.state := NEW;
                    Response.version := 1 |}
  ∧ TaskRepository.create (Scenario.request "t2" "Implement auth" HIGH)
                          (Some "key-1") 101 "e2" first.2
    = (first.1, first.2).
Proof.
  simpl.
  assert (Hkey : "key-1" ≠ "") by discriminate.
  destruct (create_idempotent Scenario.empty
              (TaskRepository.create (Scenario.request "t1" "Implement auth" HIGH)
                 (Some "key-1") 100 "e1" Scenario.empty).2
              (Scenario.request "t1" "Implement auth" HIGH) "key-1" 100 "e1"
              {| Response.task_id := "t1"; Response.state := NEW;
                 Response.version := 1 |} Hkey)
    as (row & _ & _ & Hagain & _).
  - vm_compute. reflexivity.
  - split; [done|]. split; [vm_compute; reflexivity|].
    rewrite Hagain. f_equal.
Defined.

(** C10, as stated, fails for the empty key: the second of two requests
    with the key [""] and another title, priority, workspace and tenant is
    carried out, and the row it inserts holds its own payload. *)
Lemma create_other_payload_with_empty_key :
  let other :=
    {| NewTask.id := "t2"; NewTask.tenantId := "tenant_2";
       NewTask.workspaceId := "ws_2"; NewTask.title := "Write report";
       NewTask.priority := LOW; NewTask.state := NEW;
       NewTask.assigneeId := None |} in
  let first :=
    TaskRepository.create (Scenario.request "t1" "Implement auth" HIGH)
                          (Some "") 100 "e1" Scenario.empty in
  let second := TaskRepository.create other (Some "") 101 "e2" first.2 in
  first.1 = Ok {| Response.task_id := "t1"; Response.state := NEW;
                  Response.version := 1 |}
  ∧ second.1 ≠ first.1
  ∧ tasks second.2 !! "t2" = Some (TaskRepository.new_row other 101)
  ∧ length (taskEvents second.2) = 2%nat.
Proof. vm_compute. repeat split; try reflexivity. discriminate. Qed.

(** C10, amended to non-empty keys.  The idempotency check looks at the key
    alone: after a [create] with a non-empty key has returned, a [create]
    with that key and any payload returns the same response and leaves the
    store as it was; and when the key was new to the first call, that
    response names the first call's task. *)
Theorem create_compares_key_only
    (db db1 : Store) (key : string) (new1 new2 : NewTask.t) (now1 now2 : Z)
    (uuid1 uuid2 : string) (r : Response.t) :
  key ≠ "" →
  TaskRepository.create new1 (Some key) now1 uuid1 db = (Ok r, db1) →
  TaskRepository.create new2 (Some key) now2 uuid2 db1 = (Ok r, db1)
  ∧ (idempotencyKeys db !! key = None → r = Outcome.created_response new1).
Proof.
  intros Hkey Hrun. pose proof (present_Some key Hkey) as Hp. split.
  - destruct (create_records_response db db1 new1 key now1 uuid1 r Hkey Hrun)
      as (row & Hrow & <-).
    by apply (create_cached _ _ _ _ _ key row).
  - intros Hnew. apply create_inv in Hrun
      as [(k & row & Hk & Hrow & _ & _) | (_ & _ & _ & -> & _)]; [|done].
    rewrite Hp in Hk. injection Hk as <-. rewrite Hnew in Hrow. discriminate.
Qed.

Lemma create_compares_key_only_witness :
  let other :=
    {| NewTask.id := "t2"; NewTask.tenantId := "tenant_2";
       NewTask.workspaceId := "ws_2"; NewTask.title := "Write report";
       NewTask.priority := LOW; NewTask.state := NEW;
       NewTask.assigneeId := None |} in
  let first :=
    TaskRepository.create (Scenario.request "t1" "Implement auth" HIGH)
                          (Some "key-1") 100 "e1" Scenario.empty in
  "key-1" ≠ ""
  ∧ TaskRepository.create other (Some "key-1") 101 "e2" first.2
    = (Ok {| Response.task_id := "t1"; Response.state := NEW;
             Response.version := 1 |}, first.2).
Proof.
  simpl.
  assert (Hkey : "key-1" ≠ "") by discriminate.
  split; [done|].
  apply (create_compares_key_only Scenario.empty _ "key-1"
           (Scenario.request "t1" "Implement auth" HIGH) _ 100 101 "e1" "e2" _ Hkey).
  vm_compute. reflexivity.
Defined.

(** ** Listing *)

Global Instance created_desc_total : Total created_desc.
Proof. intros a b. unfold created_desc. lia. Qed.

Global Instance created_desc_trans : Transitive created_desc.
Proof. intros a b c. unfold created_desc. lia. Qed.

Global Instance created_desc_tie_total tie : Total (created_desc_tie tie).
Proof. intros a b. unfold created_desc_tie. lia. Qed.

Global Instance created_desc_tie_trans tie : Transitive (created_desc_tie tie).
Proof. intros a b c. unfold created_desc_tie. lia. Qed.

Lemma created_desc_tie_desc tie a b : created_desc_tie tie a b → created_desc a b.
Proof. unfold created_desc_tie, created_desc. lia. Qed.

Section Listing.

Context {A : Type}.
Implicit Types (rows page : list A) (n : Z) (limit : number).

Lemma StronglySorted_weaken (R R' : relation A) rows :
  (∀ x y, R x y → R' x y) → StronglySorted R rows → StronglySorted R' rows.
Proof.
  intros Himpl. induction 1 as [| x l Hl IH Hx]; constructor; [done|].
  eapply Forall_impl; [exact Hx|]. intros y. apply Himpl.
Qed.

Lemma first_rows_split n rows :
  ∃ rest, rows = (Sqlite.first_rows n rows ++ rest)%list
          ∧ (rest ≠ [] → Z.of_nat (length (Sqlite.first_rows n rows)) = n).
Proof.
  unfold Sqlite.first_rows. case_bool_decide as Hn.
  - exists []. split; [by rewrite app_nil_r | done].
  - exists (drop (Z.to_nat n) rows). split; [by rewrite take_drop|].
    intros Hrest. rewrite length_take.
    destruct (decide (length rows ≤ Z.to_nat n)%nat) as [Hle | Hgt].
    + rewrite drop_ge in Hrest; done.
    + lia.
Qed.

Lemma first_rows_subseteq n rows : Sqlite.first_rows n rows ⊆ rows.
Proof.
  unfold Sqlite.first_rows. case_bool_decide; [done | apply subseteq_take].
Qed.

Lemma first_rows_sorted (R : relation A) n rows :
  StronglySorted R rows → StronglySorted R (Sqlite.first_rows n rows).
Proof.
  destruct (first_rows_split n rows) as (rest & Hsplit & _).
  intros Hs. rewrite Hsplit in Hs. by apply StronglySorted_app_1_l in Hs.
Qed.

Lemma first_rows_length n rows :
  0 ≤ n → (length (Sqlite.first_rows n rows) ≤ Z.to_nat n)%nat.
Proof.
  intros Hn. unfold Sqlite.first_rows. rewrite bool_decide_eq_false_2 by lia.
  rewrite length_take. lia.
Qed.

Lemma must_be_int_Some limit z :
  Sqlite.must_be_int limit = Some z → limit = Num z ∧ - 2 ^ 63 < z < 2 ^ 63 - 1.
Proof.
  destruct limit as [| y |]; simpl; try discriminate.
  case_bool_decide; [|discriminate]. by intros [= <-].
Qed.

(** A query that returns gives a front part of the rows it ordered, and
    leaves rows out only when the limit is the number of rows it gives. *)
Lemma sql_limit_Ok release limit rows page :
  sql_limit release limit rows = Ok page →
  ∃ rest, rows = (page ++ rest)%list
          ∧ (rest ≠ [] → limit = Num (Z.of_nat (length page))).
Proof.
  unfold sql_limit. destruct (writes_limit release limit).
  - destruct (Sqlite.must_be_int limit) as [z|] eqn:Hz; [|discriminate].
    intros [= <-]. apply must_be_int_Some in Hz as [-> _].
    destruct (first_rows_split z rows) as (rest & Hsplit & Hfull).
    exists rest. split; [done|]. intros Hrest. by rewrite (Hfull Hrest).
  - intros [= <-]. exists []. split; [by rewrite app_nil_r | done].
Qed.

(** A query throws only for a limit that is no integer of 64 bits. *)
Lemma sql_limit_Throw release limit rows e :
  sql_limit release limit rows = Throw e →
  e = SqliteMismatch ∧ Sqlite.must_be_int limit = None ∧ limit ≠ NaN.
Proof.
  unfold sql_limit. destruct (writes_limit release limit) eqn:Hw; [|discriminate].
  destruct (Sqlite.must_be_int limit) eqn:Hz; [discriminate|].
  intros [= <-]. split; [done|]. split; [done|].
  intros ->. by destruct release.
Qed.

Lemma sql_limit_positive release n rows :
  0 < n < 2 ^ 63 - 1 →
  sql_limit release (Num n) rows = Ok (take (Z.to_nat n) rows).
Proof.
  intros Hn. unfold sql_limit, Sqlite.must_be_int, Sqlite.first_rows.
  assert (Hw : writes_limit release (Num n) = true).
  { destruct release; simpl.
    - by rewrite bool_decide_eq_false_2 by lia.
    - by rewrite bool_decide_eq_true_2 by lia. }
  rewrite Hw. rewrite bool_decide_eq_true_2 by lia.
  by rewrite bool_decide_eq_false_2 by lia.
Qed.

Lemma sql_limit_negative release n rows :
  - 2 ^ 63 < n < 0 → sql_limit release (Num n) rows = Ok rows.
Proof.
  intros Hn. unfold sql_limit, Sqlite.must_be_int, Sqlite.first_rows.
  destruct (writes_limit release (Num n)); [|done].
  rewrite bool_decide_eq_true_2 by lia.
  by rewrite bool_decide_eq_true_2 by lia.
Qed.

Lemma sql_limit_too_large release limit rows :
  limit = Infinity false ∨ (∃ n, limit = Num n ∧ 2 ^ 63 - 1 ≤ n) →
  sql_limit release limit rows = Throw SqliteMismatch.
Proof.
  unfold sql_limit. intros [-> | (n & -> & Hn)].
  - by destruct release.
  - assert (Hw : writes_limit release (Num n) = true).
    { destruct release; simpl.
      - by rewrite bool_decide_eq_false_2 by lia.
      - by rewrite bool_decide_eq_true_2 by lia. }
    rewrite Hw. simpl. by rewrite bool_decide_eq_false_2 by lia.
Qed.

Lemma sql_limit_too_small release limit rows :
  limit = Infinity true ∨ (∃ n, limit = Num n ∧ n ≤ - 2 ^ 63) →
  sql_limit release limit rows
  = match release with
    | LimitWhenTruthy => Throw SqliteMismatch
    | LimitWhenNotNegative => Ok rows
    end.
Proof.
  unfold sql_limit. intros [-> | (n & -> & Hn)].
  - by destruct release.
  - destruct release; simpl.
    + rewrite (bool_decide_eq_false_2 (n = 0)) by lia. simpl.
      by rewrite bool_decide_eq_false_2 by lia.
    + by rewrite bool_decide_eq_false_2 by lia.
Qed.

End Listing.

Section ListConditions.

Import TaskRepository.

(** A cursor that reads as a number is not the empty string. *)
Lemma parseInt_present (c : string) :
  Js.parseInt c ≠ NaN → Js.present (Some c) = Some c.
Proof.
  intros Hp. unfold Js.present. case_bool_decide as Hc; [|done].
  subst c. by destruct Hp.
Qed.

Lemma and_true {B} (cs : Datatypes.list (B → bool)) (r : B) :
  and_ cs r = true ↔ ∀ c, c ∈ cs → c r = true.
Proof.
  unfold and_. induction cs as [| c cs IH]; simpl.
  - split; [|done]. intros _ c Hc. by apply elem_of_nil in Hc.
  - rewrite andb_true_iff, IH. split.
    + intros [Hc Hcs] c' Hin. apply elem_of_cons in Hin as [-> | Hin]; auto.
    + intros H. split; [apply H; left | intros c' Hin; apply H; by right].
Qed.

(** What the conditions of [list] say of a row that passes them. *)
Lemma conditions_sound workspaceId tenantId filters (r : string * Task.t) :
  and_ (conditions workspaceId tenantId filters) r = true →
  Task.workspaceId r.2 = workspaceId
  ∧ Task.tenantId r.2 = tenantId
  ∧ ∀ c, Filters.cursor filters = Some c → Js.parseInt c ≠ NaN →
         Sqlite.less (Task.createdAt r.2) (Js.parseInt c) = true.
Proof.
  rewrite and_true. unfold conditions. intros H.
  split; [|split].
  - eapply bool_decide_eq_true_1, (H (λ r, bool_decide (Task.workspaceId r.2 = workspaceId))).
    set_solver.
  - eapply bool_decide_eq_true_1, (H (λ r, bool_decide (Task.tenantId r.2 = tenantId))).
    set_solver.
  - intros c Hc Hp.
    apply (H (λ r, Sqlite.less (Task.createdAt r.2) (Js.parseInt c))).
    rewrite Hc, (parseInt_present c Hp).
    destruct (Js.parseInt c); [done | set_solver | set_solver].
Qed.

End ListConditions.

(** C8. What [list] returns are stored rows of the workspace and tenant
    asked for, most recently created first.  With a cursor that reads as
    the number [ts], every row returned was created strictly before [ts],
    so a row created at [ts] is left out; a cursor that reads as minus
    infinity leaves no row.  With no limit given, [list] returns, and at
    most 20 rows.  A row that passes the conditions is left out only when
    the page is as long as the limit and full of rows at least as recent.
    [list] throws only [datatype mismatch], and only for a limit that was
    given and is no integer of 64 bits.  All this holds whatever the order
    SQLite gives to rows of equal creation time and whatever the release
    of the query builder. *)
Theorem list_page
    (db : Store) (workspaceId tenantId : string) (filters : Filters.t)
    (release : Drizzle) (tie : string → Z) :
  match TaskRepository.list workspaceId tenantId filters release tie db with
  | Ok rows =>
      StronglySorted created_desc rows
      ∧ (∀ id row, (id, row) ∈ rows →
           tasks db !! id = Some row
           ∧ Task.workspaceId row = workspaceId ∧ Task.tenantId row = tenantId)
      ∧ (∀ c, Filters.cursor filters = Some c →
           ∀ id row, (id, row) ∈ rows →
           match Js.parseInt c with
           | Num ts => Task.createdAt row < ts
           | Infinity negative => negative = false
           | NaN => True
           end)
      ∧ (Filters.limit filters = None → (length rows ≤ 20)%nat)
      ∧ (∀ id row,
           tasks db !! id = Some row →
           TaskRepository.and_
             (TaskRepository.conditions workspaceId tenantId filters) (id, row)
           = true →
           (id, row) ∈ rows
           ∨ (Js.or_else (Filters.limit filters) 20 = Num (Z.of_nat (length rows))
              ∧ ∀ r, r ∈ rows → Task.createdAt row ≤ Task.createdAt r.2))
  | Throw e =>
      e = SqliteMismatch
      ∧ Filters.limit filters ≠ None
      ∧ Sqlite.must_be_int (Js.or_else (Filters.limit filters) 20) = None
  end.
Proof.
  unfold TaskRepository.list.
  set (limit := Js.or_else (Filters.limit filters) 20).
  set (cond := λ r : string * Task.t,
         TaskRepository.and_
           (TaskRepository.conditions workspaceId tenantId filters) r = true).
  set (sorted := merge_sort (created_desc_tie tie)
                   (filter cond (map_to_list (tasks db)))).
  assert (Hsorted : StronglySorted created_desc sorted).
  { apply (StronglySorted_weaken (created_desc_tie tie));
      [apply created_desc_tie_desc | apply (StronglySorted_merge_sort _)]. }
  assert (Hin : ∀ r, r ∈ sorted ↔ cond r ∧ tasks db !! r.1 = Some r.2).
  { intros [id row]. unfold sorted.
    rewrite (merge_sort_Permutation (created_desc_tie tie)), list_elem_of_filter,
      elem_of_map_to_list. done. }
  destruct (sql_limit release limit sorted) as [rows | e] eqn:Hlist.
  - destruct (sql_limit_Ok release limit sorted rows Hlist)
      as (rest & Hsplit & Hfull).
    assert (Hrows : ∀ r, r ∈ rows → r ∈ sorted).
    { intros r Hr. rewrite Hsplit. apply elem_of_app. by left. }
    split; [|split; [|split; [|split]]].
    + rewrite Hsplit in Hsorted. by apply StronglySorted_app_1_l in Hsorted.
    + intros id row Hr. apply Hrows, Hin in Hr as [Hc Hlook].
      apply conditions_sound in Hc as (Hw & Ht & _). done.
    + intros c Hc id row Hr. apply Hrows, Hin in Hr as [Hcond _].
      apply conditions_sound in Hcond as (_ & _ & Hcur).
      specialize (Hcur c Hc). simpl in Hcur.
      destruct (Js.parseInt c) as [| ts | negative]; [done | |].
      * assert (Hlt : Sqlite.less (Task.createdAt row) (Num ts) = true)
          by (by apply Hcur).
        by apply bool_decide_eq_true_1 in Hlt.
      * assert (Hlt : Sqlite.less (Task.createdAt row) (Infinity negative) = true)
          by (by apply Hcur).
        by apply negb_true_iff in Hlt.
    + intros Hlim. subst limit. rewrite Hlim in Hlist. simpl in Hlist.
      rewrite (sql_limit_positive release 20 sorted) in Hlist by lia.
      injection Hlist as <-. rewrite length_take. lia.
    + intros id row Hlook Hc.
      assert (Hs : (id, row) ∈ sorted) by (by apply Hin).
      rewrite Hsplit in Hs. apply elem_of_app in Hs as [Hs | Hs]; [by left|].
      right. split.
      * apply Hfull. intros ->. by apply elem_of_nil in Hs.
      * intros r Hr. rewrite Hsplit in Hsorted.
        apply (StronglySorted_app_1_elem_of _ _ _ r (id, row)) in Hsorted; done.
  - apply sql_limit_Throw in Hlist as (-> & Hint & _).
    split; [done|]. split; [|done].
    intros Hlim. subst limit. rewrite Hlim in Hint. discriminate.
Qed.

Lemma list_page_witness :
  TaskRepository.list "ws_1" "tenant_1" (Scenario.before "300")
    LimitWhenNotNegative (λ _, 0) Scenario.three
  = Ok [ ("b", TaskRepository.new_row (Scenario.request "b" "second" MEDIUM) 200);
         ("a", TaskRepository.new_row (Scenario.request "a" "first" LOW) 100) ]
  ∧ ∀ id row,
      (id, row) ∈ [ ("b", TaskRepository.new_row
                            (Scenario.request "b" "second" MEDIUM) 200);
                    ("a", TaskRepository.new_row
                            (Scenario.request "a" "first" LOW) 100) ] →
      Task.createdAt row < 300.
Proof.
  pose proof (list_page Scenario.three "ws_1" "tenant_1" (Scenario.before "300")
                LimitWhenNotNegative (λ _, 0)) as H.
  assert (Hlist :
    TaskRepository.list "ws_1" "tenant_1" (Scenario.before "300")
      LimitWhenNotNegative (λ _, 0) Scenario.three
    = Ok [ ("b", TaskRepository.new_row (Scenario.request "b" "second" MEDIUM) 200);
           ("a", TaskRepository.new_row (Scenario.request "a" "first" LOW) 100) ])
    by (vm_compute; reflexivity).
  rewrite Hlist in H. destruct H as (_ & _ & Hcursor & _).
  split; [exact Hlist|].
  intros id row Hr. exact (Hcursor "300" eq_refl id row Hr).
Defined.


(** * Further properties *)

(** ** What every sequence of repository calls keeps *)

Section Runs.

Import TaskRepository Outcome.

Lemma events_of_append (db : Store) (t : gmap string Task.t) (ev : Event.t)
    (i : gmap string IdempotencyKey.t) (taskId : string) :
  events_of (mkStore t (taskEvents db ++ [ev]) i) taskId
  = (events_of db taskId
     ++ (if decide (Event.taskId ev = taskId) then [ev] else []))%list.
Proof.
  unfold events_of. simpl. by rewrite filter_app.
Qed.

(** Writing one row one version up, or a new row at version 1, together
    with one event for it, keeps the account. *)
Lemma accounted_step (db : Store) (taskId : string) (row : Task.t) (ev : Event.t)
    (i : gmap string IdempotencyKey.t) :
  accounted db →
  Event.taskId ev = taskId →
  Task.version row
  = match tasks db !! taskId with
    | Some old => Task.version old + 1
    | None => 1
    end →
  accounted (mkStore (<[taskId := row]> (tasks db)) (taskEvents db ++ [ev]) i).
Proof.
  intros Hacc Hev Hver other. specialize (Hacc other).
  rewrite events_of_append. simpl.
  destruct (decide (taskId = other)) as [<- | Hne].
  - rewrite lookup_insert_eq, decide_True by done.
    rewrite Hver, length_app. simpl.
    destruct (tasks db !! taskId) as [old|].
    + rewrite Hacc. lia.
    + by rewrite Hacc.
  - rewrite lookup_insert_ne by done.
    rewrite decide_False by congruence. by rewrite app_nil_r.
Qed.

Lemma exec_accounted (c : Call) (db : Store) :
  accounted db → accounted (exec c db).2.
Proof.
  intros Hacc. destruct (exec c db) as [[r | e] db'] eqn:Hexec; simpl.
  2: { apply exec_throw in Hexec. by subst. }
  destruct c as [new k now uuid | id a v now uuid | id to v now uuid];
    simpl in Hexec.
  - apply create_inv in Hexec
      as [(? & ? & _ & _ & _ & ->) | (_ & Hid & _ & _ & ->)]; [done|].
    unfold created_store. apply accounted_step; [done | done |].
    by rewrite Hid.
  - apply assign_inv in Hexec as (task & Hlook & Hv & _ & _ & _ & ->).
    apply accounted_step; [done | done |]. rewrite Hlook. simpl. lia.
  - apply transition_inv in Hexec as (task & Hlook & Hv & _ & _ & ->).
    apply accounted_step; [done | done |]. rewrite Hlook. simpl. lia.
Qed.

Lemma run_accounted (calls : Datatypes.list Call) (db : Store) :
  accounted db → accounted (run calls db).2.
Proof.
  revert db. induction calls as [| c rest IH]; intros db Hacc; [done|].
  simpl. pose proof (exec_accounted c db Hacc) as Hc.
  destruct (exec c db) as [r db1]. simpl in Hc.
  specialize (IH db1 Hc). by destruct (run rest db1).
Qed.

End Runs.

(** X1. Starting from the empty store, after any sequence of [create],
    [assign] and [transition] calls, accepted or refused, every stored task
    is at the version that counts the outbox events referring to it, and
    no event refers to a task that is not stored. *)
Theorem outbox_accounts_for_versions (calls : list Call) :
  accounted (run calls Scenario.empty).2.
Proof.
  apply run_accounted. intros taskId. unfold events_of. simpl.
  by rewrite lookup_empty.
Qed.

Section Persistence.

Import TaskRepository Outcome.

(** What one call does to the outbox and to a row that is stored. *)
Lemma exec_keeps (c : Call) (db : Store) :
  taskEvents db `prefix_of` taskEvents (exec c db).2
  ∧ (NoDup (event_ids db) → NoDup (event_ids (exec c db).2))
  ∧ ∀ taskId task,
      tasks db !! taskId = Some task →
      ∃ task', tasks (exec c db).2 !! taskId = Some task'
               ∧ same_origin task task'
               ∧ Task.version task ≤ Task.version task'.
Proof.
  assert (Hsame : ∀ db' : Store,
    db' = db →
    taskEvents db `prefix_of` taskEvents db'
    ∧ (NoDup (event_ids db) → NoDup (event_ids db'))
    ∧ ∀ taskId task,
        tasks db !! taskId = Some task →
        ∃ task', tasks db' !! taskId = Some task'
                 ∧ same_origin task task'
                 ∧ Task.version task ≤ Task.version task').
  { intros db' ->. split; [done|]. split; [done|].
    intros taskId task Hlook. exists task. unfold same_origin. by repeat split. }
  assert (Hwrite : ∀ taskId row ev i,
    Event.id ev ∉ event_ids db →
    (∀ old, tasks db !! taskId = Some old →
            same_origin old row ∧ Task.version old ≤ Task.version row) →
    let db' := mkStore (<[taskId := row]> (tasks db)) (taskEvents db ++ [ev]) i in
    taskEvents db `prefix_of` taskEvents db'
    ∧ (NoDup (event_ids db) → NoDup (event_ids db'))
    ∧ ∀ taskId task,
        tasks db !! taskId = Some task →
        ∃ task', tasks db' !! taskId = Some task'
                 ∧ same_origin task task'
                 ∧ Task.version task ≤ Task.version task').
  { intros taskId row ev i Hfresh Hold. simpl. split; [|split].
    - by apply prefix_app_r.
    - intros Hnd. unfold event_ids in *. simpl. rewrite fmap_app. simpl.
      apply NoDup_app. split; [done|]. split.
      + intros x Hx Hin. apply list_elem_of_singleton in Hin. by subst.
      + apply NoDup_singleton.
    - intros other task Hlook. destruct (decide (taskId = other)) as [<- | Hne].
      + rewrite lookup_insert_eq. exists row. by destruct (Hold task Hlook).
      + rewrite lookup_insert_ne by done. exists task.
        unfold same_origin. by repeat split. }
  destruct (exec c db) as [[r | e] db'] eqn:Hexec; simpl.
  2: { apply Hsame. by apply exec_throw in Hexec. }
  destruct c as [new k now uuid | id a v now uuid | id to v now uuid];
    simpl in Hexec.
  - apply create_inv in Hexec
      as [(? & ? & _ & _ & _ & ->) | (_ & Hid & Hu & _ & ->)]; [by apply Hsame|].
    unfold created_store. apply Hwrite; [done|].
    intros old Hold. rewrite Hid in Hold. discriminate.
  - apply assign_inv in Hexec as (task & Hlook & Hv & _ & Hu & _ & ->).
    apply Hwrite; [done|]. intros old Hold. rewrite Hlook in Hold.
    injection Hold as <-. unfold same_origin. simpl. repeat split; lia.
  - apply transition_inv in Hexec as (task & Hlook & Hv & Hu & _ & ->).
    apply Hwrite; [done|]. intros old Hold. rewrite Hlook in Hold.
    injection Hold as <-. unfold same_origin. simpl. repeat split; lia.
Qed.

Lemma same_origin_trans (a b c : Task.t) :
  same_origin a b → same_origin b c → same_origin a c.
Proof.
  unfold same_origin. intros (? & ? & ? & ? & ?) (? & ? & ? & ? & ?).
  repeat split; congruence.
Qed.

End Persistence.

(** X2. The outbox is append-only: whatever calls run, the events that were
    there stay, in place and unchanged, as the front of the log; and event
    identifiers that were unique stay unique. *)
Theorem outbox_is_append_only (calls : list Call) (db : Store) :
  taskEvents db `prefix_of` taskEvents (run calls db).2
  ∧ (NoDup (event_ids db) → NoDup (event_ids (run calls db).2)).
Proof.
  revert db. induction calls as [| c rest IH]; intros db; [done|].
  simpl. destruct (exec_keeps c db) as (Hpre & Hnd & _).
  destruct (exec c db) as [r db1]. simpl in *.
  destruct (IH db1) as (Hpre' & Hnd').
  destruct (run rest db1) as [rs db2]. simpl in *. split.
  - by etrans.
  - auto.
Qed.

Lemma outbox_is_append_only_witness :
  taskEvents Scenario.created `prefix_of` taskEvents Scenario.done
  ∧ NoDup (event_ids Scenario.done).
Proof.
  destruct (outbox_is_append_only
              [ Assign "t1" "user_123" 1 101 "e2";
                Transition "t1" IN_PROGRESS 2 102 "e3";
                Transition "t1" DONE 3 103 "e4" ] Scenario.created)
    as [Hpre Hnd].
  split; [exact Hpre|]. apply Hnd. vm_compute.
  apply NoDup_singleton.
Defined.

(** X3. No call removes a task or rewrites where it came from: a stored
    task stays stored under its identifier, with the tenant, workspace,
    title, priority and creation time it had, and at a version that is not
    lower. *)
Theorem tasks_persist (calls : list Call) (db : Store) (taskId : string)
    (task : Task.t) :
  tasks db !! taskId = Some task →
  ∃ task', tasks (run calls db).2 !! taskId = Some task'
           ∧ same_origin task task'
           ∧ Task.version task ≤ Task.version task'.
Proof.
  revert db task. induction calls as [| c rest IH]; intros db task Hlook.
  - exists task. unfold same_origin. by repeat split.
  - simpl. destruct (exec_keeps c db) as (_ & _ & Hrow).
    destruct (Hrow taskId task Hlook) as (task1 & Hlook1 & Ho1 & Hv1).
    destruct (exec c db) as [r db1]. simpl in *.
    destruct (IH db1 task1 Hlook1) as (task2 & Hlook2 & Ho2 & Hv2).
    destruct (run rest db1) as [rs db2]. simpl in *.
    exists task2. split; [done|]. split; [by eapply same_origin_trans | lia].
Qed.

Lemma tasks_persist_witness :
  ∃ task', tasks Scenario.done !! "t1" = Some task'
           ∧ Task.title task' = "Implement auth"
           ∧ 1 ≤ Task.version task'.
Proof.
  destruct (tasks_persist
              [ Assign "t1" "user_123" 1 101 "e2";
                Transition "t1" IN_PROGRESS 2 102 "e3";
                Transition "t1" DONE 3 103 "e4" ] Scenario.created "t1"
              (TaskRepository.new_row (Scenario.request "t1" "Implement auth" HIGH) 100))
    as (task' & Hlook & (_ & _ & Htitle & _) & Hv).
  - vm_compute. reflexivity.
  - exists task'. split; [exact Hlook|]. split; [by rewrite <- Htitle | exact Hv].
Defined.

(** ** A handler with no other handler in between *)

Section Alone.

Import TaskController.

Lemma findById_Some (taskId tenantId : string) (db : Store) (task : Task.t) :
  findById taskId tenantId db = Some task
  ↔ tasks db !! taskId = Some task ∧ Task.tenantId task = tenantId.
Proof.
  unfold findById. destruct (tasks db !! taskId) as [row|]; [|split; [done | by intros [? _]]].
  case_bool_decide as Ht; split.
  - by intros [= ->].
  - by intros [[= ->] _].
  - done.
  - intros [[= ->] ?]. done.
Qed.

Lemma validate_edge c t role a u :
  TaskDomain.validateTransition c t role a u = true → StateMachineSpec.edge c t.
Proof.
  unfold TaskDomain.validateTransition. intros H. apply includes_allowed.
  by destruct (TaskDomain.includes (TaskDomain.allowed c) t).
Qed.

Lemma validate_owner c t role a u :
  TaskDomain.validateTransition c t role a u = true → t = CANCELLED ∨ a = Some u.
Proof.
  unfold TaskDomain.validateTransition.
  destruct (negb (TaskDomain.includes (TaskDomain.allowed c) t)); [done|].
  destruct (bool_decide (role = "manager")).
  - intros H. left. by apply bool_decide_eq_true_1 in H.
  - destruct (bool_decide (role = "agent")); [|done].
    destruct (decide (a = Some u)) as [-> | Hne]; [by right|].
    by rewrite bool_decide_eq_true_2.
Qed.

Lemma validate_terminal c t role a u :
  StateMachineSpec.terminal c → TaskDomain.validateTransition c t role a u = false.
Proof.
  intros Hc. destruct (TaskDomain.validateTransition c t role a u) eqn:E; [|done].
  apply validate_edge in E. by apply edge_from_terminal in E.
Qed.

(** The handler of [transition], run alone, as one expression. *)
Lemma alone_transition role tn u ws id v to now uuid db :
  alone (TransitionRequest role tn u ws id v to) now uuid db
  = if bool_decide (to = NEW) then (Replied (mkReply 400 Issues), db)
    else match findById id tn db with
         | None => (Replied (mkReply 404 (ErrorText "Task not found")), db)
         | Some task =>
             if bool_decide (Task.workspaceId task ≠ ws)
             then (Replied (mkReply 404 (ErrorText "Task not found in this workspace")),
                   db)
             else if negb (TaskDomain.validateTransition (Task.state task) to role
                             (Task.assigneeId task) u)
             then (Replied (mkReply 409 (ErrorText "Invalid transition or unauthorized")),
                   db)
             else (Replied (transition_reply
                              (TaskRepository.transition id to v now uuid db).1),
                   (TaskRepository.transition id to v now uuid db).2)
         end.
Proof.
  unfold alone. cbn [step read].
  destruct (bool_decide (to = NEW)); [done|]. cbn [step]. unfold finish.
  destruct (findById id tn db) as [task|]; [|done].
  destruct (bool_decide (Task.workspaceId task ≠ ws)); [done|].
  destruct (negb _); [done|].
  by destruct (TaskRepository.transition id to v now uuid db).
Qed.

(** The handler of [assign], run alone, as one expression. *)
Lemma alone_assign role tn ws id v a now uuid db :
  alone (AssignRequest role tn ws id v a) now uuid db
  = if bool_decide (a = "") then (Replied (mkReply 400 Issues), db)
    else if bool_decide (role ≠ "manager")
    then (Replied (mkReply 403 (ErrorText "Only manager can assign tasks")), db)
    else match findById id tn db with
         | None => (Replied (mkReply 404 (ErrorText "Task not found")), db)
         | Some task =>
             if bool_decide (Task.workspaceId task ≠ ws)
             then (Replied (mkReply 404 (ErrorText "Task not found in this workspace")),
                   db)
             else (Replied (assign_reply
                              (TaskRepository.assign id a v now uuid db).1),
                   (TaskRepository.assign id a v now uuid db).2)
         end.
Proof.
  unfold alone. cbn [step read].
  destruct (bool_decide (a = "")); [done|].
  destruct (bool_decide (role ≠ "manager")); [done|]. cbn [step]. unfold finish.
  destruct (findById id tn db) as [task|]; [|done].
  destruct (bool_decide (Task.workspaceId task ≠ ws)); [done|].
  by destruct (TaskRepository.assign id a v now uuid db).
Qed.

End Alone.

Section Acceptance.

Import TaskController.

Lemma canAssign_true (state : TaskState) (role : string) :
  TaskDomain.canAssign state role = true
  ↔ role = "manager" ∧ ¬ StateMachineSpec.terminal state.
Proof.
  unfold TaskDomain.canAssign, StateMachineSpec.terminal.
  destruct (decide (role = "manager")) as [-> | Hr].
  - rewrite bool_decide_eq_false_2 by (intros ?; done).
    destruct state; vm_compute; intuition (try discriminate; try congruence).
  - rewrite bool_decide_eq_true_2 by done. split; [done | by intros [? _]].
Qed.

(** What [assign] of the repository does when the row is there. *)
Lemma assign_found db taskId a v now uuid task :
  tasks db !! taskId = Some task →
  (∃ r db', TaskRepository.assign taskId a v now uuid db = (Ok r, db')
            ∧ Task.version task = v ∧ ¬ StateMachineSpec.terminal (Task.state task)
            ∧ (uuid ∉ event_ids db))
  ∨ (TaskRepository.assign taskId a v now uuid db = (Throw VersionMismatch, db)
     ∧ Task.version task ≠ v)
  ∨ (TaskRepository.assign taskId a v now uuid db = (Throw InvalidState, db)
     ∧ StateMachineSpec.terminal (Task.state task))
  ∨ (TaskRepository.assign taskId a v now uuid db = (Throw (SqliteConstraint "task_events.id"), db)
     ∧ uuid ∈ event_ids db).
Proof.
  intros Hlook.
  destruct (decide (Task.version task = v)) as [Hv | Hv].
  2: { right. left. split; [|done]. by apply (assign_version_mismatch _ _ _ _ _ _ task). }
  destruct (decide (StateMachineSpec.terminal (Task.state task))) as [Ht | Ht].
  { right. right. left. split; [|done]. by apply (assign_invalid_state _ _ _ _ _ _ task). }
  destruct (decide (uuid ∈ event_ids db)) as [Hu | Hu].
  { do 3 right. split; [|done]. by apply (assign_duplicate_event _ _ _ _ _ _ task). }
  left. eexists _, _. split; [by apply (assign_ok _ _ _ _ _ _ task) | done].
Qed.

(** What [transition] of the repository does when the row is there. *)
Lemma transition_found db taskId to v now uuid task :
  tasks db !! taskId = Some task →
  (∃ r db', TaskRepository.transition taskId to v now uuid db = (Ok r, db')
            ∧ Task.version task = v ∧ (uuid ∉ event_ids db))
  ∨ (TaskRepository.transition taskId to v now uuid db = (Throw VersionMismatch, db)
     ∧ Task.version task ≠ v)
  ∨ (TaskRepository.transition taskId to v now uuid db = (Throw (SqliteConstraint "task_events.id"), db)
     ∧ uuid ∈ event_ids db).
Proof.
  intros Hlook.
  destruct (decide (Task.version task = v)) as [Hv | Hv].
  2: { right. left. split; [|done].
       by apply (transition_version_mismatch _ _ _ _ _ _ task). }
  destruct (decide (uuid ∈ event_ids db)) as [Hu | Hu].
  { do 2 right. split; [|done].
    by apply (transition_duplicate_event _ _ _ _ _ _ task). }
  left. eexists _, _. split; [by apply (transition_ok _ _ _ _ _ _ task) | done].
Qed.

End Acceptance.

(** X4. The handler of [transition], run alone on a request with a
    non-empty tenant header, answers 200 exactly when the task is stored under the tenant and workspace of the request, the
    state machine allows the change for the role and user of the request,
    the version header equals the stored version, and the event identifier
    drawn is unused. *)
Theorem transition_handler_accepts_iff
    (role tenantId userId workspaceId taskId : string) (v : Z) (to : TaskState)
    (now : Z) (uuid : string) (db : Store) :
  tenantId ≠ "" →
  (∃ r, (TaskController.alone
           (TaskController.TransitionRequest role tenantId userId workspaceId
                                             taskId v to) now uuid db).1
        = TaskController.Replied (TaskController.mkReply 200 (TaskController.Json r)))
  ↔ ∃ task,
      tasks db !! taskId = Some task
      ∧ Task.tenantId task = tenantId
      ∧ Task.workspaceId task = workspaceId
      ∧ TaskDomain.validateTransition (Task.state task) to role
          (Task.assigneeId task) userId = true
      ∧ Task.version task = v
      ∧ (uuid ∉ event_ids db).
Proof.
  intros _. rewrite alone_transition. split.
  - intros [r Hr]. case_bool_decide as Hnew; [discriminate|].
    destruct (TaskController.findById taskId tenantId db) as [task|] eqn:Hfind;
      [|discriminate].
    apply findById_Some in Hfind as [Hlook Ht].
    destruct (decide (Task.workspaceId task = workspaceId)) as [Hw | Hw].
    2: { rewrite bool_decide_eq_true_2 in Hr by done. discriminate. }
    rewrite bool_decide_eq_false_2 in Hr by (intros ?; done).
    destruct (TaskDomain.validateTransition _ _ _ _ _) eqn:Hval; [|discriminate].
    simpl in Hr. exists task.
    destruct (transition_found db taskId to v now uuid task Hlook)
      as [(r' & db' & Hok & Hv & Hu) | [[Hno _] | [Hno _]]];
      rewrite ?Hno in Hr; try discriminate.
    done.
  - intros (task & Hlook & Ht & Hw & Hval & Hv & Hu).
    assert (Hnew : to ≠ NEW).
    { intros ->. apply validate_edge in Hval.
      destruct Hval as [[_ ?] | [[_ ?] | [[_ ?] | [_ ?]]]]; discriminate. }
    rewrite bool_decide_eq_false_2 by done.
    rewrite (proj2 (findById_Some taskId tenantId db task)) by done.
    rewrite bool_decide_eq_false_2 by (intros ?; done).
    rewrite Hval. simpl.
    rewrite (transition_ok _ _ _ _ _ _ task) by done. simpl. by eexists.
Qed.

Lemma transition_handler_accepts_witness :
  ∃ r, (TaskController.alone
          (TaskController.TransitionRequest
             "manager" "tenant_1" "user_9" "ws_1" "t1" 1 CANCELLED)
          101 "e2" Scenario.created).1
       = TaskController.Replied (TaskController.mkReply 200 (TaskController.Json r)).
Proof.
  apply (transition_handler_accepts_iff "manager" "tenant_1" "user_9" "ws_1" "t1" 1
           CANCELLED 101 "e2" Scenario.created); [discriminate|].
  exists (TaskRepository.new_row (Scenario.request "t1" "Implement auth" HIGH) 100).
  repeat split; try reflexivity.
  vm_compute. intros H. inversion H as [| ? ? ? H']. inversion H'.
Defined.

(** X5. The handler of [assign], run alone on a request with a non-empty
    tenant header, answers 200 exactly when the body names a non-empty
    assignee, the task is stored under the tenant
    and workspace of the request, [canAssign] holds of the stored state
    and the role header, the version header equals the stored version, and
    the event identifier drawn is unused.  The handler never calls
    [canAssign]: its role test and the state guard of the repository add
    up to it. *)
Theorem assign_handler_accepts_iff
    (role tenantId workspaceId taskId : string) (v : Z) (assignee : string)
    (now : Z) (uuid : string) (db : Store) :
  tenantId ≠ "" →
  (∃ r, (TaskController.alone
           (TaskController.AssignRequest role tenantId workspaceId taskId v assignee)
           now uuid db).1
        = TaskController.Replied (TaskController.mkReply 200 (TaskController.Json r)))
  ↔ assignee ≠ ""
    ∧ ∃ task,
        tasks db !! taskId = Some task
        ∧ Task.tenantId task = tenantId
        ∧ Task.workspaceId task = workspaceId
        ∧ TaskDomain.canAssign (Task.state task) role = true
        ∧ Task.version task = v
        ∧ (uuid ∉ event_ids db).
Proof.
  intros _. rewrite alone_assign. split.
  - intros [r Hr]. case_bool_decide as Ha; [discriminate|].
    destruct (decide (role = "manager")) as [Hrole | Hrole].
    2: { rewrite bool_decide_eq_true_2 in Hr by done. discriminate. }
    rewrite bool_decide_eq_false_2 in Hr by (intros ?; done).
    destruct (TaskController.findById taskId tenantId db) as [task|] eqn:Hfind;
      [|discriminate].
    apply findById_Some in Hfind as [Hlook Ht].
    destruct (decide (Task.workspaceId task = workspaceId)) as [Hw | Hw].
    2: { rewrite bool_decide_eq_true_2 in Hr by done. discriminate. }
    rewrite bool_decide_eq_false_2 in Hr by (intros ?; done).
    split; [done|]. exists task.
    destruct (assign_found db taskId assignee v now uuid task Hlook)
      as [(r' & db' & Hok & Hv & Hterm & Hu) | [[Hno _] | [[Hno _] | [Hno _]]]];
      rewrite ?Hno in Hr; try discriminate.
    repeat split; try done. by apply canAssign_true.
  - intros (Ha & task & Hlook & Ht & Hw & Hcan & Hv & Hu).
    apply canAssign_true in Hcan as [-> Hterm].
    rewrite bool_decide_eq_false_2 by done.
    rewrite bool_decide_eq_false_2 by (intros ?; done).
    rewrite (proj2 (findById_Some taskId tenantId db task)) by done.
    rewrite bool_decide_eq_false_2 by (intros ?; done).
    rewrite (assign_ok _ _ _ _ _ _ task) by done. simpl. by eexists.
Qed.

Lemma assign_handler_accepts_witness :
  ∃ r, (TaskController.alone
          (TaskController.AssignRequest "manager" "tenant_1" "ws_1" "t1" 1 "user_123")
          101 "e2" Scenario.created).1
       = TaskController.Replied (TaskController.mkReply 200 (TaskController.Json r)).
Proof.
  apply (assign_handler_accepts_iff "manager" "tenant_1" "ws_1" "t1" 1 "user_123"
           101 "e2" Scenario.created); [discriminate|].
  split; [discriminate|].
  exists (TaskRepository.new_row (Scenario.request "t1" "Implement auth" HIGH) 100).
  repeat split; try reflexivity.
  vm_compute. intros H. inversion H as [| ? ? ? H']. inversion H'.
Defined.

(** X6. A handler of [assign] or [transition], run alone on a request
    with a non-empty tenant header, always answers, with one of the statuses 200, 400, 403, 404, 409 and 500; with any
    status but 200 it leaves the store as it was; and it answers 500 only
    when the event identifier drawn is already in the outbox. *)
Theorem handler_refusal_writes_nothing
    (req : TaskController.Request) (now : Z) (uuid : string) (db : Store) :
  request_tenant req ≠ "" →
  ∃ reply,
    (TaskController.alone req now uuid db).1 = TaskController.Replied reply
    ∧ TaskController.status reply ∈ [200; 400; 403; 404; 409; 500]
    ∧ (TaskController.status reply ≠ 200 →
       (TaskController.alone req now uuid db).2 = db)
    ∧ (TaskController.status reply = 500 → uuid ∈ event_ids db).
Proof.
  intros _.
  assert (Hrefuse : ∀ (s : Z) (b : TaskController.Body),
    s ∈ [400; 403; 404; 409] →
    ∃ reply,
      (TaskController.Replied (TaskController.mkReply s b), db).1
      = TaskController.Replied reply
      ∧ TaskController.status reply ∈ [200; 400; 403; 404; 409; 500]
      ∧ (TaskController.status reply ≠ 200 →
         (TaskController.Replied (TaskController.mkReply s b), db).2 = db)
      ∧ (TaskController.status reply = 500 → uuid ∈ event_ids db)).
  { intros s b Hs. apply list_elem_of_In in Hs. simpl in Hs.
    eexists. split; [reflexivity|]. simpl.
    split; [apply list_elem_of_In; simpl; tauto|]. split; [done|].
    intros ->. intuition discriminate. }
  destruct req as [role tn ws id v a | role tn u ws id v to].
  - rewrite alone_assign.
    case_bool_decide; [apply Hrefuse; apply list_elem_of_In; simpl; tauto|].
    case_bool_decide; [apply Hrefuse; apply list_elem_of_In; simpl; tauto|].
    destruct (TaskController.findById id tn db) as [task|] eqn:Hfind;
      [|apply Hrefuse; apply list_elem_of_In; simpl; tauto].
    case_bool_decide; [apply Hrefuse; apply list_elem_of_In; simpl; tauto|].
    apply findById_Some in Hfind as [Hlook _].
    destruct (assign_found db id a v now uuid task Hlook)
      as [(r & db' & Hok & _) | [[Hno _] | [[Hno _] | [Hno Hu]]]].
    + rewrite Hok. eexists. split; [reflexivity|]. simpl.
      split; [apply list_elem_of_In; simpl; tauto|]. split; [done|]. intros [=].
    + rewrite Hno. simpl. apply Hrefuse. apply list_elem_of_In. simpl. tauto.
    + rewrite Hno. simpl. apply Hrefuse. apply list_elem_of_In. simpl. tauto.
    + rewrite Hno. eexists. split; [reflexivity|]. simpl.
      split; [apply list_elem_of_In; simpl; tauto|]. done.
  - rewrite alone_transition.
    case_bool_decide; [apply Hrefuse; apply list_elem_of_In; simpl; tauto|].
    destruct (TaskController.findById id tn db) as [task|] eqn:Hfind;
      [|apply Hrefuse; apply list_elem_of_In; simpl; tauto].
    case_bool_decide; [apply Hrefuse; apply list_elem_of_In; simpl; tauto|].
    destruct (negb _); [apply Hrefuse; apply list_elem_of_In; simpl; tauto|].
    apply findById_Some in Hfind as [Hlook _].
    destruct (transition_found db id to v now uuid task Hlook)
      as [(r & db' & Hok & _) | [[Hno _] | [Hno Hu]]].
    + rewrite Hok. eexists. split; [reflexivity|]. simpl.
      split; [apply list_elem_of_In; simpl; tauto|]. split; [done|]. intros [=].
    + rewrite Hno. simpl. apply Hrefuse. apply list_elem_of_In. simpl. tauto.
    + rewrite Hno. eexists. split; [reflexivity|]. simpl.
      split; [apply list_elem_of_In; simpl; tauto|]. done.
Qed.

Lemma handler_refusal_witness :
  (TaskController.alone
     (TaskController.TransitionRequest "manager" "tenant_1" "user_9" "ws_1" "t1" 1 DONE)
     101 "e2" Scenario.created).2
  = Scenario.created.
Proof.
  destruct (handler_refusal_writes_nothing
              (TaskController.TransitionRequest
                 "manager" "tenant_1" "user_9" "ws_1" "t1" 1 DONE)
              101 "e2" Scenario.created)
    as (reply & Hreply & _ & Hkeep & _); [discriminate|].
  apply Hkeep. vm_compute in Hreply. injection Hreply as <-. simpl. lia.
Defined.


(** ** Requests served one after the other *)

Section Served.

Import TaskController Outcome.

Lemma parse_title_Some (f : Field) (title : string) :
  TaskEndpoints.parse_title f = Some title →
  f = Text title ∧ (1 ≤ String.length title ≤ 120)%nat.
Proof.
  unfold TaskEndpoints.parse_title. destruct f as [| s |]; try done.
  case_bool_decide; [|done]. by intros [= ->].
Qed.

(** What serving one request does to the store: nothing, or the writes of
    one accepted [create], [assign] or [transition]. *)
Lemma serve_cases (r : HttpRequest) (db : Store) :
  serve r db = db
  ∨ (∃ new key now uuid,
       serve r db = created_store db new key now uuid
       ∧ tasks db !! NewTask.id new = None
       ∧ NewTask.state new = NEW ∧ NewTask.assigneeId new = None
       ∧ (1 ≤ String.length (NewTask.title new) ≤ 120)%nat
       ∧ NewTask.tenantId new ≠ "")
  ∨ (∃ role tn ws id v a now uuid task,
       r = PostChange (AssignRequest role tn ws id v a) now uuid
       ∧ tasks db !! id = Some task ∧ Task.tenantId task = tn
       ∧ Task.version task = v
       ∧ ¬ StateMachineSpec.terminal (Task.state task) ∧ a ≠ ""
       ∧ serve r db
         = mkStore (<[id := TaskRepository.set_assignee a (v + 1) now task]> (tasks db))
                   (taskEvents db ++ [assigned_event id a now uuid])
                   (idempotencyKeys db))
  ∨ (∃ role tn u ws id v to now uuid task,
       r = PostChange (TransitionRequest role tn u ws id v to) now uuid
       ∧ tasks db !! id = Some task ∧ Task.tenantId task = tn
       ∧ Task.version task = v
       ∧ TaskDomain.validateTransition (Task.state task) to role
           (Task.assigneeId task) u = true
       ∧ serve r db
         = mkStore (<[id := TaskRepository.set_state to (v + 1) now task]> (tasks db))
                   (taskEvents db ++ [changed_event id (Task.state task) to now uuid])
                   (idempotencyKeys db)).
Proof.
  destruct r as [tenant key ws title priority id uuid now | req now uuid].
  - unfold serve, TaskEndpoints.create.
    destruct (Js.present tenant) as [tn|] eqn:Htn; [|by left].
    apply present_inv in Htn as [_ Htn].
    destruct (TaskEndpoints.parse_title title) as [t|] eqn:Htitle; [|by left].
    apply parse_title_Some in Htitle as [_ Hlen].
    destruct (TaskEndpoints.parse_priority priority) as [p|]; [|by left].
    match goal with |- context [TaskRepository.create ?n key now uuid db] =>
      set (new := n) end.
    destruct (TaskRepository.create new key now uuid db) as [[r | e] db'] eqn:Hrun.
    + apply create_inv in Hrun
        as [(? & ? & _ & _ & _ & ->) | (_ & Hid & _ & _ & ->)]; [by left|].
      right. left. by exists new, key, now, uuid.
    + left. simpl. by apply (exec_throw (Create new key now uuid) db db' e).
  - destruct req as [role tn ws id v a | role tn u ws id v to]; unfold serve;
      (case_bool_decide as Htenant; [by left|]).
    + rewrite alone_assign.
      case_bool_decide as Ha; [by left|].
      case_bool_decide as Hrole; [by left|].
      destruct (findById id tn db) as [task|] eqn:Hfind; [|by left].
      case_bool_decide as Hws; [by left|].
      apply findById_Some in Hfind as [Hlook Ht].
      destruct (assign_found db id a v now uuid task Hlook)
        as [(r & db' & Hok & Hv & Hterm & Hu) | [[Hno _] | [[Hno _] | [Hno _]]]];
        [| rewrite Hno; by left ..].
      rewrite (assign_ok _ _ _ _ _ _ task) by done.
      right. right. left. by exists role, tn, ws, id, v, a, now, uuid, task.
    + rewrite alone_transition.
      case_bool_decide as Hnew; [by left|].
      destruct (findById id tn db) as [task|] eqn:Hfind; [|by left].
      case_bool_decide as Hws; [by left|].
      destruct (TaskDomain.validateTransition _ _ _ _ _) eqn:Hval; [|by left].
      apply findById_Some in Hfind as [Hlook Ht]. simpl.
      destruct (transition_found db id to v now uuid task Hlook)
        as [(r & db' & Hok & Hv & Hu) | [[Hno _] | [Hno _]]];
        [| rewrite Hno; by left ..].
      rewrite (transition_ok _ _ _ _ _ _ task) by done.
      do 3 right. by exists role, tn, u, ws, id, v, to, now, uuid, task.
Qed.

(** A property of stores that serving one request keeps is kept by
    serving any number of them. *)
Lemma serve_all_keeps (P : Store → Prop) :
  (∀ r db, P db → P (serve r db)) →
  ∀ requests db, P db → P (serve_all requests db).
Proof.
  intros Hstep requests. induction requests as [| r rest IH]; intros db Hdb;
    [done|].
  apply IH, Hstep, Hdb.
Qed.

End Served.

(** X7. When requests are served one after the other, a task that is
    [DONE] or [CANCELLED] is never written again: whatever creates, assigns
    and transitions follow, its row stays exactly as it is. *)
Theorem finished_task_is_frozen
    (requests : list HttpRequest) (db : Store) (taskId : string) (task : Task.t) :
  tasks db !! taskId = Some task →
  StateMachineSpec.terminal (Task.state task) →
  tasks (serve_all requests db) !! taskId = Some task.
Proof.
  intros Hlook Hterm.
  apply (serve_all_keeps (λ db, tasks db !! taskId = Some task)); [|done].
  clear db Hlook. intros r db Hlook.
  destruct (serve_cases r db)
    as [-> | [(new & key & now & uuid & -> & Hid & _)
       | [(role & tn & ws & id & v & a & now & uuid & task0 & _ & Hlook0 & _ & _
           & Hlive & _ & ->)
         | (role & tn & u & ws & id & v & to & now & uuid & task0 & _ & Hlook0 & _
            & _ & Hval & ->)]]]; [done | ..]; simpl.
  - rewrite lookup_insert_ne; [done|]. intros Heq. rewrite Heq, Hlook in Hid.
    discriminate.
  - rewrite lookup_insert_ne; [done|]. intros ->. rewrite Hlook in Hlook0.
    injection Hlook0 as <-. done.
  - rewrite lookup_insert_ne; [done|]. intros ->. rewrite Hlook in Hlook0.
    injection Hlook0 as <-.
    by rewrite validate_terminal in Hval.
Qed.

Lemma finished_task_is_frozen_witness :
  Task.state <$> tasks
    (serve_all [ PostChange Scenario.cancel_next 104 "e5";
                 PostChange (TaskController.AssignRequest
                               "manager" "tenant_1" "ws_1" "t1" 4 "user_456")
                            105 "e6" ] Scenario.done) !! "t1"
  = Some DONE.
Proof.
  assert (Hrow : ∃ task, tasks Scenario.done !! "t1" = Some task
                         ∧ Task.state task = DONE).
  { eexists. split; vm_compute; reflexivity. }
  destruct Hrow as (task & Hlook & Hstate).
  rewrite (finished_task_is_frozen _ Scenario.done "t1" task Hlook).
  - simpl. by rewrite Hstate.
  - left. exact Hstate.
Defined.

Section ServedInvariants.

Import TaskController Outcome.

Lemma serve_edges_only (r : HttpRequest) (db : Store) :
  edges_only db → edges_only (serve r db).
Proof.
  intros Hinv.
  assert (Hadd : ∀ t ev i,
    (∀ from to, Event.payload ev = FromTo from to → StateMachineSpec.edge from to) →
    edges_only (mkStore t (taskEvents db ++ [ev]) i)).
  { intros t ev i Hev e from to Hin Hp. simpl in Hin.
    apply elem_of_app in Hin as [Hin | Hin]; [by eapply Hinv|].
    apply list_elem_of_singleton in Hin as ->. by apply Hev. }
  destruct (serve_cases r db)
    as [-> | [(new & key & now & uuid & -> & _)
       | [(role & tn & ws & id & v & a & now & uuid & task0 & _ & _ & _ & _
           & _ & _ & ->)
         | (role & tn & u & ws & id & v & to & now & uuid & task0 & _ & _ & _
            & _ & Hval & ->)]]]; [done | ..].
  - apply Hadd. intros f t [=].
  - apply Hadd. intros f t [=].
  - apply Hadd. intros f t [= <- <-]. by eapply validate_edge.
Qed.

Lemma serve_owned (r : HttpRequest) (db : Store) : owned db → owned (serve r db).
Proof.
  intros Hinv.
  assert (Hset : ∀ id row ev i,
    (Task.state row = IN_PROGRESS ∨ Task.state row = DONE →
     is_Some (Task.assigneeId row)) →
    owned (mkStore (<[id := row]> (tasks db)) ev i)).
  { intros id row ev i Hrow other task Hlook Hstate. simpl in Hlook.
    destruct (decide (id = other)) as [<- | Hne].
    - rewrite lookup_insert_eq in Hlook. injection Hlook as <-. by apply Hrow.
    - rewrite lookup_insert_ne in Hlook by done. by eapply Hinv. }
  destruct (serve_cases r db)
    as [-> | [(new & key & now & uuid & -> & _ & Hnew & _)
       | [(role & tn & ws & id & v & a & now & uuid & task0 & _ & _ & _ & _
           & _ & _ & ->)
         | (role & tn & u & ws & id & v & to & now & uuid & task0 & _ & Hlook0 & _
            & _ & Hval & ->)]]]; [done | ..].
  - apply Hset. simpl. rewrite Hnew. intros [? | ?]; discriminate.
  - apply Hset. simpl. by eexists.
  - apply Hset. simpl. intros Hto.
    apply validate_owner in Hval as [-> | ->]; [|by eexists].
    destruct Hto; discriminate.
Qed.

Lemma serve_well_formed (r : HttpRequest) (db : Store) :
  well_formed db → well_formed (serve r db).
Proof.
  intros Hinv.
  assert (Hset : ∀ id row ev i,
    ((1 ≤ String.length (Task.title row) ≤ 120)%nat
     ∧ Task.tenantId row ≠ ""
     ∧ Task.assigneeId row ≠ Some ""
     ∧ 1 ≤ Task.version row) →
    well_formed (mkStore (<[id := row]> (tasks db)) ev i)).
  { intros id row ev i Hrow other task Hlook. simpl in Hlook.
    destruct (decide (id = other)) as [<- | Hne].
    - rewrite lookup_insert_eq in Hlook. by injection Hlook as <-.
    - rewrite lookup_insert_ne in Hlook by done. by eapply Hinv. }
  destruct (serve_cases r db)
    as [-> | [(new & key & now & uuid & -> & _ & _ & Hnone & Hlen & Htn)
       | [(role & tn & ws & id & v & a & now & uuid & task0 & _ & Hlook0 & _ & Hv
           & _ & Ha & ->)
         | (role & tn & u & ws & id & v & to & now & uuid & task0 & _ & Hlook0 & _
            & Hv & _ & ->)]]]; [done | ..].
  - apply Hset. simpl. rewrite Hnone. repeat split; try done; lia.
  - destruct (Hinv id task0 Hlook0) as (Hl & Ht & _ & Hver).
    apply Hset. simpl. repeat split; try done; try lia. by intros [= ->].
  - destruct (Hinv id task0 Hlook0) as (Hl & Ht & Has & Hver).
    apply Hset. simpl. repeat split; try done; lia.
Qed.

End ServedInvariants.

(** X8. When requests are served one after the other from the empty
    store, every [TaskStateChanged] event in the outbox records an edge of
    the transition table: no change out of [DONE] or [CANCELLED], and none
    from [NEW] to [DONE], is ever on record. *)
Theorem outbox_records_edges_only (requests : list HttpRequest) :
  edges_only (serve_all requests Scenario.empty).
Proof.
  apply (serve_all_keeps edges_only); [apply serve_edges_only|].
  intros e from to Hin. by apply elem_of_nil in Hin.
Qed.

(** X9. When requests are served one after the other from the empty
    store, every task that is [IN_PROGRESS] or [DONE] has an assignee: only
    the assigned agent can start or complete a task, and no handler clears
    an assignee. *)
Theorem started_task_has_assignee (requests : list HttpRequest) :
  owned (serve_all requests Scenario.empty).
Proof.
  apply (serve_all_keeps owned); [apply serve_owned|].
  intros taskId task Hlook. simpl in Hlook. by rewrite lookup_empty in Hlook.
Qed.

(** X10. When requests are served one after the other from the empty
    store, every stored task has a title of 1 to 120 characters, a
    non-empty tenant, an assignee that is absent or non-empty, and a
    version of at least 1. *)
Theorem stored_rows_are_well_formed (requests : list HttpRequest) :
  well_formed (serve_all requests Scenario.empty).
Proof.
  apply (serve_all_keeps well_formed); [apply serve_well_formed|].
  intros taskId task Hlook. simpl in Hlook. by rewrite lookup_empty in Hlook.
Qed.

(** X11. Serving a request leaves every task of another tenant exactly as
    it is: a request made under one tenant, or under none, cannot write a
    row that belongs to a different tenant. *)
Theorem other_tenants_untouched
    (r : HttpRequest) (db : Store) (taskId : string) (task : Task.t) :
  tasks db !! taskId = Some task →
  tenant_of r ≠ Some (Task.tenantId task) →
  tasks (serve r db) !! taskId = Some task.
Proof.
  intros Hlook Hother.
  destruct (serve_cases r db)
    as [-> | [(new & key & now & uuid & -> & Hid & _)
       | [(role & tn & ws & id & v & a & now & uuid & task0 & -> & Hlook0 & Ht & _
           & _ & _ & ->)
         | (role & tn & u & ws & id & v & to & now & uuid & task0 & -> & Hlook0 & Ht
            & _ & _ & ->)]]]; [done | ..]; simpl.
  - rewrite lookup_insert_ne; [done|]. intros Heq. rewrite Heq, Hlook in Hid.
    discriminate.
  - rewrite lookup_insert_ne; [done|]. intros ->. rewrite Hlook in Hlook0.
    injection Hlook0 as <-. simpl in Hother. by rewrite Ht in Hother.
  - rewrite lookup_insert_ne; [done|]. intros ->. rewrite Hlook in Hlook0.
    injection Hlook0 as <-. simpl in Hother. by rewrite Ht in Hother.
Qed.

Lemma other_tenants_untouched_witness :
  tasks (serve (PostChange (TaskController.AssignRequest
                              "manager" "tenant_2" "ws_1" "t1" 1 "user_456")
                           101 "e2") Scenario.created) !! "t1"
  = tasks Scenario.created !! "t1".
Proof.
  assert (Hrow : ∃ task, tasks Scenario.created !! "t1" = Some task
                         ∧ Task.tenantId task = "tenant_1").
  { eexists. split; vm_compute; reflexivity. }
  destruct Hrow as (task & Hlook & Ht).
  rewrite Hlook.
  apply (other_tenants_untouched _ Scenario.created "t1" task Hlook).
  simpl. rewrite Ht. discriminate.
Defined.


(** ** Reading *)

Global Instance event_desc_tie_total tie : Total (event_desc_tie tie).
Proof. intros a b. unfold event_desc_tie. lia. Qed.

Global Instance event_desc_tie_trans tie : Transitive (event_desc_tie tie).
Proof. intros a b c. unfold event_desc_tie. lia. Qed.

Lemma event_desc_tie_desc tie a b : event_desc_tie tie a b → event_desc a b.
Proof. unfold event_desc_tie, event_desc. lia. Qed.

Section Pages.

Context {A : Type} (R : relation A) `{∀ x y, Decision (R x y)}
        `{!Total R, !Transitive R}.

(** A page of a sorted query: sorted, taken from the rows, as long as the
    limit allows, and leaving out only rows that come after all of it. *)
Lemma page_spec (n : Z) (rows : list A) :
  let page := Sqlite.first_rows n (merge_sort R rows) in
  StronglySorted R page
  ∧ (∀ x, x ∈ page → x ∈ rows)
  ∧ (n < 0 → page ≡ₚ rows)
  ∧ (0 ≤ n → length page = Nat.min (Z.to_nat n) (length rows))
  ∧ (∀ x, x ∈ rows → x ∈ page
          ∨ (Z.of_nat (length page) = n ∧ ∀ y, y ∈ page → R y x)).
Proof.
  simpl.
  pose proof (StronglySorted_merge_sort R rows) as Hsorted.
  pose proof (merge_sort_Permutation R rows) as Hperm.
  split; [by apply first_rows_sorted|]. split; [|split; [|split]].
  - intros x Hx. apply first_rows_subseteq in Hx. by rewrite Hperm in Hx.
  - intros Hn. unfold Sqlite.first_rows. by rewrite bool_decide_eq_true_2.
  - intros Hn. unfold Sqlite.first_rows. rewrite bool_decide_eq_false_2 by lia.
    by rewrite length_take, Hperm.
  - intros x Hx. rewrite <- Hperm in Hx.
    destruct (first_rows_split n (merge_sort R rows)) as (rest & Hsplit & Hfull).
    rewrite Hsplit in Hx. apply elem_of_app in Hx as [Hx | Hx]; [by left|].
    right. split.
    + apply Hfull. intros ->. by apply elem_of_nil in Hx.
    + intros y Hy. rewrite Hsplit in Hsorted.
      by apply (StronglySorted_app_1_elem_of _ _ _ y x) in Hsorted.
Qed.

(** In a sorted list every element is related to the last one, or is
    it. *)
Lemma sorted_last (l : list A) (x y : A) :
  StronglySorted R l → last l = Some x → y ∈ l → R y x ∨ y = x.
Proof.
  intros Hs Hlast Hy. apply last_Some in Hlast as [l' ->].
  apply elem_of_app in Hy as [Hy | Hy].
  - left. apply (StronglySorted_app_1_elem_of _ _ _ y x) in Hs; [done | done |].
    apply list_elem_of_here.
  - right. by apply list_elem_of_singleton in Hy.
Qed.

End Pages.

(** X12. [findById] answers with a task only when it is stored under that
    identifier for that tenant, and otherwise with nothing.  The timeline
    it attaches holds events of the outbox that refer to the task, most
    recent first, 20 at most; an event of the task is left out only when
    the timeline is full of events at least as recent.  This holds
    whatever the order SQLite gives to events of equal creation time. *)
Theorem findById_scoped
    (taskId tenantId : string) (tie : string → Z) (db db' : Store) :
  match TaskQueries.findById taskId tenantId tie db db' with
  | Some (task, timeline) =>
      tasks db !! taskId = Some task
      ∧ Task.tenantId task = tenantId
      ∧ StronglySorted event_desc timeline
      ∧ (length timeline ≤ 20)%nat
      ∧ (∀ e, e ∈ timeline → e ∈ taskEvents db' ∧ Event.taskId e = taskId)
      ∧ (∀ e, e ∈ taskEvents db' → Event.taskId e = taskId →
              e ∈ timeline
              ∨ (length timeline = 20%nat
                 ∧ ∀ x, x ∈ timeline → Event.createdAt e ≤ Event.createdAt x))
  | None =>
      ∀ task, tasks db !! taskId = Some task → Task.tenantId task ≠ tenantId
  end.
Proof.
  unfold TaskQueries.findById.
  destruct (tasks db !! taskId) as [task|]; [|done].
  case_bool_decide as Ht; [|by intros ? [= <-]].
  unfold TaskQueries.timeline.
  destruct (page_spec (event_desc_tie tie) 20
              (filter (λ e, Event.taskId e = taskId) (taskEvents db')))
    as (Hsorted & Hin & _ & Hlen & Hfull).
  split; [done|]. split; [done|]. split.
  { apply (StronglySorted_weaken (event_desc_tie tie));
      [apply event_desc_tie_desc | done]. }
  split; [rewrite Hlen by lia; lia|]. split.
  - intros e He. by apply Hin, list_elem_of_filter in He as [? ?].
  - intros e He Hid.
    destruct (Hfull e) as [? | [Hl Hall]]; [by apply list_elem_of_filter | by left |].
    right. split; [lia|]. intros x Hx.
    by apply (event_desc_tie_desc tie), Hall.
Qed.


(** X13. The handler of [get] refuses a request without tenant header with
    400.  It answers 200 exactly when the task is stored under the tenant
    and the workspace of the request, and then with the stored columns
    under their public names and the timeline [findById] read.  In every
    other case with a tenant header the answer is one and the same 404:
    a task of another tenant or of another workspace is answered like a
    task that does not exist. *)
Theorem get_handler_scoped
    (tenantId : option string) (workspaceId taskId : string)
    (tie : string → Z) (db db' : Store) :
  let reply := TaskEndpoints.get tenantId workspaceId taskId tie db db' in
  let stored tenant task :=
    tasks db !! taskId = Some task
    ∧ Task.tenantId task = tenant ∧ Task.workspaceId task = workspaceId in
  (Js.present tenantId = None →
   reply = TaskEndpoints.mkReadReply 400
             (TaskEndpoints.ReadError "X-Tenant-Id header required"))
  ∧ (∀ tenant task, Js.present tenantId = Some tenant → stored tenant task →
       ∃ timeline,
         TaskQueries.findById taskId tenant tie db db' = Some (task, timeline)
         ∧ reply = TaskEndpoints.mkReadReply 200
                     (TaskEndpoints.OneTask
                        (TaskEndpoints.mapTask taskId task (Some timeline))))
  ∧ (∀ tenant, Js.present tenantId = Some tenant →
       (∀ task, ¬ stored tenant task) →
       reply = TaskEndpoints.mkReadReply 404
                 (TaskEndpoints.ReadError "Task not found"))
  ∧ (TaskEndpoints.read_status reply = 200
     ↔ ∃ tenant task, Js.present tenantId = Some tenant ∧ stored tenant task).
Proof.
  simpl. unfold TaskEndpoints.get, TaskQueries.findById.
  destruct (Js.present tenantId) as [tenant|]; simpl.
  2: { split; [done|]. split; [done|]. split; [done|].
       split; [done | by intros (? & ? & ? & _)]. }
  split; [done|].
  destruct (tasks db !! taskId) as [task|].
  2: { split; [by intros ? ? _ [? _]|]. split; [done|].
       split; [done | by intros (? & ? & _ & ? & _)]. }
  destruct (decide (Task.tenantId task = tenant)) as [Ht | Ht].
  2: { rewrite bool_decide_eq_false_2 by done.
       split; [intros ? ? [= <-] ([= <-] & ? & _); done|]. split; [done|].
       split; [done|]. intros (? & ? & [= <-] & [= <-] & ? & _). done. }
  rewrite bool_decide_eq_true_2 by done.
  destruct (decide (Task.workspaceId task = workspaceId)) as [Hw | Hw].
  2: { rewrite bool_decide_eq_true_2 by done.
       split; [intros ? ? [= <-] ([= <-] & _ & ?); done|]. split; [done|].
       split; [done|]. intros (? & ? & [= <-] & [= <-] & _ & ?). done. }
  rewrite bool_decide_eq_false_2 by (intros ?; done).
  split; [|split].
  - intros ? ? [= <-] ([= <-] & _ & _).
    rewrite bool_decide_eq_true_2 by done. eexists. split; reflexivity.
  - intros ? [= <-] Hnone. by destruct (Hnone task).
  - split; [|done]. intros _. by exists tenant, task.
Qed.

(** X14. A task created through the handler of [create] can be read back
    through the handler of [get].  On a store whose outbox accounts for its
    versions, a [create] with a tenant header, a title of 1 to 120
    characters, a priority that is absent or valid, an idempotency key that
    is absent or not stored, and unused identifiers answers 201 with the
    new identifier, state [NEW] and version 1; and [get] for that tenant
    and workspace then answers with that title and priority, state [NEW],
    no assignee, version 1, both timestamps at the time of creation, and a
    timeline of the one [TaskCreated] event. *)
Theorem created_task_reads_back
    (tenantId : string) (idempotencyKey : option string) (workspaceId : string)
    (title : string) (priority : Field) (p : TaskPriority) (id uuid : string)
    (now : Z) (tie : string → Z) (db : Store) :
  tenantId ≠ "" →
  (1 ≤ String.length title ≤ 120)%nat →
  TaskEndpoints.parse_priority priority = Some p →
  Outcome.uncached db idempotencyKey →
  accounted db →
  tasks db !! id = None →
  uuid ∉ event_ids db →
  let new :=
    {| NewTask.id := id; NewTask.tenantId := tenantId;
       NewTask.workspaceId := workspaceId; NewTask.title := title;
       NewTask.priority := p; NewTask.state := NEW;
       NewTask.assigneeId := None |} in
  let out :=
    TaskEndpoints.create (Some tenantId) idempotencyKey workspaceId (Text title)
                         priority id uuid now db in
  out.1 = TaskController.mkReply 201
            (TaskController.Json
               {| Response.task_id := id; Response.state := NEW;
                  Response.version := 1 |})
  ∧ TaskEndpoints.get (Some tenantId) workspaceId id tie out.2 out.2
    = TaskEndpoints.mkReadReply 200
        (TaskEndpoints.OneTask
           {| TaskView.task_id := id;
              TaskView.tenant_id := tenantId;
              TaskView.workspace_id := workspaceId;
              TaskView.title := title;
              TaskView.priority := p;
              TaskView.state := NEW;
              TaskView.assignee_id := None;
              TaskView.version := 1;
              TaskView.created_at := now;
              TaskView.updated_at := now;
              TaskView.timeline :=
                Some [TaskEndpoints.mapEvent (Outcome.created_event new now uuid)] |}).
Proof.
  intros Htn Hlen Hp Hunc Hacc Hid Hu. simpl.
  unfold TaskEndpoints.create.
  rewrite (present_Some tenantId Htn).
  unfold TaskEndpoints.parse_title. rewrite bool_decide_eq_true_2 by done.
  rewrite Hp.
  rewrite (create_ok db _ idempotencyKey now uuid Hunc) by done.
  simpl. split; [done|].
  unfold TaskEndpoints.get, TaskQueries.findById.
  rewrite (present_Some tenantId Htn). simpl. rewrite lookup_insert_eq. simpl.
  rewrite bool_decide_eq_true_2 by done.
  rewrite bool_decide_eq_false_2 by (intros ?; done).
  unfold TaskEndpoints.mapTask. simpl. do 4 f_equal.
  unfold TaskQueries.timeline. simpl.
  rewrite filter_app.
  specialize (Hacc id). rewrite Hid in Hacc. unfold events_of in Hacc.
  rewrite Hacc. simpl.
  rewrite filter_cons_True by done. rewrite filter_nil. reflexivity.
Qed.

Lemma created_task_reads_back_witness :
  let out :=
    TaskEndpoints.create (Some "tenant_1") (Some "key-1") "ws_1"
                         (Text "Implement auth") (Text "HIGH") "t1" "e1" 100
                         Scenario.empty in
  TaskController.status out.1 = 201
  ∧ TaskEndpoints.read_status
      (TaskEndpoints.get (Some "tenant_1") "ws_1" "t1" (λ _, 0) out.2 out.2)
    = 200.
Proof.
  destruct (created_task_reads_back "tenant_1" (Some "key-1") "ws_1"
              "Implement auth" (Text "HIGH") HIGH "t1" "e1" 100 (λ _, 0)
              Scenario.empty)
    as [Hcreate Hget].
  - discriminate.
  - simpl. lia.
  - reflexivity.
  - intros key Hkey. simpl. apply lookup_empty.
  - intros taskId. unfold events_of. simpl. by rewrite lookup_empty.
  - apply lookup_empty.
  - simpl. apply not_elem_of_nil.
  - simpl in *. rewrite Hcreate, Hget. done.
Defined.

(** ** Pages of [list] *)

Section ListRows.

Import TaskRepository.

Lemma list_unfold workspaceId tenantId filters release tie db :
  list workspaceId tenantId filters release tie db
  = sql_limit release (Js.or_else (Filters.limit filters) 20)
      (merge_sort (created_desc_tie tie)
         (matching workspaceId tenantId filters db)).
Proof. reflexivity. Qed.

Lemma matching_spec workspaceId tenantId filters db (r : string * Task.t) :
  r ∈ matching workspaceId tenantId filters db
  ↔ tasks db !! r.1 = Some r.2
    ∧ ∀ c, c ∈ conditions workspaceId tenantId filters → c r = true.
Proof.
  unfold matching. rewrite list_elem_of_filter, and_true.
  destruct r as [id row]. rewrite elem_of_map_to_list. simpl. tauto.
Qed.

(** The rows [list] returns are sorted, and are rows the conditions
    select. *)
Lemma list_Ok workspaceId tenantId filters release tie db rows :
  list workspaceId tenantId filters release tie db = Ok rows →
  StronglySorted created_desc rows
  ∧ ∀ r, r ∈ rows → r ∈ matching workspaceId tenantId filters db.
Proof.
  rewrite list_unfold. intros Hlist.
  apply sql_limit_Ok in Hlist as (rest & Hsplit & _).
  pose proof (StronglySorted_merge_sort (created_desc_tie tie)
                (matching workspaceId tenantId filters db)) as Hsorted.
  rewrite Hsplit in Hsorted. apply StronglySorted_app_1_l in Hsorted.
  split.
  - by apply (StronglySorted_weaken (created_desc_tie tie));
      [apply created_desc_tie_desc|].
  - intros r Hr.
    rewrite <- (merge_sort_Permutation (created_desc_tie tie)), Hsplit.
    apply elem_of_app. by left.
Qed.

(** What the state and assignee conditions say of a row that passes. *)
Lemma conditions_filters workspaceId tenantId filters (r : string * Task.t) :
  (∀ c, c ∈ conditions workspaceId tenantId filters → c r = true) →
  (∀ st, Filters.state filters = Some st → st ≠ "" →
         state_text (Task.state r.2) = st)
  ∧ (∀ a, Filters.assigneeId filters = Some a → a ≠ "" →
          Task.assigneeId r.2 = Some a).
Proof.
  unfold conditions. intros H. split.
  - intros st Hst Hne.
    eapply bool_decide_eq_true_1,
      (H (λ r, bool_decide (state_text (Task.state r.2) = st))).
    rewrite Hst, (present_Some st Hne).
    apply elem_of_app. right. apply elem_of_app. left. apply list_elem_of_here.
  - intros a Ha Hne.
    eapply bool_decide_eq_true_1,
      (H (λ r, bool_decide (Task.assigneeId r.2 = Some a))).
    rewrite Ha, (present_Some a Hne).
    apply elem_of_app. right. apply elem_of_app. right.
    apply elem_of_app. left. apply list_elem_of_here.
Qed.

(** [limit || 20] is a number, and not 0. *)
Lemma or_else_truthy (v : option number) :
  Js.or_else v 20 ≠ Num 0 ∧ Js.or_else v 20 ≠ NaN.
Proof.
  unfold Js.or_else. destruct v as [[| z |]|]; try done.
  case_bool_decide; split; congruence.
Qed.

End ListRows.

(** X15. With a non-empty state filter, [list] returns only tasks in that
    state, and none at all when the text names no state; with a non-empty
    assignee filter it returns only tasks assigned to that user, so never
    an unassigned task. *)
Theorem list_applies_filters
    (db : Store) (workspaceId tenantId : string) (filters : Filters.t)
    (release : Drizzle) (tie : string → Z) (rows : list (string * Task.t)) :
  TaskRepository.list workspaceId tenantId filters release tie db = Ok rows →
  (∀ st, Filters.state filters = Some st → st ≠ "" →
         (∀ id task, (id, task) ∈ rows → state_text (Task.state task) = st)
         ∧ ((∀ s, state_text s ≠ st) → rows = []))
  ∧ (∀ a, Filters.assigneeId filters = Some a → a ≠ "" →
          ∀ id task, (id, task) ∈ rows → Task.assigneeId task = Some a).
Proof.
  intros Hlist.
  assert (Hrows : ∀ r, r ∈ rows →
    (∀ st, Filters.state filters = Some st → st ≠ "" →
           state_text (Task.state r.2) = st)
    ∧ (∀ a, Filters.assigneeId filters = Some a → a ≠ "" →
            Task.assigneeId r.2 = Some a)).
  { intros r Hr. apply list_Ok in Hlist as [_ Hsub].
    apply Hsub, matching_spec in Hr as [_ Hc].
    by apply (conditions_filters workspaceId tenantId). }
  split.
  - intros st Hst Hne. split.
    + intros id task Hin. by apply (Hrows (id, task) Hin).
    + intros Hnone. destruct rows as [| [id task] rest]; [done|].
      exfalso. apply (Hnone (Task.state task)).
      apply (Hrows (id, task)); [apply list_elem_of_here | done | done].
  - intros a Ha Hne id task Hin. by apply (Hrows (id, task) Hin).
Qed.

Lemma list_applies_filters_witness :
  TaskRepository.list "ws_1" "tenant_1"
    {| Filters.state := Some "ARCHIVED"; Filters.assigneeId := None;
       Filters.limit := None; Filters.cursor := None |}
    LimitWhenNotNegative (λ _, 0) Scenario.three
  = Ok [].
Proof.
  destruct (TaskRepository.list "ws_1" "tenant_1"
              {| Filters.state := Some "ARCHIVED"; Filters.assigneeId := None;
                 Filters.limit := None; Filters.cursor := None |}
              LimitWhenNotNegative (λ _, 0) Scenario.three)
    as [rows | e] eqn:Hlist; [|vm_compute in Hlist; discriminate].
  destruct (list_applies_filters Scenario.three "ws_1" "tenant_1" _ _ _ rows Hlist)
    as [Hstate _].
  destruct (Hstate "ARCHIVED") as [_ Hnone]; [reflexivity | discriminate |].
  f_equal. apply Hnone. intros s. destruct s; discriminate.
Defined.

(** X16. The page size of [list] is the limit when it is a number other
    than 0, and 20 when the limit is missing, [NaN] or 0; it is never 0.
    With a positive page size that SQLite takes as an integer of 64 bits
    the page holds that many rows, or all the matching rows when there are
    fewer; with a negative one it holds every matching row.  A page size
    too large for 64 bits, or plus infinity, makes [list] throw
    [datatype mismatch]; one too small, or minus infinity, makes it throw
    or return every matching row, as the release of the query builder has
    it. *)
Theorem list_page_size
    (db : Store) (workspaceId tenantId : string) (filters : Filters.t)
    (release : Drizzle) (tie : string → Z) :
  let result := TaskRepository.list workspaceId tenantId filters release tie db in
  let found := matching workspaceId tenantId filters db in
  let size := Js.or_else (Filters.limit filters) 20 in
  size ≠ Num 0 ∧ size ≠ NaN
  ∧ (∀ n, Filters.limit filters = Some (Num n) → n ≠ 0 → size = Num n)
  ∧ (∀ negative, Filters.limit filters = Some (Infinity negative) →
                 size = Infinity negative)
  ∧ (Filters.limit filters = None ∨ Filters.limit filters = Some NaN
     ∨ Filters.limit filters = Some (Num 0) → size = Num 20)
  ∧ (∀ n, size = Num n → 0 < n < 2 ^ 63 - 1 →
          ∃ rows, result = Ok rows
                  ∧ length rows = Nat.min (Z.to_nat n) (length found))
  ∧ (∀ n, size = Num n → - 2 ^ 63 < n < 0 →
          ∃ rows, result = Ok rows ∧ rows ≡ₚ found)
  ∧ (size = Infinity false ∨ (∃ n, size = Num n ∧ 2 ^ 63 - 1 ≤ n) →
     result = Throw SqliteMismatch)
  ∧ (size = Infinity true ∨ (∃ n, size = Num n ∧ n ≤ - 2 ^ 63) →
     result = Throw SqliteMismatch ∨ ∃ rows, result = Ok rows ∧ rows ≡ₚ found).
Proof.
  simpl. rewrite list_unfold.
  pose proof (merge_sort_Permutation (created_desc_tie tie)
                (matching workspaceId tenantId filters db)) as Hperm.
  split; [apply or_else_truthy|]. split; [apply or_else_truthy|].
  split; [|split; [|split; [|split; [|split; [|split]]]]].
  - intros n -> Hn. simpl. by rewrite bool_decide_eq_false_2.
  - by intros negative ->.
  - intros [-> | [-> | ->]]; reflexivity.
  - intros n -> Hn. rewrite sql_limit_positive by done.
    eexists. split; [reflexivity|]. by rewrite length_take, Hperm.
  - intros n -> Hn. rewrite sql_limit_negative by done.
    eexists. split; [reflexivity | done].
  - intros Hsize. by apply sql_limit_too_large.
  - intros Hsize. rewrite sql_limit_too_small by done.
    destruct release; [by left|]. right. eexists. split; [reflexivity | done].
Qed.

Lemma list_page_size_witness :
  (∃ rows,
     TaskRepository.list "ws_1" "tenant_1"
       {| Filters.state := None; Filters.assigneeId := None;
          Filters.limit := Some (Num 2); Filters.cursor := None |}
       LimitWhenNotNegative (λ _, 0) Scenario.three = Ok rows
     ∧ length rows = 2%nat)
  ∧ TaskRepository.list "ws_1" "tenant_1"
      {| Filters.state := None; Filters.assigneeId := None;
         Filters.limit := Some (Num 100000000000000000000);
         Filters.cursor := None |}
      LimitWhenNotNegative (λ _, 0) Scenario.three
    = Throw SqliteMismatch.
Proof.
  split.
  - destruct (list_page_size Scenario.three "ws_1" "tenant_1"
                {| Filters.state := None; Filters.assigneeId := None;
                   Filters.limit := Some (Num 2); Filters.cursor := None |}
                LimitWhenNotNegative (λ _, 0))
      as (_ & _ & _ & _ & _ & Hlen & _).
    destruct (Hlen 2) as (rows & Hrows & Hlength); [reflexivity | lia |].
    exists rows. split; [exact Hrows|]. rewrite Hlength. vm_compute. reflexivity.
  - destruct (list_page_size Scenario.three "ws_1" "tenant_1"
                {| Filters.state := None; Filters.assigneeId := None;
                   Filters.limit := Some (Num 100000000000000000000);
                   Filters.cursor := None |}
                LimitWhenNotNegative (λ _, 0))
      as (_ & _ & _ & _ & _ & _ & _ & Hlarge & _).
    apply Hlarge. right. exists 100000000000000000000. split; [reflexivity | lia].
Defined.

(** X17. Paging by cursor.  When the next page is asked for with the
    creation time of the last row of a page as cursor, every row of the
    next page is strictly older than every row of the page before, so no
    row comes twice; and no row created at that very time is on the next
    page, so a row that shares the creation time of the last row and did
    not fit on the page before is not returned by either.  This holds
    whatever the order SQLite gives to rows of equal creation time in
    either query. *)
Theorem next_page_is_strictly_older
    (db : Store) (workspaceId tenantId : string) (filters : Filters.t)
    (cursor : string) (last_row : string * Task.t)
    (release : Drizzle) (tie tie' : string → Z)
    (page next : list (string * Task.t)) :
  TaskRepository.list workspaceId tenantId filters release tie db = Ok page →
  TaskRepository.list workspaceId tenantId (with_cursor filters cursor)
    release tie' db = Ok next →
  last page = Some last_row →
  Js.parseInt cursor = Num (Task.createdAt last_row.2) →
  (∀ r1 r2, r1 ∈ page → r2 ∈ next → Task.createdAt r2.2 < Task.createdAt r1.2)
  ∧ (∀ r, r ∈ next → r ∉ page)
  ∧ (∀ r, Task.createdAt r.2 = Task.createdAt last_row.2 → r ∉ next).
Proof.
  intros Hlist Hlist' Hlast Hcursor.
  assert (Hnext : ∀ r, r ∈ next → Task.createdAt r.2 < Task.createdAt last_row.2).
  { intros r Hr. apply list_Ok in Hlist' as [_ Hsub].
    apply Hsub, matching_spec in Hr as [_ Hc]. apply and_true in Hc.
    apply conditions_sound in Hc as (_ & _ & Hcur).
    specialize (Hcur cursor eq_refl). rewrite Hcursor in Hcur.
    assert (Hlt : Sqlite.less (Task.createdAt r.2)
                    (Num (Task.createdAt last_row.2)) = true)
      by (by apply Hcur).
    by apply bool_decide_eq_true_1 in Hlt. }
  assert (Hpage : ∀ r, r ∈ page → Task.createdAt last_row.2 ≤ Task.createdAt r.2).
  { intros r Hr. apply list_Ok in Hlist as [Hs _].
    destruct (sorted_last created_desc _ last_row r Hs Hlast Hr) as [Hd | ->];
      [exact Hd | lia]. }
  split; [|split].
  - intros r1 r2 H1 H2. specialize (Hnext r2 H2). specialize (Hpage r1 H1). lia.
  - intros r H2 H1. specialize (Hnext r H2). specialize (Hpage r H1). lia.
  - intros r Heq H2. specialize (Hnext r H2). lia.
Qed.

Lemma next_page_is_strictly_older_witness :
  let first_two :=
    {| Filters.state := None; Filters.assigneeId := None;
       Filters.limit := Some (Num 2); Filters.cursor := None |} in
  TaskRepository.list "ws_1" "tenant_1" (with_cursor first_two "200")
    LimitWhenNotNegative (λ _, 0) Scenario.three
  = Ok [ ("a", TaskRepository.new_row (Scenario.request "a" "first" LOW) 100) ]
  ∧ ∀ r, r ∈ [ ("a", TaskRepository.new_row (Scenario.request "a" "first" LOW) 100) ] →
         r ∉ [ ("c", TaskRepository.new_row (Scenario.request "c" "third" HIGH) 300);
               ("b", TaskRepository.new_row (Scenario.request "b" "second" MEDIUM) 200) ].
Proof.
  simpl. split; [vm_compute; reflexivity|].
  refine (proj1 (proj2 (next_page_is_strictly_older Scenario.three "ws_1" "tenant_1"
            {| Filters.state := None; Filters.assigneeId := None;
               Filters.limit := Some (Num 2); Filters.cursor := None |}
            "200"
            ("b", TaskRepository.new_row (Scenario.request "b" "second" MEDIUM) 200)
            LimitWhenNotNegative (λ _, 0) (λ _, 0) _ _ _ _ _ _))).
  - vm_compute. reflexivity.
  - vm_compute. reflexivity.
  - vm_compute. reflexivity.
  - vm_compute. reflexivity.
Defined.

Section ListHandler.

Lemma list_rows_stored workspaceId tenantId filters release tie db rows
    (r : string * Task.t) :
  TaskRepository.list workspaceId tenantId filters release tie db = Ok rows →
  r ∈ rows →
  tasks db !! r.1 = Some r.2
  ∧ Task.workspaceId r.2 = workspaceId ∧ Task.tenantId r.2 = tenantId.
Proof.
  intros Hlist Hr. apply list_Ok in Hlist as [_ Hsub].
  apply Hsub, matching_spec in Hr as [Hlook Hc]. apply and_true in Hc.
  apply conditions_sound in Hc as (Hw & Ht & _). done.
Qed.

Lemma list_length_bound workspaceId tenantId filters release tie db rows n :
  TaskRepository.list workspaceId tenantId filters release tie db = Ok rows →
  Js.or_else (Filters.limit filters) 20 = Num n → 0 < n →
  (length rows ≤ Z.to_nat n)%nat.
Proof.
  rewrite list_unfold. intros Hlist Hsize Hn. rewrite Hsize in Hlist.
  revert Hlist. unfold sql_limit.
  assert (Hw : writes_limit release (Num n) = true).
  { destruct release; simpl.
    - by rewrite bool_decide_eq_false_2 by lia.
    - by rewrite bool_decide_eq_true_2 by lia. }
  rewrite Hw. destruct (Sqlite.must_be_int (Num n)) as [z|] eqn:Hz; [|discriminate].
  apply must_be_int_Some in Hz as [[= <-] _].
  intros [= <-]. apply first_rows_length. lia.
Qed.

(** The page size the handler of [list] asks the repository for. *)
Lemma list_filters_size state assignee_id limit cursor :
  Js.or_else
    (Filters.limit (TaskEndpoints.list_filters state assignee_id limit cursor)) 20
  = match Js.present limit with
    | Some l =>
        match Js.parseInt l with
        | NaN | Num 0 => Num 20
        | size => size
        end
    | None => Num 20
    end.
Proof.
  unfold TaskEndpoints.list_filters. cbn [Filters.limit].
  destruct (Js.present limit) as [l|]; [|done].
  destruct (Js.parseInt l) as [| z |]; [done | | done].
  simpl. case_bool_decide as Hz; [by subst z|]. by destruct z.
Qed.

End ListHandler.

(** X18. The handler of [list] refuses a request without tenant header
    with 400.  Otherwise it answers 200 with tasks stored for that tenant
    and workspace, under their public names and without timeline, or its
    promise rejects with [datatype mismatch] and Express answers 500.  It
    answers 200 with at most 20 tasks when the [limit] parameter is
    missing, empty, not a number or 0, and with at most [n] when it reads
    as a positive number [n] that SQLite takes as an integer of 64 bits;
    it is answered 500 when the parameter reads as a number too large for
    that, or as plus infinity. *)
Theorem list_handler_page
    (tenantId : option string) (workspaceId : string)
    (state assignee_id limit cursor : option string)
    (release : Drizzle) (tie : string → Z) (db : Store) :
  let outcome :=
    TaskEndpoints.list tenantId workspaceId state assignee_id limit cursor
                       release tie db in
  match Js.present tenantId with
  | None =>
      outcome = Ok (TaskEndpoints.mkReadReply 400
                      (TaskEndpoints.ReadError "X-Tenant-Id header required"))
  | Some tenant =>
      match outcome with
      | Ok reply =>
          ∃ views,
            reply = TaskEndpoints.mkReadReply 200 (TaskEndpoints.ManyTasks views)
            ∧ (∀ view, view ∈ views →
                 ∃ task, tasks db !! TaskView.task_id view = Some task
                         ∧ view = TaskEndpoints.mapTask (TaskView.task_id view)
                                    task None
                         ∧ TaskView.tenant_id view = tenant
                         ∧ TaskView.workspace_id view = workspaceId)
            ∧ (∀ l n, limit = Some l → Js.parseInt l = Num n → 0 < n →
                      (length views ≤ Z.to_nat n)%nat)
            ∧ (Js.present limit = None
               ∨ (∃ l, limit = Some l
                       ∧ (Js.parseInt l = NaN ∨ Js.parseInt l = Num 0)) →
               (length views ≤ 20)%nat)
      | Throw e =>
          e = SqliteMismatch
          ∧ TaskEndpoints.routed outcome
            = TaskEndpoints.mkReadReply 500 TaskEndpoints.ErrorPage
          ∧ ∃ l, limit = Some l ∧ Js.parseInt l ≠ NaN
                 ∧ Sqlite.must_be_int (Js.parseInt l) = None
      end
      ∧ (Js.present limit = None
         ∨ (∃ l, limit = Some l
                 ∧ (Js.parseInt l = NaN ∨ Js.parseInt l = Num 0
                    ∨ ∃ n, Js.parseInt l = Num n ∧ 0 < n < 2 ^ 63 - 1)) →
         TaskEndpoints.read_status (TaskEndpoints.routed outcome) = 200)
      ∧ ((∃ l, limit = Some l
               ∧ (Js.parseInt l = Infinity false
                  ∨ ∃ n, Js.parseInt l = Num n ∧ 2 ^ 63 - 1 ≤ n)) →
         TaskEndpoints.read_status (TaskEndpoints.routed outcome) = 500)
  end.
Proof.
  simpl. unfold TaskEndpoints.list.
  destruct (Js.present tenantId) as [tenant|]; [|done].
  set (filters := TaskEndpoints.list_filters state assignee_id limit cursor).
  pose proof (list_filters_size state assignee_id limit cursor) as Hsize.
  fold filters in Hsize.
  assert (Hempty : ∀ l, limit = Some l → Js.parseInt l ≠ NaN →
                        Js.present limit = Some l).
  { intros l -> Hl. by apply parseInt_present. }
  split; [|split].
  - destruct (TaskRepository.list workspaceId tenant filters release tie db)
      as [rows | e] eqn:Hlist.
    + eexists. split; [reflexivity|]. split; [|split].
      * intros view Hview.
        apply list_elem_of_fmap in Hview as ([id task] & -> & Hr).
        apply (list_rows_stored _ _ _ _ _ _ _ _ Hlist) in Hr as (Hlook & Hw & Ht).
        simpl in *. by exists task.
      * intros l n Hlimit Hl Hn. rewrite length_fmap.
        apply (list_length_bound _ _ _ _ _ _ _ n Hlist); [|done].
        rewrite Hsize, (Hempty l Hlimit) by (by rewrite Hl). rewrite Hl.
        destruct n; [lia | done | done].
      * intros Hlimit. rewrite length_fmap.
        apply (list_length_bound _ _ _ _ _ _ _ 20 Hlist); [|done].
        rewrite Hsize. destruct Hlimit as [-> | (l & -> & Hl)]; [done|].
        unfold Js.present. case_bool_decide; [done|].
        by destruct Hl as [-> | ->].
    + rewrite list_unfold in Hlist.
      apply sql_limit_Throw in Hlist as (-> & Hint & _).
      split; [done|]. split; [done|].
      fold filters in Hint. rewrite Hsize in Hint.
      destruct (Js.present limit) as [l|] eqn:Hpresent; [|discriminate].
      assert (limit = Some l) as ->.
      { destruct limit as [l'|]; [|discriminate]. unfold Js.present in Hpresent.
        case_bool_decide; [discriminate | congruence]. }
      exists l. split; [done|].
      destruct (Js.parseInt l) as [| z |]; [discriminate | | done].
      split; [done|]. destruct z; [vm_compute in Hint; discriminate | done | done].
  - intros Hlimit.
    assert (Hn : ∃ n, Js.or_else (Filters.limit filters) 20 = Num n
                      ∧ 0 < n < 2 ^ 63 - 1).
    { rewrite Hsize. destruct Hlimit as [-> | (l & -> & Hl)];
        [exists 20; split; [done | lia]|].
      unfold Js.present. case_bool_decide; [exists 20; split; [done | lia]|].
      destruct Hl as [-> | [-> | (n & -> & Hn)]];
        [exists 20; split; [done | lia] | exists 20; split; [done | lia] |].
      exists n. split; [destruct n; [lia | done | done] | done]. }
    destruct Hn as (n & Hn & Hrange).
    rewrite list_unfold. fold filters. rewrite Hn.
    by rewrite sql_limit_positive by done.
  - intros (l & -> & Hl).
    assert (Hlarge : Js.or_else (Filters.limit filters) 20 = Infinity false
                     ∨ ∃ n, Js.or_else (Filters.limit filters) 20 = Num n
                            ∧ 2 ^ 63 - 1 ≤ n).
    { rewrite Hsize. destruct Hl as [Hl | (n & Hl & Hn)].
      - rewrite (parseInt_present l) by (by rewrite Hl). rewrite Hl. by left.
      - rewrite (parseInt_present l) by (by rewrite Hl). rewrite Hl.
        right. exists n. split; [destruct n; [lia | done | done] | done]. }
    rewrite list_unfold. fold filters.
    by rewrite sql_limit_too_large by done.
Qed.

Lemma list_handler_page_witness :
  TaskEndpoints.read_status
    (TaskEndpoints.routed
       (TaskEndpoints.list (Some "tenant_1") "ws_1" None None (Some "abc") None
                           LimitWhenNotNegative (λ _, 0) Scenario.three))
  = 200
  ∧ TaskEndpoints.read_status
      (TaskEndpoints.routed
         (TaskEndpoints.list (Some "tenant_1") "ws_1" None None
                             (Some "99999999999999999999") None
                             LimitWhenNotNegative (λ _, 0) Scenario.three))
    = 500.
Proof.
  split.
  - pose proof (list_handler_page (Some "tenant_1") "ws_1" None None (Some "abc")
                  None LimitWhenNotNegative (λ _, 0) Scenario.three) as H.
    hnf in H. destruct H as (_ & H200 & _).
    apply H200. right. exists "abc". split; [reflexivity|]. left.
    vm_compute. reflexivity.
  - pose proof (list_handler_page (Some "tenant_1") "ws_1" None None
                  (Some "99999999999999999999") None LimitWhenNotNegative
                  (λ _, 0) Scenario.three) as H.
    hnf in H. destruct H as (_ & _ & H500).
    apply H500. exists "99999999999999999999". split; [reflexivity|]. right.
    exists 100000000000000000000. split; [vm_compute; reflexivity | lia].
Defined.

(** ** Handlers in sequence *)

Section Sequences.

Import TaskController Outcome.

Lemma validate_assigned_agent (from to : TaskState) (user : string) :
  (from = NEW ∧ to = IN_PROGRESS) ∨ (from = IN_PROGRESS ∧ to = DONE) →
  TaskDomain.validateTransition from to "agent" (Some user) user = true.
Proof.
  intros [[-> ->] | [-> ->]]; unfold TaskDomain.validateTransition;
    rewrite (bool_decide_eq_false_2 (Some user ≠ Some user)) by (intros ?; done);
    reflexivity.
Qed.

Lemma validate_other_agent (from to : TaskState) (assignee : option string)
    (user : string) :
  assignee ≠ Some user →
  TaskDomain.validateTransition from to "agent" assignee user = false.
Proof.
  intros Hne. unfold TaskDomain.validateTransition.
  destruct (negb _); [done|].
  rewrite (bool_decide_eq_false_2 ("agent" = "manager")) by discriminate.
  rewrite (bool_decide_eq_true_2 ("agent" = "agent")) by done.
  by rewrite bool_decide_eq_true_2.
Qed.

(** An accepted [transition] request, as the store it leaves. *)
Lemma serve_transition_ok role tn u ws id v to now uuid db task :
  tn ≠ "" →
  tasks db !! id = Some task →
  Task.tenantId task = tn →
  Task.workspaceId task = ws →
  TaskDomain.validateTransition (Task.state task) to role (Task.assigneeId task) u
  = true →
  Task.version task = v →
  uuid ∉ event_ids db →
  serve (PostChange (TransitionRequest role tn u ws id v to) now uuid) db
  = mkStore (<[id := TaskRepository.set_state to (v + 1) now task]> (tasks db))
            (taskEvents db ++ [changed_event id (Task.state task) to now uuid])
            (idempotencyKeys db).
Proof.
  intros Htn Hlook Ht Hw Hval Hv Hu. unfold serve. simpl.
  rewrite bool_decide_eq_false_2 by done. rewrite alone_transition.
  assert (Hnew : to ≠ NEW).
  { intros ->. apply validate_edge in Hval.
    destruct Hval as [[_ ?] | [[_ ?] | [[_ ?] | [_ ?]]]]; discriminate. }
  rewrite bool_decide_eq_false_2 by done.
  rewrite (proj2 (findById_Some id tn db task)) by done.
  rewrite bool_decide_eq_false_2 by (intros ?; done).
  rewrite Hval. simpl. by rewrite (transition_ok _ _ _ _ _ _ task).
Qed.

(** An accepted [assign] request, as the store it leaves. *)
Lemma serve_assign_ok tn ws id v a now uuid db task :
  tn ≠ "" →
  tasks db !! id = Some task →
  Task.tenantId task = tn →
  Task.workspaceId task = ws →
  ¬ StateMachineSpec.terminal (Task.state task) →
  a ≠ "" →
  Task.version task = v →
  uuid ∉ event_ids db →
  serve (PostChange (AssignRequest "manager" tn ws id v a) now uuid) db
  = mkStore (<[id := TaskRepository.set_assignee a (v + 1) now task]> (tasks db))
            (taskEvents db ++ [assigned_event id a now uuid])
            (idempotencyKeys db).
Proof.
  intros Htn Hlook Ht Hw Hlive Ha Hv Hu. unfold serve. simpl.
  rewrite bool_decide_eq_false_2 by done. rewrite alone_assign.
  rewrite bool_decide_eq_false_2 by done.
  rewrite bool_decide_eq_false_2 by (intros ?; done).
  rewrite (proj2 (findById_Some id tn db task)) by done.
  rewrite bool_decide_eq_false_2 by (intros ?; done).
  by rewrite (assign_ok _ _ _ _ _ _ task).
Qed.

Lemma fresh_after (db : Store) (t : gmap string Task.t) (ev : Event.t)
    (i : gmap string IdempotencyKey.t) (uuid : string) :
  uuid ∉ event_ids db → uuid ≠ Event.id ev →
  uuid ∉ event_ids (mkStore t (taskEvents db ++ [ev]) i).
Proof.
  intros Hu Hne. unfold event_ids in *. simpl. rewrite fmap_app.
  intros Hin. apply elem_of_app in Hin as [Hin | Hin]; [done|].
  simpl in Hin. by apply list_elem_of_singleton in Hin.
Qed.

End Sequences.

(** X19. The life of a task, with the requests served one after the other.
    On a [NEW] task a manager's assign, then the assignee's start, then the
    assignee's completion, each with the version the one before returned,
    are all accepted: the task ends [DONE], three versions up, assigned to
    that user.  After the assign, a start by any other agent leaves the
    store as it is. *)
Theorem assigned_agent_completes
    (db : Store) (taskId tenantId workspaceId assignee : string) (v : Z)
    (task : Task.t) (now1 now2 now3 : Z) (uuid1 uuid2 uuid3 : string) :
  tenantId ≠ "" →
  tasks db !! taskId = Some task →
  Task.tenantId task = tenantId →
  Task.workspaceId task = workspaceId →
  Task.state task = NEW →
  Task.version task = v →
  assignee ≠ "" →
  uuid1 ∉ event_ids db → uuid2 ∉ event_ids db → uuid3 ∉ event_ids db →
  uuid2 ≠ uuid1 → uuid3 ≠ uuid1 → uuid3 ≠ uuid2 →
  let assign :=
    PostChange (TaskController.AssignRequest "manager" tenantId workspaceId taskId
                                             v assignee) now1 uuid1 in
  let start :=
    PostChange (TaskController.TransitionRequest "agent" tenantId assignee
                  workspaceId taskId (v + 1) IN_PROGRESS) now2 uuid2 in
  let complete :=
    PostChange (TaskController.TransitionRequest "agent" tenantId assignee
                  workspaceId taskId (v + 2) DONE) now3 uuid3 in
  (∃ task', tasks (serve_all [assign; start; complete] db) !! taskId = Some task'
            ∧ Task.state task' = DONE
            ∧ Task.version task' = v + 3
            ∧ Task.assigneeId task' = Some assignee)
  ∧ (∀ other now uuid,
       other ≠ assignee →
       serve (PostChange (TaskController.TransitionRequest "agent" tenantId other
                            workspaceId taskId (v + 1) IN_PROGRESS) now uuid)
             (serve assign db)
       = serve assign db).
Proof.
  intros Htn Hlook Ht Hw Hstate Hv Ha Hu1 Hu2 Hu3 H21 H31 H32.
  cbv zeta. unfold serve_all. cbn [foldl].
  assert (Hlive : ¬ StateMachineSpec.terminal (Task.state task)).
  { rewrite Hstate. intros [? | ?]; discriminate. }
  rewrite (serve_assign_ok tenantId workspaceId taskId v assignee now1 uuid1 db task)
    by done.
  set (task1 := TaskRepository.set_assignee assignee (v + 1) now1 task).
  set (db1 := mkStore (<[taskId := task1]> (tasks db)) _ _).
  assert (Hlook1 : tasks db1 !! taskId = Some task1) by apply lookup_insert_eq.
  split.
  - rewrite (serve_transition_ok "agent" tenantId assignee workspaceId taskId
               (v + 1) IN_PROGRESS now2 uuid2 db1 task1); try done.
    2: { simpl. rewrite Hstate. apply validate_assigned_agent. by left. }
    2: { by apply fresh_after. }
    set (task2 := TaskRepository.set_state IN_PROGRESS (v + 1 + 1) now2 task1).
    set (db2 := mkStore (<[taskId := task2]> (tasks db1)) _ _).
    assert (Hlook2 : tasks db2 !! taskId = Some task2) by apply lookup_insert_eq.
    rewrite (serve_transition_ok "agent" tenantId assignee workspaceId taskId
               (v + 2) DONE now3 uuid3 db2 task2); try done.
    + eexists. split; [simpl; apply lookup_insert_eq|]. simpl.
      repeat split; try done. lia.
    + simpl. apply validate_assigned_agent. by right.
    + simpl. lia.
    + apply fresh_after; [|done]. by apply fresh_after.
  - intros other now uuid Hother. unfold serve. simpl.
    rewrite bool_decide_eq_false_2 by done. rewrite alone_transition.
    rewrite bool_decide_eq_false_2 by discriminate.
    rewrite (proj2 (findById_Some taskId tenantId db1 task1)) by done.
    rewrite bool_decide_eq_false_2 by (intros ?; done).
    rewrite validate_other_agent; [done|].
    simpl. intros [= ->]. done.
Qed.

Lemma assigned_agent_completes_witness :
  ∃ task',
    tasks (serve_all
             [ PostChange (TaskController.AssignRequest
                             "manager" "tenant_1" "ws_1" "t1" 1 "user_123") 101 "e2";
               PostChange (TaskController.TransitionRequest
                             "agent" "tenant_1" "user_123" "ws_1" "t1" (1 + 1)
                             IN_PROGRESS) 102 "e3";
               PostChange (TaskController.TransitionRequest
                             "agent" "tenant_1" "user_123" "ws_1" "t1" (1 + 2)
                             DONE) 103 "e4" ] Scenario.created) !! "t1"
    = Some task'
    ∧ Task.state task' = DONE
    ∧ Task.version task' = 1 + 3.
Proof.
  assert (Hfresh : ∀ u : string, u ≠ "e1" → u ∉ event_ids Scenario.created).
  { intros u Hu Hin. vm_compute in Hin.
    apply list_elem_of_singleton in Hin. done. }
  destruct (assigned_agent_completes Scenario.created "t1" "tenant_1" "ws_1"
              "user_123" 1
              (TaskRepository.new_row (Scenario.request "t1" "Implement auth" HIGH) 100)
              101 102 103 "e2" "e3" "e4")
    as [(task' & Hlook & Hstate & Hv & _) _];
    try reflexivity; try discriminate; try (apply Hfresh; discriminate).
  by exists task'.
Defined.

(** X20. An accepted assign or transition request cannot be replayed.
    When a request with a non-empty tenant header is answered 200, the same request sent again, whenever
    and with whatever event identifier, is answered 409 and leaves the
    store as the first one left it. *)
Theorem accepted_request_is_not_replayed
    (req : TaskController.Request) (now now' : Z) (uuid uuid' : string)
    (db : Store) (r : Response.t) :
  request_tenant req ≠ "" →
  (TaskController.alone req now uuid db).1
  = TaskController.Replied (TaskController.mkReply 200 (TaskController.Json r)) →
  let db1 := (TaskController.alone req now uuid db).2 in
  ∃ error,
    TaskController.alone req now' uuid' db1
    = (TaskController.Replied
         (TaskController.mkReply 409 (TaskController.ErrorText error)), db1).
Proof.
  intros _ Hok. cbv zeta.
  destruct (alone_200 req now uuid db r Hok) as (task & Hread & Hpass & Hexec).
  assert (Hdb1 : (TaskController.alone req now uuid db).2
                 = (exec (call_of req now uuid) db).2).
  { unfold TaskController.alone. cbn [TaskController.step]. rewrite Hread.
    cbn [TaskController.step]. rewrite finish_passes by done. reflexivity. }
  rewrite Hdb1.
  destruct (exec (call_of req now uuid) db) as [res db1] eqn:Hx.
  simpl in Hexec. subst res. simpl.
  pose proof (target_call_of req now uuid) as Htarget.
  destruct (exec_ok_version _ (TaskController.names req).1
              (TaskController.names req).2 db db1 r
              ltac:(by rewrite Htarget; destruct (TaskController.names req)) Hx)
    as (_ & Hv1 & _ & _).
  unfold version_of in Hv1.
  destruct (tasks db1 !! (TaskController.names req).1) as [task1|] eqn:Hlook1;
    [|discriminate].
  injection Hv1 as Hv1.
  assert (Hread1 : ∃ t, TaskController.read req db1 = TaskController.Loaded req t).
  { destruct req; simpl in *; revert Hread; repeat case_bool_decide;
      try discriminate; eauto. }
  destruct Hread1 as [t Hread1].
  destruct req as [role tn ws id v a | role tn u ws id v to]; simpl in *.
  - rewrite alone_assign.
    revert Hread. case_bool_decide; [discriminate|].
    case_bool_decide; [discriminate|]. intros [= Hfind].
    apply findById_Some in Hfind as [Hlook Htn].
    apply assign_inv in Hx as (task0 & Hlook0 & _ & _ & _ & _ & ->).
    rewrite Hlook in Hlook0. injection Hlook0 as <-.
    simpl in Hlook1. rewrite lookup_insert_eq in Hlook1. injection Hlook1 as <-.
    rewrite (proj2 (findById_Some id tn _ _)) by (split; [apply lookup_insert_eq | done]).
    simpl.
    apply bool_decide_eq_true_1 in Hpass.
    rewrite bool_decide_eq_false_2 by (intros ?; done).
    match goal with |- context [TaskRepository.assign id a v now' uuid' ?d] =>
      rewrite (assign_version_mismatch d id a v now' uuid'
                 (TaskRepository.set_assignee a (v + 1) now task))
        by (first [apply lookup_insert_eq | simpl; lia]) end.
    simpl. by eexists.
  - rewrite alone_transition.
    revert Hread. case_bool_decide; [discriminate|]. intros [= Hfind].
    apply findById_Some in Hfind as [Hlook Htn].
    apply transition_inv in Hx as (task0 & Hlook0 & _ & _ & _ & ->).
    rewrite Hlook in Hlook0. injection Hlook0 as <-.
    simpl in Hlook1. rewrite lookup_insert_eq in Hlook1. injection Hlook1 as <-.
    rewrite (proj2 (findById_Some id tn _ _)) by (split; [apply lookup_insert_eq | done]).
    simpl.
    apply andb_true_iff in Hpass as [Hw _]. apply bool_decide_eq_true_1 in Hw.
    rewrite bool_decide_eq_false_2 by (intros ?; done).
    destruct (negb _); [by eexists|].
    match goal with |- context [TaskRepository.transition id to v now' uuid' ?d] =>
      rewrite (transition_version_mismatch d id to v now' uuid'
                 (TaskRepository.set_state to (v + 1) now task))
        by (first [apply lookup_insert_eq | simpl; lia]) end.
    simpl. by eexists.
Qed.

Lemma accepted_request_is_not_replayed_witness :
  let request :=
    TaskController.AssignRequest "manager" "tenant_1" "ws_1" "t1" 1 "user_123" in
  let db1 := (TaskController.alone request 101 "e2" Scenario.created).2 in
  ∃ error,
    (TaskController.alone request 102 "e3" db1).1
    = TaskController.Replied
        (TaskController.mkReply 409 (TaskController.ErrorText error)).
Proof.
  simpl.
  destruct (accepted_request_is_not_replayed
              (TaskController.AssignRequest "manager" "tenant_1" "ws_1" "t1" 1 "user_123")
              101 102 "e2" "e3" Scenario.created
              {| Response.task_id := "t1"; Response.state := NEW;
                 Response.version := 2 |})
    as [error Herror].
  - discriminate.
  - vm_compute. reflexivity.
  - exists error. simpl in Herror. by rewrite Herror.
Defined.

Section CreateHandler.

Import Outcome.

(** [create] of the repository throws only on an identifier that is taken,
    with the error of the primary key it is taken in, and then writes
    nothing. *)
Lemma create_throws (db db' : Store) (new : NewTask.t) (key : option string)
    (now : Z) (uuid : string) (e : Error) :
  TaskRepository.create new key now uuid db = (Throw e, db') →
  db' = db
  ∧ (e = SqliteConstraint "tasks.id" ∨ e = SqliteConstraint "task_events.id")
  ∧ uncached db key
  ∧ (is_Some (tasks db !! NewTask.id new) ∨ uuid ∈ event_ids db).
Proof.
  intros Hrun.
  assert (Hdb : db' = db)
    by apply (exec_throw (Create new key now uuid) db db' e Hrun).
  subst db'.
  destruct (Js.present key) as [k|] eqn:Hk.
  - destruct (idempotencyKeys db !! k) as [row|] eqn:Hrow.
    { rewrite (create_cached _ _ _ _ _ k row) in Hrun by done. discriminate. }
    assert (Hunc : uncached db key).
    { intros k' Hk'. rewrite Hk in Hk'. by injection Hk' as <-. }
    destruct (tasks db !! NewTask.id new) as [old|] eqn:Hid.
    + revert Hrun.
      unfold TaskRepository.create, Tx.transaction, Tx.bind,
        Tx.select_idempotencyKey, Tx.insert_task, Tx.ret.
      rewrite Hk, Hrow. simpl. rewrite Hid. intros [= <-].
      split; [done|]. split; [by left|]. split; [done|]. left. by eexists.
    + destruct (decide (uuid ∈ event_ids db)) as [Hu | Hu].
      * revert Hrun.
        unfold TaskRepository.create, Tx.transaction, Tx.bind,
          Tx.select_idempotencyKey, Tx.insert_task, Tx.insert_event, Tx.ret.
        rewrite Hk, Hrow. simpl. rewrite Hid. simpl.
        rewrite bool_decide_eq_true_2 by done. intros [= <-].
        split; [done|]. split; [by right|]. split; [done|]. by right.
      * rewrite create_ok in Hrun by done. discriminate.
  - assert (Hunc : uncached db key).
    { intros k' Hk'. rewrite Hk in Hk'. discriminate. }
    destruct (tasks db !! NewTask.id new) as [old|] eqn:Hid.
    + revert Hrun.
      unfold TaskRepository.create, Tx.transaction, Tx.bind,
        Tx.select_idempotencyKey, Tx.insert_task, Tx.ret.
      rewrite Hk. simpl. rewrite Hid. intros [= <-].
      split; [done|]. split; [by left|]. split; [done|]. left. by eexists.
    + destruct (decide (uuid ∈ event_ids db)) as [Hu | Hu].
      * revert Hrun.
        unfold TaskRepository.create, Tx.transaction, Tx.bind,
          Tx.select_idempotencyKey, Tx.insert_task, Tx.insert_event, Tx.ret.
        rewrite Hk. simpl. rewrite Hid. simpl.
        rewrite bool_decide_eq_true_2 by done. intros [= <-].
        split; [done|]. split; [by right|]. split; [done|]. by right.
      * rewrite create_ok in Hrun by done. discriminate.
Qed.

End CreateHandler.

(** X21. The handler of [create] answers 201, 400 or 500.  It answers 201
    only to a request with a non-empty tenant header, a title that is a
    string of 1 to 120 characters and a priority that is missing or one of
    LOW, MEDIUM and HIGH.  With any other status it leaves the store as it
    was: when the task identifier or the event identifier it drew is
    taken, which is the only way to 500, the row inserted before the
    failure is not kept. *)
Theorem create_handler_refusal_writes_nothing
    (tenantId idempotencyKey : option string) (workspaceId : string)
    (title priority : Field) (id uuid : string) (now : Z) (db : Store) :
  let out := TaskEndpoints.create tenantId idempotencyKey workspaceId title
               priority id uuid now db in
  TaskController.status out.1 ∈ [201; 400; 500]
  ∧ (TaskController.status out.1 ≠ 201 → out.2 = db)
  ∧ (TaskController.status out.1 = 201 →
     ∃ tenant text,
       tenantId = Some tenant ∧ tenant ≠ ""
       ∧ title = Text text ∧ (1 ≤ String.length text ≤ 120)%nat
       ∧ (priority = Missing ∨ priority = Text "LOW" ∨ priority = Text "MEDIUM"
          ∨ priority = Text "HIGH"))
  ∧ (TaskController.status out.1 = 500 →
     is_Some (tasks db !! id) ∨ uuid ∈ event_ids db).
Proof.
  simpl. unfold TaskEndpoints.create.
  destruct (Js.present tenantId) as [tenant|] eqn:Htn.
  2: { simpl. split; [apply list_elem_of_In; simpl; tauto|].
       split; [done|]. split; intros [=]. }
  apply present_inv in Htn as [-> Htn].
  destruct (TaskEndpoints.parse_title title) as [text|] eqn:Htitle.
  2: { simpl. split; [apply list_elem_of_In; simpl; tauto|].
       split; [done|]. split; intros [=]. }
  apply parse_title_Some in Htitle as [-> Hlen].
  destruct (TaskEndpoints.parse_priority priority) as [p|] eqn:Hp.
  2: { simpl. split; [apply list_elem_of_In; simpl; tauto|].
       split; [done|]. split; intros [=]. }
  assert (Hprio : priority = Missing ∨ priority = Text "LOW"
                  ∨ priority = Text "MEDIUM" ∨ priority = Text "HIGH").
  { destruct priority as [| s |]; [by left | | done]. simpl in Hp.
    repeat case_bool_decide; subst; try discriminate; tauto. }
  match goal with |- context [TaskRepository.create ?n idempotencyKey now uuid db] =>
    set (new := n) end.
  destruct (TaskRepository.create new idempotencyKey now uuid db)
    as [[r | e] db'] eqn:Hrun; simpl.
  - split; [apply list_elem_of_In; simpl; tauto|]. split; [done|].
    split; [|intros [=]]. intros _. by exists tenant, text.
  - apply create_throws in Hrun as (-> & _ & _ & Hwhy).
    split; [apply list_elem_of_In; simpl; tauto|]. split; [done|].
    split; [intros [=]|]. by intros _.
Qed.

Lemma create_handler_refusal_witness :
  (TaskEndpoints.create (Some "tenant_1") None "ws_1" (Text "") Missing
                        "t2" "e2" 101 Scenario.created).2
  = Scenario.created.
Proof.
  destruct (create_handler_refusal_writes_nothing
              (Some "tenant_1") None "ws_1" (Text "") Missing "t2" "e2" 101
              Scenario.created) as (_ & Hkeep & _).
  apply Hkeep. vm_compute. discriminate.
Defined.
